(** * Slack Connect scheduler: store, Slack client and scheduler loop

    A shallow embedding of the server side of the repository:

    - [server/src/database/database.ts]  (class [Database]),
    - [server/src/services/slackService.ts] (class [SlackService]),
    - [server/src/services/schedulerService.ts] (class [SchedulerService]),
    - [server/src/middleware/auth.ts] ([authMiddleware]),
    - [server/src/routes/messages.ts] (the [/send], [/schedule] and
      [/scheduled] handlers),
    - [server/src/routes/auth.ts] (the [/slack/callback], [/me] and
      [/refresh] handlers).

    Conventions.  A MongoDB collection is the list of its documents in
    insertion order; [findOne], [updateOne] and [deleteOne] act on the
    first match.  A [find] with a sort returns the matching documents
    sorted; a [find] without one returns them in an order the code does
    not determine, which is read from outside ([FindOrder]).

    Every method of [Database] starts by throwing ['Database not
    connected'] when [connect()] has not set the collections.  That guard
    is modelled in [getUserByWorkspaceId], the first store call of the
    middleware and of every [/auth] handler, which is where a request can
    meet a store that is not connected ([Connection]); the handlers of
    [/messages] run behind the middleware.  The scheduler is modelled on
    a connected store, so the only store errors there are the ones the
    source throws itself (no document matched).

    An [async] function is a [Task]: a function of the store that returns
    a completion (normal or thrown), the new store and the calls it made
    to the Slack Web API.  Everything the code reads from the outside (the
    clock, Slack's answers) comes from a [World].  Ids are [ObjectId]
    values: where the code converts a string with [new ObjectId(s)], the
    conversion is a parameter [string -> option ObjectId] ([None] when it
    throws).  Numbers are integers.  A [string] holds the UTF-8 encoding
    of a JavaScript string. *)

From Stdlib Require Import ZArith List String Bool Lia Sorted Permutation.
Import ListNotations.
Open Scope string_scope.
Open Scope list_scope.
Open Scope Z_scope.

Set Implicit Arguments.

(** ** Documents *)

Definition ObjectId := N.

Inductive Status := pending | sent | failed.

Definition Status_eqb (a b : Status) : bool :=
  match a, b with
  | pending, pending | sent, sent | failed, failed => true
  | _, _ => false
  end.

(** [interface User] of database.ts.  [refresh_token] and
    [token_expires_at] are optional and nullable: [None] stands for both
    [undefined] and [null].  Dates are milliseconds since the epoch. *)
Record User := mkUser {
  u_id : ObjectId;
  slack_workspace_id : string;
  access_token : string;
  refresh_token : option string;
  token_expires_at : option Z;
  u_created_at : Z;
  u_updated_at : Z
}.

(** [interface ScheduledMessage] of database.ts. *)
Record ScheduledMessage := mkMessage {
  _id : ObjectId;
  user_id : ObjectId;
  channel : string;
  message : string;
  send_timestamp : Z;
  status : Status;
  retry_count : Z;
  created_at : Z;
  updated_at : Z
}.

(** [Partial<Omit<ScheduledMessage, '_id' | 'created_at' | 'updated_at'>>] *)
Record MessageUpdates := mkMessageUpdates {
  set_user_id : option ObjectId;
  set_channel : option string;
  set_message : option string;
  set_send_timestamp : option Z;
  set_status : option Status;
  set_retry_count : option Z
}.

(** [Partial<Omit<User, '_id' | 'created_at' | 'updated_at'>>] *)
Record UserUpdates := mkUserUpdates {
  set_slack_workspace_id : option string;
  set_access_token : option string;
  set_refresh_token : option (option string);
  set_token_expires_at : option (option Z)
}.

Definition or_keep {A : Type} (new : option A) (old : A) : A :=
  match new with Some v => v | None => old end.

(** [{ $set: { ...updates, updated_at: new Date() } }] on one message. *)
Definition set_message_fields (updates : MessageUpdates) (date : Z)
    (m : ScheduledMessage) : ScheduledMessage :=
  {| _id := _id m;
     user_id := or_keep (set_user_id updates) (user_id m);
     channel := or_keep (set_channel updates) (channel m);
     message := or_keep (set_message updates) (message m);
     send_timestamp := or_keep (set_send_timestamp updates) (send_timestamp m);
     status := or_keep (set_status updates) (status m);
     retry_count := or_keep (set_retry_count updates) (retry_count m);
     created_at := created_at m;
     updated_at := date |}.

(** [{ $set: { ...updates, updated_at: new Date() } }] on one user. *)
Definition set_user_fields (updates : UserUpdates) (date : Z) (u : User) : User :=
  {| u_id := u_id u;
     slack_workspace_id := or_keep (set_slack_workspace_id updates) (slack_workspace_id u);
     access_token := or_keep (set_access_token updates) (access_token u);
     refresh_token := or_keep (set_refresh_token updates) (refresh_token u);
     token_expires_at := or_keep (set_token_expires_at updates) (token_expires_at u);
     u_created_at := u_created_at u;
     u_updated_at := date |}.

(** ** Collections *)

Section Collection.
Variable Doc : Type.
Variable query : Doc -> bool.

(** [collection.findOne(query)] *)
Definition findOne (docs : list Doc) : option Doc := find query docs.

(** The documents after [collection.updateOne(query, {$set: ...})]. *)
Fixpoint updateOne (change : Doc -> Doc) (docs : list Doc) : list Doc :=
  match docs with
  | [] => []
  | d :: rest =>
      if query d then change d :: rest else d :: updateOne change rest
  end.

(** [result.matchedCount] of [updateOne]. *)
Definition matchedCount (docs : list Doc) : Z :=
  if existsb query docs then 1 else 0.

(** The documents after [collection.deleteOne(query)]. *)
Fixpoint deleteOne (docs : list Doc) : list Doc :=
  match docs with
  | [] => []
  | d :: rest => if query d then rest else d :: deleteOne rest
  end.

(** [result.deletedCount] of [deleteOne]. *)
Definition deletedCount (docs : list Doc) : Z :=
  if existsb query docs then 1 else 0.
End Collection.

Record Database := mkDatabase {
  users : list User;
  scheduledMessages : list ScheduledMessage
}.

(** ** Tasks: the [async] functions *)

Inductive Error := mkError (msg : string).

Inductive Completion (A : Type) :=
| Normal (a : A)
| Thrown (e : Error).
Arguments Normal {A} a.
Arguments Thrown {A} e.

(** [E] is the type of the entries a task writes to its call log. *)
Definition Task (E A : Type) : Type :=
  Database -> Completion A * Database * list E.

Definition ret {E A : Type} (a : A) : Task E A :=
  fun db => (Normal a, db, []).

Definition throw {E A : Type} (e : Error) : Task E A :=
  fun db => (Thrown e, db, []).

Definition bind {E A B : Type} (t : Task E A) (k : A -> Task E B) : Task E B :=
  fun db =>
    match t db with
    | (Normal a, db1, log1) =>
        let '(r, db2, log2) := k a db1 in (r, db2, log1 ++ log2)
    | (Thrown e, db1, log1) => (Thrown e, db1, log1)
    end.

(** [try { body } catch (error) { handler }] *)
Definition try_catch {E A : Type} (body : Task E A) (handler : Error -> Task E A)
    : Task E A :=
  fun db =>
    match body db with
    | (Normal a, db1, log1) => (Normal a, db1, log1)
    | (Thrown e, db1, log1) =>
        let '(r, db2, log2) := handler e db1 in (r, db2, log1 ++ log2)
    end.

(** Record an interaction with the outside in the call log. *)
Definition emit {E : Type} (entry : E) : Task E unit :=
  fun db => (Normal tt, db, [entry]).

(** Run a task and label every entry of its log. *)
Definition relabel {E F A : Type} (f : E -> F) (t : Task E A) : Task F A :=
  fun db => let '(r, db1, log1) := t db in (r, db1, map f log1).

Declare Scope task_scope.
Delimit Scope task_scope with task.
Notation "x <- t ;; k" := (bind t (fun x => k))
  (at level 61, t at next level, right associativity) : task_scope.
Notation "t ;;; k" := (bind t (fun _ => k))
  (at level 61, right associativity) : task_scope.
Open Scope task_scope.

(** ** database.ts *)

Definition by_id (id : ObjectId) (m : ScheduledMessage) : bool :=
  N.eqb (_id m) id.

Definition user_by_id (id : ObjectId) (u : User) : bool :=
  N.eqb (u_id u) id.

Definition by_id_and_user (id userId : ObjectId) (m : ScheduledMessage) : bool :=
  N.eqb (_id m) id && N.eqb (user_id m) userId.

(** [Database.getUserById] *)
Definition getUserById {E : Type} (id : ObjectId) : Task E (option User) :=
  fun db => (Normal (findOne (user_by_id id) (users db)), db, []).

(** [Database.updateUser]; [date] is the value of its [new Date()]. *)
Definition updateUser {E : Type} (date : Z) (id : ObjectId) (updates : UserUpdates)
    : Task E unit :=
  fun db =>
    let db' := {| users := updateOne (user_by_id id) (set_user_fields updates date) (users db);
                  scheduledMessages := scheduledMessages db |} in
    if matchedCount (user_by_id id) (users db) =? 0
    then (Thrown (mkError "User not found"), db', [])
    else (Normal tt, db', []).

(** [Database.createScheduledMessage]; [fresh] is the [insertedId] chosen
    by the driver and [date] the value of [new Date()]. *)
Definition createScheduledMessage {E : Type} (fresh : ObjectId) (date : Z)
    (userId : ObjectId) (chan text : string) (sendTimestamp : Z)
    (st : Status) (retries : Z) : Task E ObjectId :=
  fun db =>
    let doc := {| _id := fresh; user_id := userId; channel := chan;
                  message := text; send_timestamp := sendTimestamp;
                  status := st; retry_count := retries;
                  created_at := date; updated_at := date |} in
    (Normal fresh,
     {| users := users db;
        scheduledMessages := scheduledMessages db ++ [doc] |},
     []).

(** [Math.floor(Date.now() / 1000)] for a clock reading in milliseconds. *)
Definition seconds (ms : Z) : Z := ms / 1000.

Definition is_due (now : Z) (m : ScheduledMessage) : bool :=
  Status_eqb (status m) pending && (send_timestamp m <=? now).

(** The order in which the store answers a [find] that asks for no
    sort.  The code does not determine it: MongoDB answers in the order
    of the plan it chooses, a scan of the collection or of one of the
    indexes that [createIndexes] builds.  It is read from outside, and
    may be any arrangement of the matching documents. *)
Record FindOrder := mkFindOrder {
  arrange : list ScheduledMessage -> list ScheduledMessage;
  arrange_permutes : forall docs, Permutation (arrange docs) docs
}.

(** [Database.getPendingMessages]; [clock] is its [Date.now()] and
    [order] the order in which the store answers. *)
Definition getPendingMessages {E : Type} (order : FindOrder) (clock : Z)
    : Task E (list ScheduledMessage) :=
  fun db =>
    let now := seconds clock in
    (Normal (arrange order (filter (is_due now) (scheduledMessages db))), db, []).

(** [Database.updateScheduledMessage]; [date] is its [new Date()]. *)
Definition updateScheduledMessage {E : Type} (date : Z) (id : ObjectId)
    (updates : MessageUpdates) : Task E unit :=
  fun db =>
    let db' := {| users := users db;
                  scheduledMessages :=
                    updateOne (by_id id) (set_message_fields updates date)
                              (scheduledMessages db) |} in
    if matchedCount (by_id id) (scheduledMessages db) =? 0
    then (Thrown (mkError "Scheduled message not found"), db', [])
    else (Normal tt, db', []).

(** [Database.deleteScheduledMessage] *)
Definition deleteScheduledMessage {E : Type} (id userId : ObjectId) : Task E unit :=
  fun db =>
    let db' := {| users := users db;
                  scheduledMessages :=
                    deleteOne (by_id_and_user id userId) (scheduledMessages db) |} in
    if deletedCount (by_id_and_user id userId) (scheduledMessages db) =? 0
    then (Thrown (mkError "Scheduled message not found or unauthorized"), db', [])
    else (Normal tt, db', []).

(** ** JavaScript truthiness of the optional fields *)

(** A [number | null | undefined] used as a condition: [0] is falsy. *)
Definition truthy_number (x : option Z) : bool :=
  match x with
  | Some n => negb (n =? 0)
  | None => false
  end.

(** A [string | null | undefined] used as a condition: [''] is falsy. *)
Definition truthy_string (x : option string) : bool :=
  match x with
  | Some s => negb (String.eqb s "")
  | None => false
  end.

(** [x || fallback] on an optional number. *)
Definition number_or (x : option Z) (fallback : Z) : Z :=
  if truthy_number x then or_keep x fallback else fallback.

(** ** The outside world *)

(** [response.data] of Slack's [oauth.v2.access]. *)
Record OAuthData := mkOAuthData {
  oauth_ok : bool;
  oauth_error : string;
  oauth_access_token : string;
  oauth_expires_in : option Z
}.

(** The calls made to the Slack Web API, with what came back
    ([None]: the HTTP client threw). *)
Inductive SlackCall :=
| oauth_v2_access (refreshToken : string) (response : option OAuthData)
| chat_postMessage (token chan text : string) (result : option bool).

(** The places of [processMessage] that read the clock. *)
Inductive Site :=
| at_user_not_found      (* update, schedulerService.ts line 77 *)
| at_token_check         (* Date.now(), line 84 *)
| at_no_refresh_token    (* update, line 92 *)
| at_update_user         (* updateUser, line 102 *)
| at_refresh_failed      (* update, line 108 *)
| at_mark_sent           (* update, line 120 *)
| at_max_retries         (* update, line 133 *)
| at_retry               (* update, line 140 *)
| at_retry_delay.        (* Date.now(), line 143 *)

(** What one run of [processMessage] reads from outside: the clock at
    each site (milliseconds) and Slack's answers. *)
Record World := mkWorld {
  Date_now : Site -> Z;
  axios_post : string -> option OAuthData;
  postMessage : string -> string -> string -> option bool
}.

(** ** slackService.ts *)

Record RefreshResult := mkRefreshResult {
  rr_access_token : string;
  rr_expires_in : Z
}.

Definition call_oauth (w : World) (refreshToken : string) : Task SlackCall OAuthData :=
  match axios_post w refreshToken with
  | Some data => emit (oauth_v2_access refreshToken (Some data)) ;;; ret data
  | None => emit (oauth_v2_access refreshToken None) ;;;
            throw (mkError "Network Error")
  end.

(** [SlackService.refreshAccessToken] *)
Definition refreshAccessToken (w : World) (refreshToken : option string)
    : Task SlackCall RefreshResult :=
  if negb (truthy_string refreshToken) then
    throw (mkError "No refresh token available - token rotation may not be enabled for this app")
  else
    try_catch
      (data <- call_oauth w (or_keep refreshToken "") ;;
       if negb (oauth_ok data) then
         throw (mkError ("Slack token refresh error: " ++ oauth_error data))
       else
         ret {| rr_access_token := oauth_access_token data;
                rr_expires_in := number_or (oauth_expires_in data) 43200 |})
      (fun _ => throw (mkError "Failed to refresh access token")).

Definition call_postMessage (w : World) (token chan text : string)
    : Task SlackCall bool :=
  match postMessage w token chan text with
  | Some ok => emit (chat_postMessage token chan text (Some ok)) ;;; ret ok
  | None => emit (chat_postMessage token chan text None) ;;;
            throw (mkError "Network Error")
  end.

(** [SlackService.sendMessage] *)
Definition sendMessage (w : World) (accessToken chan text : string)
    : Task SlackCall unit :=
  try_catch
    (ok <- call_postMessage w accessToken chan text ;;
     if negb ok then throw (mkError "Slack API error") else ret tt)
    (fun _ => throw (mkError "Failed to send message to Slack")).

(** ** schedulerService.ts *)

Definition just_status (st : Status) : MessageUpdates :=
  {| set_user_id := None; set_channel := None; set_message := None;
     set_send_timestamp := None; set_status := Some st;
     set_retry_count := None |}.

Definition status_and_retry_count (st : Status) (n : Z) : MessageUpdates :=
  {| set_user_id := None; set_channel := None; set_message := None;
     set_send_timestamp := None; set_status := Some st;
     set_retry_count := Some n |}.

Definition retry_count_and_send_timestamp (n ts : Z) : MessageUpdates :=
  {| set_user_id := None; set_channel := None; set_message := None;
     set_send_timestamp := Some ts; set_status := None;
     set_retry_count := Some n |}.

Definition token_update (token : string) (expires : Z) : UserUpdates :=
  {| set_slack_workspace_id := None; set_access_token := Some token;
     set_refresh_token := None; set_token_expires_at := Some (Some expires) |}.

(** [user.token_expires_at && user.token_expires_at <= now] *)
Definition token_expired (user : User) (now : Z) : bool :=
  truthy_number (token_expires_at user)
  && (or_keep (token_expires_at user) 0 <=? now).

(** The token step of [processMessage] (lines 87-114): [Some token] to go
    on to the delivery, [None] where the source returns. *)
Definition ensureToken (w : World) (msg : ScheduledMessage) (user : User) (now : Z)
    : Task SlackCall (option string) :=
  if token_expired user now then
    try_catch
      (if negb (truthy_string (refresh_token user)) then
         updateScheduledMessage (Date_now w at_no_refresh_token) (_id msg)
           (status_and_retry_count failed (retry_count msg + 1)) ;;;
         ret None
       else
         refreshResult <- refreshAccessToken w (refresh_token user) ;;
         updateUser (Date_now w at_update_user) (u_id user)
           (token_update (rr_access_token refreshResult)
                         (now + rr_expires_in refreshResult)) ;;;
         ret (Some (rr_access_token refreshResult)))
      (fun _ =>
         updateScheduledMessage (Date_now w at_refresh_failed) (_id msg)
           (status_and_retry_count failed (retry_count msg + 1)) ;;;
         ret None)
  else ret (Some (access_token user)).

(** The [catch] block of [processMessage] (lines 125-147). *)
Definition onProcessingError (w : World) (msg : ScheduledMessage) : Task SlackCall unit :=
  let newRetryCount := retry_count msg + 1 in
  let maxRetries := 3 in
  if newRetryCount >=? maxRetries then
    updateScheduledMessage (Date_now w at_max_retries) (_id msg)
      (status_and_retry_count failed newRetryCount)
  else
    updateScheduledMessage (Date_now w at_retry) (_id msg)
      (retry_count_and_send_timestamp newRetryCount
         (seconds (Date_now w at_retry_delay) + 300)).

(** [SchedulerService.processMessage] *)
Definition processMessage (w : World) (msg : ScheduledMessage) : Task SlackCall unit :=
  try_catch
    (user <- getUserById (user_id msg) ;;
     match user with
     | None =>
         updateScheduledMessage (Date_now w at_user_not_found) (_id msg)
           (just_status failed)
     | Some user =>
         let now := seconds (Date_now w at_token_check) in
         token <- ensureToken w msg user now ;;
         match token with
         | None => ret tt
         | Some accessToken =>
             sendMessage w accessToken (channel msg) (message msg) ;;;
             updateScheduledMessage (Date_now w at_mark_sent) (_id msg)
               (just_status sent)
         end
     end)
    (fun _ => onProcessingError w msg).

(** What one tick reads from outside: the clock of the listing, the
    order in which the store answers it, and a world for each message of
    the listing, by position. *)
Record TickWorld := mkTickWorld {
  listing_clock : Z;
  listing_order : FindOrder;
  world_of : nat -> World
}.

(** A delivery log keyed by message id. *)
Definition Delivery : Type := ObjectId * SlackCall.

(** [for (const message of pendingMessages) await this.processMessage(message)] *)
Fixpoint processEach (worlds : nat -> World) (k : nat)
    (pendingMessages : list ScheduledMessage) : Task Delivery unit :=
  match pendingMessages with
  | [] => ret tt
  | msg :: rest =>
      relabel (pair (_id msg)) (processMessage (worlds k) msg) ;;;
      processEach worlds (S k) rest
  end.

(** The part of [processScheduledMessages] after the listing. *)
Definition processListed (tw : TickWorld) (pendingMessages : list ScheduledMessage)
    : Task Delivery unit :=
  if Z.of_nat (List.length pendingMessages) =? 0 then ret tt
  else processEach (world_of tw) 0 pendingMessages.

(** [SchedulerService.processScheduledMessages]: one tick. *)
Definition processScheduledMessages (tw : TickWorld) : Task Delivery unit :=
  try_catch
    (pendingMessages <- getPendingMessages (listing_order tw) (listing_clock tw) ;;
     processListed tw pendingMessages)
    (fun _ => ret tt).

(** [SchedulerService.scheduleMessage] *)
Definition scheduleMessage {E : Type} (fresh : ObjectId) (date : Z)
    (userId : ObjectId) (chan text : string) (sendTimestamp : Z) : Task E ObjectId :=
  try_catch
    (createScheduledMessage fresh date userId chan text sendTimestamp pending 0)
    (fun _ => throw (mkError "Failed to schedule message")).

(** [SchedulerService.cancelScheduledMessage] *)
Definition cancelScheduledMessage {E : Type} (messageId userId : ObjectId) : Task E unit :=
  try_catch
    (deleteScheduledMessage messageId userId)
    (fun _ => throw (mkError "Failed to cancel scheduled message")).

(** ** routes/messages.ts: the [/schedule] handler *)

(** A field of [req.body].  Numbers are integers (timestamps in
    seconds); fractional JSON numbers are outside the model. *)
Inductive JsValue :=
| js_undefined
| js_null
| js_boolean (b : bool)
| js_number (n : Z)
| js_string (s : string)
| js_object.

(** [!!v] *)
Definition truthy (v : JsValue) : bool :=
  match v with
  | js_undefined | js_null => false
  | js_boolean b => b
  | js_number n => negb (n =? 0)
  | js_string s => negb (String.eqb s "")
  | js_object => true
  end.

(** The white space that [String.prototype.trim] removes: the
    [WhiteSpace] and [LineTerminator] code points of ECMAScript, by the
    bytes of their UTF-8 encodings. *)
Definition white_space_1 (a : N) : bool :=
  (N.leb 9 a && N.leb a 13)                       (* U+0009 .. U+000D *)
  || N.eqb a 32.                                  (* U+0020 *)

Definition white_space_2 (a b : N) : bool :=
  N.eqb a 194 && N.eqb b 160.                     (* U+00A0 *)

Definition white_space_3 (a b c : N) : bool :=
  (N.eqb a 225 && N.eqb b 154 && N.eqb c 128)     (* U+1680 *)
  || (N.eqb a 226 && N.eqb b 128
      && ((N.leb 128 c && N.leb c 138)            (* U+2000 .. U+200A *)
          || N.eqb c 168 || N.eqb c 169           (* U+2028, U+2029 *)
          || N.eqb c 175))                        (* U+202F *)
  || (N.eqb a 226 && N.eqb b 129 && N.eqb c 159)  (* U+205F *)
  || (N.eqb a 227 && N.eqb b 128 && N.eqb c 128)  (* U+3000 *)
  || (N.eqb a 239 && N.eqb b 187 && N.eqb c 191). (* U+FEFF *)

(** Drop the white space at the head of [cs]; with [reversed], [cs] is a
    string read from its end, so that the bytes of a code point come
    last byte first. *)
Fixpoint strip_white_space (reversed : bool) (cs : list Ascii.ascii)
    : list Ascii.ascii :=
  match cs with
  | [] => []
  | c1 :: rest1 =>
      let b1 := Ascii.N_of_ascii c1 in
      if white_space_1 b1 then strip_white_space reversed rest1
      else
        match rest1 with
        | [] => cs
        | c2 :: rest2 =>
            let b2 := Ascii.N_of_ascii c2 in
            if (if reversed then white_space_2 b2 b1 else white_space_2 b1 b2)
            then strip_white_space reversed rest2
            else
              match rest2 with
              | [] => cs
              | c3 :: rest3 =>
                  let b3 := Ascii.N_of_ascii c3 in
                  if (if reversed then white_space_3 b3 b2 b1
                      else white_space_3 b1 b2 b3)
                  then strip_white_space reversed rest3
                  else cs
              end
        end
  end.

(** [s.trimStart()] and [s.trimEnd()] *)
Definition trimStart (s : string) : string :=
  string_of_list_ascii (strip_white_space false (list_ascii_of_string s)).

Definition trimEnd (s : string) : string :=
  string_of_list_ascii
    (rev (strip_white_space true (rev (list_ascii_of_string s)))).

(** [s.trim()] *)
Definition trim (s : string) : string := trimEnd (trimStart s).

Record ScheduleRequest := mkScheduleRequest {
  req_user : option User;
  body_channel : JsValue;
  body_message : JsValue;
  body_sendTimestamp : JsValue
}.

(** [res.status(code).json({ error })] or [res.json({ success, messageId })] *)
Record Response := mkResponse {
  statusCode : Z;
  json_error : option string;
  json_messageId : option ObjectId
}.

Definition reject (code : Z) (reason : string) : Response :=
  {| statusCode := code; json_error := Some reason; json_messageId := None |}.

(** What one request reads from outside: the clock of the handler, the
    id the driver gives the new document and the date of the insertion. *)
Record RequestWorld := mkRequestWorld {
  handler_clock : Z;
  insertedId : ObjectId;
  insert_date : Z
}.

(** [router.post('/schedule', ...)] *)
Definition postSchedule {E : Type} (rw : RequestWorld) (req : ScheduleRequest)
    : Task E Response :=
  try_catch
    (match req_user req with
     | None => ret (reject 401 "User not authenticated")
     | Some user =>
         if negb (truthy (body_channel req)) || negb (truthy (body_message req))
            || negb (truthy (body_sendTimestamp req))
         then ret (reject 400 "Channel, message, and sendTimestamp are required")
         else
           match body_channel req, body_message req, body_sendTimestamp req with
           | js_string chan, js_string text, js_number sendTimestamp =>
               if Z.of_nat (String.length (trim text)) =? 0
               then ret (reject 400 "Message cannot be empty")
               else
                 let now := seconds (handler_clock rw) in
                 if sendTimestamp <=? now
                 then ret (reject 400 "Send timestamp must be in the future")
                 else
                   messageId <- scheduleMessage (insertedId rw) (insert_date rw)
                                  (u_id user) chan text sendTimestamp ;;
                   ret {| statusCode := 200; json_error := None;
                          json_messageId := Some messageId |}
           | _, _, _ => ret (reject 400 "Invalid data types for required fields")
           end
     end)
    (fun _ => ret (reject 500 "Failed to schedule message")).

(** ** Reading the store and the delivery log *)

(** The stored message with a given id. *)
Definition messageById (id : ObjectId) (db : Database) : option ScheduledMessage :=
  findOne (by_id id) (scheduledMessages db).

Definition ids (db : Database) : list ObjectId :=
  map _id (scheduledMessages db).

(** A delivery call, whatever its outcome. *)
Definition is_delivery (c : SlackCall) : bool :=
  match c with
  | chat_postMessage _ _ _ _ => true
  | oauth_v2_access _ _ => false
  end.

(** A delivery call that Slack accepted. *)
Definition is_delivered (c : SlackCall) : bool :=
  match c with
  | chat_postMessage _ _ _ (Some true) => true
  | _ => false
  end.

(** The number of entries of a delivery log for message [id] that satisfy [p]. *)
Definition count_for (p : SlackCall -> bool) (id : ObjectId) (log : list Delivery) : nat :=
  List.length (filter (fun e => N.eqb (fst e) id && p (snd e)) log).

(** Run a sequence of ticks one after the other, each to completion. *)
Fixpoint runTicks (ticks : list TickWorld) (db : Database) : Database * list Delivery :=
  match ticks with
  | [] => (db, [])
  | tw :: later =>
      let '(_, db1, log1) := processScheduledMessages tw db in
      let '(db2, log2) := runTicks later db1 in
      (db2, log1 ++ log2)
  end.

(** Two ticks that overlap.  [cron.schedule] starts a tick every minute
    whether or not the previous one has returned, and a tick gives way at
    each [await].  When the second tick runs its listing while the first
    is suspended before its first write (in its own listing, or in
    [processMessage] up to the delivery), the second listing reads the
    store the first one read.  The first tick has written nothing by
    then, so this is the run in which both listings come first and the
    two loops follow. *)
Definition overlappingTicks (tw1 tw2 : TickWorld) : Task Delivery unit :=
  listed1 <- getPendingMessages (listing_order tw1) (listing_clock tw1) ;;
  listed2 <- getPendingMessages (listing_order tw2) (listing_clock tw2) ;;
  try_catch (processListed tw1 listed1) (fun _ => ret tt) ;;;
  try_catch (processListed tw2 listed2) (fun _ => ret tt).

(** ** The outcomes of one run of [processMessage] *)

(** The store after a successful [updateScheduledMessage]. *)
Definition patched (id : ObjectId) (updates : MessageUpdates) (date : Z)
    (db : Database) : Database :=
  {| users := users db;
     scheduledMessages :=
       updateOne (by_id id) (set_message_fields updates date)
                 (scheduledMessages db) |}.

(** A call log without a delivery call. *)
Definition no_delivery (calls : list SlackCall) : Prop :=
  forall c, In c calls -> is_delivery c = false.

Inductive Outcome (w : World) (msg : ScheduledMessage)
    : MessageUpdates -> Site -> list SlackCall -> Prop :=
| user_missing :
    Outcome w msg (just_status failed) at_user_not_found []
| token_lost :
    Outcome w msg (status_and_retry_count failed (retry_count msg + 1))
            at_no_refresh_token []
| refresh_rejected calls :
    no_delivery calls ->
    Outcome w msg (status_and_retry_count failed (retry_count msg + 1))
            at_refresh_failed calls
| delivered before token :
    no_delivery before ->
    Outcome w msg (just_status sent) at_mark_sent
            (before ++ [chat_postMessage token (channel msg) (message msg) (Some true)])
| retried before token result :
    no_delivery before -> result <> Some true ->
    retry_count msg + 1 < 3 ->
    Outcome w msg
            (retry_count_and_send_timestamp (retry_count msg + 1)
               (seconds (Date_now w at_retry_delay) + 300))
            at_retry
            (before ++ [chat_postMessage token (channel msg) (message msg) result])
| gave_up before token result :
    no_delivery before -> result <> Some true ->
    retry_count msg + 1 >= 3 ->
    Outcome w msg (status_and_retry_count failed (retry_count msg + 1))
            at_max_retries
            (before ++ [chat_postMessage token (channel msg) (message msg) result]).

(** ** Invariants of sequential ticks *)

(** While a message is pending its delivery calls number at most its
    [retry_count] and at most two; afterwards at most three. *)
Definition AttemptsBounded (db : Database) (log : list Delivery) : Prop :=
  forall id,
    match messageById id db with
    | None => count_for is_delivery id log = 0%nat
    | Some m =>
        match status m with
        | pending =>
            Z.of_nat (count_for is_delivery id log) <= retry_count m /\
            (count_for is_delivery id log <= 2)%nat
        | _ => (count_for is_delivery id log <= 3)%nat
        end
    end.

(** A pending message has no accepted delivery; any other at most one. *)
Definition DeliveredOnce (db : Database) (log : list Delivery) : Prop :=
  forall id,
    match messageById id db with
    | None => count_for is_delivered id log = 0%nat
    | Some m =>
        match status m with
        | pending => count_for is_delivered id log = 0%nat
        | _ => (count_for is_delivered id log <= 1)%nat
        end
    end.

(** A property of store and log that every run of [processMessage] on a
    current, pending snapshot keeps. *)
Definition StepInvariant (I : Database -> list Delivery -> Prop) : Prop :=
  forall w msg db log r db' calls,
    I db log ->
    messageById (_id msg) db = Some msg ->
    status msg = pending ->
    processMessage w msg db = (r, db', calls) ->
    I db' (log ++ map (pair (_id msg)) calls).

(** ** Sample data *)

(** U+00A0 and U+2028, in UTF-8. *)
Definition no_break_space : string :=
  String (Ascii.ascii_of_N 194) (String (Ascii.ascii_of_N 160) "").

Definition line_separator : string :=
  String (Ascii.ascii_of_N 226)
    (String (Ascii.ascii_of_N 128) (String (Ascii.ascii_of_N 168) "")).

Definition alice : User :=
  {| u_id := 1%N; slack_workspace_id := "T0001"; access_token := "xoxb-alice";
     refresh_token := None; token_expires_at := None;
     u_created_at := 0; u_updated_at := 0 |}.

(** A user whose token expires at [expiry] and who holds [refresh]. *)
Definition expiring (expiry : Z) (refresh : option string) : User :=
  {| u_id := 1%N; slack_workspace_id := "T0001"; access_token := "xoxb-alice";
     refresh_token := refresh; token_expires_at := Some expiry;
     u_created_at := 0; u_updated_at := 0 |}.

(** Message 7 of user 1, due at second 1000. *)
Definition hello (st : Status) (retries : Z) : ScheduledMessage :=
  {| _id := 7%N; user_id := 1%N; channel := "C42"; message := "hello";
     send_timestamp := 1000; status := st; retry_count := retries;
     created_at := 5; updated_at := 5 |}.

(** Message 8 of user 1, due at second 100. *)
Definition early : ScheduledMessage :=
  {| _id := 8%N; user_id := 1%N; channel := "C42"; message := "early";
     send_timestamp := 100; status := pending; retry_count := 0;
     created_at := 6; updated_at := 6 |}.

Definition renewed : OAuthData :=
  {| oauth_ok := true; oauth_error := ""; oauth_access_token := "xoxb-new";
     oauth_expires_in := None |}.

(** The clock stands at second 2000; Slack answers every delivery with
    [answer] and every refresh with [renewed]. *)
Definition slack (answer : option bool) : World :=
  {| Date_now := fun _ => 2000000;
     axios_post := fun _ => Some renewed;
     postMessage := fun _ _ _ => answer |}.

(** The order of a scan of the collection, and the opposite one. *)
Definition collection_order : FindOrder :=
  {| arrange := fun docs => docs;
     arrange_permutes := fun docs => Permutation_refl docs |}.

Definition reverse_order : FindOrder :=
  {| arrange := fun docs => rev docs;
     arrange_permutes := fun docs => Permutation_sym (Permutation_rev docs) |}.

Definition tick_at_2000 (answer : option bool) : TickWorld :=
  {| listing_clock := 2000000; listing_order := collection_order;
     world_of := fun _ => slack answer |}.

(** The same tick when the store answers the listing in reverse. *)
Definition reversed_tick_at_2000 (answer : option bool) : TickWorld :=
  {| listing_clock := 2000000; listing_order := reverse_order;
     world_of := fun _ => slack answer |}.

(** Sorted by [send_timestamp], ascending. *)
Definition by_send_timestamp (a b : ScheduledMessage) : Prop :=
  send_timestamp a <= send_timestamp b.

(** ** database.ts: users by workspace, messages by user *)

Definition by_workspace_id (workspaceId : string) (u : User) : bool :=
  String.eqb (slack_workspace_id u) workspaceId.

Definition by_user (userId : ObjectId) (m : ScheduledMessage) : bool :=
  N.eqb (user_id m) userId.

(** Whether [connect()] has set the collections of the [Database]
    object.  [index.ts] starts to listen without waiting for it, so a
    request can meet a store that is not connected yet. *)
Inductive Connection := connected | not_connected.

(** [Database.getUserByWorkspaceId]; [database] tells whether
    [this.users] is set. *)
Definition getUserByWorkspaceId {E : Type} (database : Connection)
    (workspaceId : string) : Task E (option User) :=
  match database with
  | not_connected => throw (mkError "Database not connected")
  | connected =>
      fun db => (Normal (findOne (by_workspace_id workspaceId) (users db)), db, [])
  end.

(** [Database.createUser]; [fresh] is the [insertedId] chosen by the
    driver and [date] the value of [new Date()].  The unique index on
    [slack_workspace_id] is not modelled: the insertion always succeeds. *)
Definition createUser {E : Type} (fresh : ObjectId) (date : Z)
    (workspaceId token : string) (refresh : option string) (expires : option Z)
    : Task E ObjectId :=
  fun db =>
    let doc := {| u_id := fresh; slack_workspace_id := workspaceId;
                  access_token := token; refresh_token := refresh;
                  token_expires_at := expires;
                  u_created_at := date; u_updated_at := date |} in
    (Normal fresh,
     {| users := users db ++ [doc];
        scheduledMessages := scheduledMessages db |},
     []).

(** [.sort({ send_timestamp: 1 })]: an insertion sort that keeps the
    store's order among messages of equal [send_timestamp]. *)
Fixpoint place_by_send_timestamp (m : ScheduledMessage)
    (sorted : list ScheduledMessage) : list ScheduledMessage :=
  match sorted with
  | [] => [m]
  | x :: rest =>
      if send_timestamp m <=? send_timestamp x then m :: sorted
      else x :: place_by_send_timestamp m rest
  end.

Definition sort_send_timestamp (msgs : list ScheduledMessage)
    : list ScheduledMessage :=
  fold_right place_by_send_timestamp [] msgs.

(** [Database.getScheduledMessagesByUserId] *)
Definition getScheduledMessagesByUserId {E : Type} (userId : ObjectId)
    : Task E (list ScheduledMessage) :=
  fun db =>
    (Normal (sort_send_timestamp (filter (by_user userId) (scheduledMessages db))),
     db, []).

(** ** slackService.ts: the code exchange *)

(** [response.data] of [oauth.v2.access] for an authorization code. *)
Record OAuthAccess := mkOAuthAccess {
  access_ok : bool;
  access_error : string;
  granted_access_token : string;
  granted_refresh_token : option string;
  granted_expires_in : option Z;
  granted_team_id : string;
  granted_team_name : string
}.

(** [interface SlackOAuthTokenResponse] *)
Record SlackOAuthTokenResponse := mkTokenResponse {
  tr_access_token : string;
  tr_refresh_token : option string;
  tr_expires_in : option Z;
  tr_team_id : string;
  tr_team_name : string
}.

(** [x || null] on an optional string and on an optional number. *)
Definition string_or_null (x : option string) : option string :=
  if truthy_string x then x else None.

Definition number_or_null (x : option Z) : option Z :=
  if truthy_number x then x else None.

(** The calls of the [/auth] routes: the code exchange, and the calls of
    the rest of the Slack client. *)
Inductive AuthCall :=
| code_exchange (code : string) (response : option OAuthAccess)
| slack_call (c : SlackCall).

Definition call_exchange (answer : string -> option OAuthAccess) (code : string)
    : Task AuthCall OAuthAccess :=
  match answer code with
  | Some data => emit (code_exchange code (Some data)) ;;; ret data
  | None => emit (code_exchange code None) ;;; throw (mkError "Network Error")
  end.

(** [SlackService.exchangeCodeForToken]; [answer] is Slack's. *)
Definition exchangeCodeForToken (answer : string -> option OAuthAccess)
    (code : string) : Task AuthCall SlackOAuthTokenResponse :=
  try_catch
    (data <- call_exchange answer code ;;
     if negb (access_ok data) then
       throw (mkError ("Slack OAuth error: " ++ access_error data))
     else
       ret {| tr_access_token := granted_access_token data;
              tr_refresh_token := string_or_null (granted_refresh_token data);
              tr_expires_in := number_or_null (granted_expires_in data);
              tr_team_id := granted_team_id data;
              tr_team_name := granted_team_name data |})
    (fun _ => throw (mkError "Failed to exchange authorization code for token")).

(** ** schedulerService.ts: the timers and the listing *)

Inductive Job := process_scheduled_messages | refresh_expired_tokens.

(** A task of [node-cron]. *)
Record CronTask := mkCronTask {
  expression : string;
  job : Job;
  running : bool
}.

(** The fields [cronJob], [tokenRefreshJob] and [isRunning] of a
    [SchedulerService], with the tasks [node-cron] has been given so far
    (a task is named by its position). *)
Record Timers := mkTimers {
  tasks : list CronTask;
  cronJob : option nat;
  tokenRefreshJob : option nat;
  isRunning : bool
}.

(** The service as constructed. *)
Definition new_timers : Timers :=
  {| tasks := []; cronJob := None; tokenRefreshJob := None; isRunning := false |}.

(** [task.stop()] *)
Fixpoint stop_task (n : nat) (ts : list CronTask) : list CronTask :=
  match ts, n with
  | [], _ => []
  | t :: rest, O =>
      {| expression := expression t; job := job t; running := false |} :: rest
  | t :: rest, S n' => t :: stop_task n' rest
  end.

(** [SchedulerService.start] *)
Definition start (s : Timers) : Timers :=
  if isRunning s then s
  else
    let first := List.length (tasks s) in
    {| tasks := tasks s
                ++ [ {| expression := "* * * * *";
                        job := process_scheduled_messages; running := true |};
                     {| expression := "0 * * * *";
                        job := refresh_expired_tokens; running := true |} ];
       cronJob := Some first;
       tokenRefreshJob := Some (S first);
       isRunning := true |}.

(** [SchedulerService.stop] *)
Definition stop (s : Timers) : Timers :=
  let ts1 := match cronJob s with
             | Some n => stop_task n (tasks s)
             | None => tasks s
             end in
  let ts2 := match tokenRefreshJob s with
             | Some n => stop_task n ts1
             | None => ts1
             end in
  {| tasks := ts2; cronJob := None; tokenRefreshJob := None; isRunning := false |}.

Inductive LifecycleCall := call_start | call_stop.

Definition lifecycle (s : Timers) (c : LifecycleCall) : Timers :=
  match c with
  | call_start => start s
  | call_stop => stop s
  end.

(** The timers that are running for a given job. *)
Definition running_for (j : Job) (s : Timers) : nat :=
  List.length
    (filter (fun t => running t
                      && match job t, j with
                         | process_scheduled_messages, process_scheduled_messages
                         | refresh_expired_tokens, refresh_expired_tokens => true
                         | _, _ => false
                         end)
            (tasks s)).

(** [SchedulerService.getScheduledMessages] *)
Definition getScheduledMessages {E : Type} (userId : ObjectId)
    : Task E (list ScheduledMessage) :=
  try_catch
    (getScheduledMessagesByUserId userId)
    (fun _ => throw (mkError "Failed to get scheduled messages")).

(** ** middleware/auth.ts *)

(** [res.status(status).json({ error, code, needsRefresh, needsReauth })];
    a flag the source leaves out is [false]. *)
Record AuthFailure := mkAuthFailure {
  failure_status : Z;
  failure_error : string;
  failure_code : string;
  needsRefresh : bool;
  needsReauth : bool
}.

(** What the middleware does with a request: [next()] with [req.user]
    set, or an answer of its own. *)
Inductive Gate :=
| next (user : User)
| refused (f : AuthFailure).

(** [authMiddleware(database)]; [workspaceId] is the header
    [x-workspace-id] and [clock] the value of [Date.now()]. *)
Definition authMiddleware {E : Type} (database : Connection) (clock : Z)
    (workspaceId : option string) : Task E Gate :=
  try_catch
    (if negb (truthy_string workspaceId) then
       ret (refused {| failure_status := 401;
                       failure_error := "Missing workspace ID";
                       failure_code := "MISSING_WORKSPACE_ID";
                       needsRefresh := false; needsReauth := false |})
     else
       user <- getUserByWorkspaceId database (or_keep workspaceId "") ;;
       match user with
       | None =>
           ret (refused {| failure_status := 401;
                           failure_error := "Invalid workspace ID";
                           failure_code := "INVALID_WORKSPACE_ID";
                           needsRefresh := false; needsReauth := false |})
       | Some user =>
           let now := seconds clock in
           if token_expired user now then
             if truthy_string (refresh_token user) then
               ret (refused {| failure_status := 401;
                               failure_error := "Token expired";
                               failure_code := "TOKEN_EXPIRED";
                               needsRefresh := true; needsReauth := false |})
             else
               ret (refused {| failure_status := 401;
                               failure_error := "Token expired and no refresh token available";
                               failure_code := "TOKEN_EXPIRED_NO_REFRESH";
                               needsRefresh := false; needsReauth := true |})
           else if negb (truthy_string (Some (access_token user))) then
             ret (refused {| failure_status := 401;
                             failure_error := "No access token found";
                             failure_code := "NO_ACCESS_TOKEN";
                             needsRefresh := false; needsReauth := true |})
           else ret (next user)
       end)
    (fun _ =>
       ret (refused {| failure_status := 500;
                       failure_error := "Authentication failed";
                       failure_code := "AUTH_ERROR";
                       needsRefresh := false; needsReauth := false |})).

(** [router.use(authMiddleware(database))] in front of a handler. *)
Definition behindAuth {E R : Type} (database : Connection) (clock : Z)
    (workspaceId : option string) (handler : option User -> Task E R)
    : Task E (AuthFailure + R) :=
  gate <- authMiddleware database clock workspaceId ;;
  match gate with
  | next user => r <- handler (Some user) ;; ret (inr r)
  | refused f => ret (inl f)
  end.

(** ** routes/messages.ts: the other handlers *)

Definition accepted : Response :=
  {| statusCode := 200; json_error := None; json_messageId := None |}.

(** [router.post('/send', ...)] *)
Definition postSend (w : World) (user : option User) (chan text : JsValue)
    : Task SlackCall Response :=
  try_catch
    (match user with
     | None => ret (reject 401 "User not authenticated")
     | Some user =>
         if negb (truthy chan) || negb (truthy text)
         then ret (reject 400 "Channel and message are required")
         else
           match chan, text with
           | js_string c, js_string m =>
               if Z.of_nat (String.length (trim m)) =? 0
               then ret (reject 400 "Message cannot be empty")
               else
                 sendMessage w (access_token user) c m ;;;
                 ret accepted
           | _, _ => ret (reject 400 "Channel and message must be strings")
           end
     end)
    (fun _ => ret (reject 500 "Failed to send message")).

(** A message as [/scheduled] shows it. *)
Record FormattedMessage := mkFormattedMessage {
  shown_id : ObjectId;
  shown_channel : string;
  shown_message : string;
  sendTimestamp : Z;
  shown_status : Status;
  retryCount : Z;
  createdAt : Z
}.

Definition format_message (msg : ScheduledMessage) : FormattedMessage :=
  {| shown_id := _id msg;
     shown_channel := channel msg;
     shown_message := message msg;
     sendTimestamp := send_timestamp msg;
     shown_status := status msg;
     retryCount := retry_count msg;
     createdAt := created_at msg |}.

Inductive Listing :=
| listed (messages : list FormattedMessage)
| not_listed (code : Z) (reason : string).

(** [router.get('/scheduled', ...)] *)
Definition getScheduled {E : Type} (user : option User) : Task E Listing :=
  try_catch
    (match user with
     | None => ret (not_listed 401 "User not authenticated")
     | Some user =>
         scheduledMessages <- getScheduledMessages (u_id user) ;;
         ret (listed (map format_message scheduledMessages))
     end)
    (fun _ => ret (not_listed 500 "Failed to fetch scheduled messages")).

(** [cancelScheduledMessage] for an id given as a string, as the route
    gives it: [objectId s] is [new ObjectId(s)], [None] where that
    throws. *)
Definition cancelScheduledMessageByString {E : Type}
    (objectId : string -> option ObjectId) (messageId : string)
    (userId : ObjectId) : Task E unit :=
  try_catch
    (match objectId messageId with
     | Some id => deleteScheduledMessage id userId
     | None => throw (mkError "BSONError")
     end)
    (fun _ => throw (mkError "Failed to cancel scheduled message")).

(** [router.delete('/scheduled/:messageId', ...)] *)
Definition deleteScheduled {E : Type} (objectId : string -> option ObjectId)
    (user : option User) (messageId : string) : Task E Response :=
  try_catch
    (match user with
     | None => ret (reject 401 "User not authenticated")
     | Some user =>
         if negb (truthy (js_string messageId))
         then ret (reject 400 "Invalid message ID")
         else
           cancelScheduledMessageByString objectId messageId (u_id user) ;;;
           ret accepted
     end)
    (fun _ => ret (reject 500 "Failed to cancel scheduled message")).

(** ** routes/auth.ts *)

(** Where the callback sends the browser: the client URL with
    [?error=reason], or with the workspace id and the team name. *)
Inductive Redirect :=
| to_client_error (reason : string)
| to_client_connected (workspaceId teamName : string).

(** What one callback reads from outside. *)
Record CallbackWorld := mkCallbackWorld {
  exchange_answer : string -> option OAuthAccess;
  callback_clock : Z;
  user_insertedId : ObjectId;
  user_write_date : Z
}.

Definition connection_update (token : string) (refresh : option string)
    (expires : option Z) : UserUpdates :=
  {| set_slack_workspace_id := None; set_access_token := Some token;
     set_refresh_token := Some refresh; set_token_expires_at := Some expires |}.

(** [tokenResponse.expires_in ? now + tokenResponse.expires_in : null] *)
Definition expiry_from (now : Z) (expires_in : option Z) : option Z :=
  if truthy_number expires_in then Some (now + or_keep expires_in 0) else None.

(** [router.get('/slack/callback', ...)]; [code] and [oauthError] are
    [req.query.code] and [req.query.error]. *)
Definition slackCallback (database : Connection) (cw : CallbackWorld)
    (code oauthError : JsValue) : Task AuthCall Redirect :=
  try_catch
    (if truthy oauthError then ret (to_client_error "oauth_denied")
     else
       match code with
       | js_string c =>
           if negb (truthy code) then ret (to_client_error "invalid_code")
           else
             tokenResponse <- exchangeCodeForToken (exchange_answer cw) c ;;
             let expiresAt :=
               expiry_from (seconds (callback_clock cw)) (tr_expires_in tokenResponse) in
             existingUser <- getUserByWorkspaceId database (tr_team_id tokenResponse) ;;
             match existingUser with
             | Some existing =>
                 updateUser (user_write_date cw) (u_id existing)
                   (connection_update (tr_access_token tokenResponse)
                      (string_or_null (tr_refresh_token tokenResponse)) expiresAt)
             | None =>
                 createUser (user_insertedId cw) (user_write_date cw)
                   (tr_team_id tokenResponse) (tr_access_token tokenResponse)
                   (string_or_null (tr_refresh_token tokenResponse)) expiresAt ;;;
                 ret tt
             end ;;;
             ret (to_client_connected (tr_team_id tokenResponse)
                                      (tr_team_name tokenResponse))
       | _ => ret (to_client_error "invalid_code")
       end)
    (fun _ => ret (to_client_error "oauth_failed")).

(** The body of a [200] of [/me]. *)
Record UserInfo := mkUserInfo {
  info_id : ObjectId;
  info_workspace_id : string;
  info_token_expires_at : option Z;
  has_refresh_token : bool
}.

Inductive MeReply :=
| me_info (info : UserInfo)
| me_refused (f : AuthFailure).

(** [router.get('/me', ...)] *)
Definition getMe {E : Type} (database : Connection) (clock : Z)
    (workspaceId : option string) : Task E MeReply :=
  try_catch
    (if negb (truthy_string workspaceId) then
       ret (me_refused {| failure_status := 401;
                          failure_error := "Missing workspace ID";
                          failure_code := "MISSING_WORKSPACE_ID";
                          needsRefresh := false; needsReauth := false |})
     else
       user <- getUserByWorkspaceId database (or_keep workspaceId "") ;;
       match user with
       | None =>
           ret (me_refused {| failure_status := 404;
                              failure_error := "User not found";
                              failure_code := "USER_NOT_FOUND";
                              needsRefresh := false; needsReauth := false |})
       | Some user =>
           if negb (truthy_string (Some (access_token user))) then
             ret (me_refused {| failure_status := 401;
                                failure_error := "No access token found";
                                failure_code := "NO_ACCESS_TOKEN";
                                needsRefresh := false; needsReauth := true |})
           else
             let now := seconds clock in
             if token_expired user now then
               if truthy_string (refresh_token user) then
                 ret (me_refused {| failure_status := 401;
                                    failure_error := "Token expired";
                                    failure_code := "TOKEN_EXPIRED";
                                    needsRefresh := true; needsReauth := false |})
               else
                 ret (me_refused {| failure_status := 401;
                                    failure_error := "Token expired and no refresh token available";
                                    failure_code := "TOKEN_EXPIRED_NO_REFRESH";
                                    needsRefresh := false; needsReauth := true |})
             else
               ret (me_info {| info_id := u_id user;
                               info_workspace_id := slack_workspace_id user;
                               info_token_expires_at := token_expires_at user;
                               has_refresh_token := truthy_string (refresh_token user) |})
       end)
    (fun _ =>
       ret (me_refused {| failure_status := 500;
                          failure_error := "Failed to get user info";
                          failure_code := "SERVER_ERROR";
                          needsRefresh := false; needsReauth := false |})).

Inductive RefreshReply :=
| refreshed_until (expires_at : Z)
| not_refreshed (code : Z) (reason : string).

(** [router.post('/refresh', ...)]; [clock] is its [Date.now()] and
    [date] the [new Date()] of its [updateUser]. *)
Definition postRefresh (database : Connection) (w : World) (clock date : Z)
    (workspaceId : option string) : Task SlackCall RefreshReply :=
  try_catch
    (if negb (truthy_string workspaceId) then
       ret (not_refreshed 401 "Missing workspace ID")
     else
       user <- getUserByWorkspaceId database (or_keep workspaceId "") ;;
       match user with
       | None => ret (not_refreshed 404 "User not found")
       | Some user =>
           if negb (truthy_string (refresh_token user)) then
             ret (not_refreshed 400
                    "No refresh token available - token rotation may not be enabled for this app")
           else
             refreshResult <- refreshAccessToken w (refresh_token user) ;;
             let expiresAt := seconds clock + rr_expires_in refreshResult in
             updateUser date (u_id user)
               (token_update (rr_access_token refreshResult) expiresAt) ;;;
             ret (refreshed_until expiresAt)
       end)
    (fun _ => ret (not_refreshed 500 "Failed to refresh token")).

(** ** What a task leaves as it is *)

(** [t] takes every store to one related to it by [R], whether it
    returns or throws. *)
Definition Keeps {E A : Type} (R : Database -> Database -> Prop) (t : Task E A)
    : Prop :=
  forall db, R db (snd (fst (t db))).

(** What the scheduler never writes of a message and of a user. *)
Definition message_identity (m : ScheduledMessage)
    : ObjectId * ObjectId * string * string * Z :=
  (_id m, user_id m, channel m, message m, created_at m).

Definition user_identity (u : User) : ObjectId * string * option string * Z :=
  (u_id u, slack_workspace_id u, refresh_token u, u_created_at u).

(** Both collections hold the same documents in the same order, as far
    as identities go. *)
Definition SameDocuments (db db' : Database) : Prop :=
  map message_identity (scheduledMessages db')
  = map message_identity (scheduledMessages db) /\
  map user_identity (users db') = map user_identity (users db).


(** The owner of [msg] is in the store and its token is not expired at
    any clock of the tick. *)
Definition has_valid_token (tw : TickWorld) (db : Database) (msg : ScheduledMessage)
    : Prop :=
  exists user,
    findOne (user_by_id (user_id msg)) (users db) = Some user /\
    forall n, token_expired user (seconds (Date_now (world_of tw n) at_token_check))
              = false.

Definition all_stopped (ts : list CronTask) : Prop :=
  forall t, In t ts -> running t = false.

(** The fields of the service and the timers agree. *)
Definition timers_consistent (s : Timers) : Prop :=
  if isRunning s then
    exists before,
      all_stopped before /\
      tasks s = before
                ++ [ {| expression := "* * * * *";
                        job := process_scheduled_messages; running := true |};
                     {| expression := "0 * * * *";
                        job := refresh_expired_tokens; running := true |} ] /\
      cronJob s = Some (List.length before) /\
      tokenRefreshJob s = Some (S (List.length before))
  else
    all_stopped (tasks s) /\ cronJob s = None /\ tokenRefreshJob s = None.

(** What lets a request with header [workspaceId] through at second
    [now]: the first user stored for that workspace, with a token that is
    there and not expired. *)
Definition admitted (workspaceId : option string) (now : Z) (db : Database)
    (user : User) : Prop :=
  exists ws,
    workspaceId = Some ws /\ ws <> "" /\
    findOne (by_workspace_id ws) (users db) = Some user /\
    token_expired user now = false /\
    access_token user <> "".

Definition info_of (user : User) : UserInfo :=
  {| info_id := u_id user;
     info_workspace_id := slack_workspace_id user;
     info_token_expires_at := token_expires_at user;
     has_refresh_token := truthy_string (refresh_token user) |}.

Definition by_sendTimestamp (a b : FormattedMessage) : Prop :=
  sendTimestamp a <= sendTimestamp b.

Definition granted : OAuthAccess :=
  {| access_ok := true; access_error := ""; granted_access_token := "xoxb-first";
     granted_refresh_token := Some "xoxe-first"; granted_expires_in := Some 43200;
     granted_team_id := "T0002"; granted_team_name := "Second" |}.

Definition callback_at_2000 : CallbackWorld :=
  {| exchange_answer := fun _ => Some granted; callback_clock := 2000000;
     user_insertedId := 2%N; user_write_date := 2000001 |}.





(** * Proofs *)

Unset Implicit Arguments.

(** ** Facts about collections *)

Section CollectionFacts.
Variable Doc : Type.
Variable query : Doc -> bool.

Lemma existsb_findOne (docs : list Doc) :
  existsb query docs
  = match findOne query docs with Some _ => true | None => false end.
Proof.
  unfold findOne. induction docs as [|d rest IH]; simpl; [reflexivity|].
  destruct (query d); simpl; auto.
Qed.

Lemma matchedCount_found (docs : list Doc) (d : Doc) :
  findOne query docs = Some d -> (matchedCount query docs =? 0) = false.
Proof.
  intros H. unfold matchedCount. rewrite existsb_findOne, H. reflexivity.
Qed.

Lemma matchedCount_missing (docs : list Doc) :
  findOne query docs = None -> (matchedCount query docs =? 0) = true.
Proof.
  intros H. unfold matchedCount. rewrite existsb_findOne, H. reflexivity.
Qed.

Lemma updateOne_missing (change : Doc -> Doc) (docs : list Doc) :
  findOne query docs = None -> updateOne query change docs = docs.
Proof.
  unfold findOne. induction docs as [|d rest IH]; simpl; [reflexivity|].
  destruct (query d); [discriminate|]. intros H. now rewrite IH.
Qed.

Lemma deleteOne_missing (docs : list Doc) :
  findOne query docs = None -> deleteOne query docs = docs.
Proof.
  unfold findOne. induction docs as [|d rest IH]; simpl; [reflexivity|].
  destruct (query d); [discriminate|]. intros H. now rewrite IH.
Qed.

Lemma findOne_updateOne_same (change : Doc -> Doc) (docs : list Doc) :
  (forall d, query (change d) = query d) ->
  findOne query (updateOne query change docs)
  = option_map change (findOne query docs).
Proof.
  intros Hq. unfold findOne.
  induction docs as [|d rest IH]; simpl; [reflexivity|].
  destruct (query d) eqn:E; simpl.
  - now rewrite Hq, E.
  - now rewrite E.
Qed.

Lemma findOne_updateOne_other (other : Doc -> bool) (change : Doc -> Doc)
    (docs : list Doc) :
  (forall d, other (change d) = other d) ->
  (forall d, query d = true -> other d = false) ->
  findOne other (updateOne query change docs) = findOne other docs.
Proof.
  intros Hkeep Hdisj. unfold findOne.
  induction docs as [|d rest IH]; simpl; [reflexivity|].
  destruct (query d) eqn:E; simpl.
  - now rewrite Hkeep, (Hdisj d E).
  - now rewrite IH.
Qed.

Lemma map_updateOne (B : Type) (key : Doc -> B) (change : Doc -> Doc)
    (docs : list Doc) :
  (forall d, key (change d) = key d) ->
  map key (updateOne query change docs) = map key docs.
Proof.
  intros Hkey. induction docs as [|d rest IH]; simpl; [reflexivity|].
  destruct (query d); simpl; [now rewrite Hkey | now rewrite IH].
Qed.

Lemma findOne_In (docs : list Doc) (d : Doc) :
  findOne query docs = Some d -> In d docs /\ query d = true.
Proof. unfold findOne. apply find_some. Qed.
End CollectionFacts.

(** ** Facts about the message store *)

Lemma by_id_set_message_fields id updates date m :
  by_id id (set_message_fields updates date m) = by_id id m.
Proof. reflexivity. Qed.

Lemma by_id_true id m : by_id id m = true <-> _id m = id.
Proof. unfold by_id. apply N.eqb_eq. Qed.

Lemma messageById_id id db m : messageById id db = Some m -> _id m = id.
Proof.
  intros H. apply findOne_In in H. now apply by_id_true.
Qed.

Lemma messageById_In id db m :
  messageById id db = Some m -> In m (scheduledMessages db).
Proof. intros H. now apply findOne_In in H. Qed.

Lemma In_messageById db m :
  NoDup (ids db) -> In m (scheduledMessages db) ->
  messageById (_id m) db = Some m.
Proof.
  unfold ids, messageById, findOne. induction (scheduledMessages db) as [|d rest IH]; simpl.
  - intros _ [].
  - intros Hnd Hin. inversion Hnd as [|? ? Hnotin Hnd']; subst.
    destruct (by_id (_id m) d) eqn:E.
    + apply by_id_true in E. destruct Hin as [->|Hin]; [reflexivity|].
      exfalso. apply Hnotin. rewrite E. now apply in_map.
    + destruct Hin as [->|Hin].
      * unfold by_id in E. now rewrite N.eqb_refl in E.
      * now apply IH.
Qed.

Lemma updateScheduledMessage_found E date id updates db m :
  messageById id db = Some m ->
  @updateScheduledMessage E date id updates db
  = (Normal tt, patched id updates date db, []).
Proof.
  intros H. unfold updateScheduledMessage.
  now rewrite (matchedCount_found _ _ _ _ H).
Qed.

Lemma updateScheduledMessage_missing E date id updates db :
  messageById id db = None ->
  @updateScheduledMessage E date id updates db
  = (Thrown (mkError "Scheduled message not found"), db, []).
Proof.
  intros H. unfold updateScheduledMessage. 
  rewrite (matchedCount_missing _ _ _ H), (updateOne_missing _ _ _ _ H).
  now destruct db.
Qed.

Lemma messageById_patched_same id updates date db :
  messageById id (patched id updates date db)
  = option_map (set_message_fields updates date) (messageById id db).
Proof.
  unfold messageById, patched; simpl.
  apply findOne_updateOne_same. intros d. apply by_id_set_message_fields.
Qed.

Lemma messageById_patched_other id id' updates date db :
  id' <> id ->
  messageById id' (patched id updates date db) = messageById id' db.
Proof.
  intros Hne. unfold messageById, patched; simpl.
  apply findOne_updateOne_other.
  - intros d. apply by_id_set_message_fields.
  - intros d Hd. apply by_id_true in Hd. unfold by_id. apply N.eqb_neq. congruence.
Qed.

Lemma ids_patched id updates date db : ids (patched id updates date db) = ids db.
Proof. unfold ids, patched; simpl. now apply map_updateOne. Qed.

Lemma updateUser_found E date id updates db u :
  findOne (user_by_id id) (users db) = Some u ->
  exists us,
    @updateUser E date id updates db
    = (Normal tt, {| users := us; scheduledMessages := scheduledMessages db |}, []).
Proof.
  intros H. unfold updateUser. rewrite (matchedCount_found _ _ _ _ H). eauto.
Qed.

Lemma no_delivery_nil : no_delivery [].
Proof. intros c []. Qed.

Lemma no_delivery_oauth tok resp : no_delivery [oauth_v2_access tok resp].
Proof. intros c [<-|[]]. reflexivity. Qed.

Lemma messageById_users us db id :
  messageById id {| users := us; scheduledMessages := scheduledMessages db |}
  = messageById id db.
Proof. reflexivity. Qed.

(** The delivery and what follows it, from a store that holds the message. *)
Lemma deliver_outcome w msg db stored token before :
  messageById (_id msg) db = Some stored ->
  no_delivery before ->
  exists updates site calls,
    Outcome w msg updates site (before ++ calls) /\
    try_catch
      (sendMessage w token (channel msg) (message msg) ;;;
       updateScheduledMessage (Date_now w at_mark_sent) (_id msg) (just_status sent))
      (fun _ => onProcessingError w msg) db
    = (Normal tt, patched (_id msg) updates (Date_now w site) db, calls).
Proof.
  intros Hm Hb.
  unfold try_catch, bind, sendMessage, try_catch, bind, call_postMessage.
  destruct (postMessage w token (channel msg) (message msg)) as [[|]|] eqn:Hp;
    simpl.
  - rewrite (updateScheduledMessage_found _ _ _ _ _ _ Hm).
    do 3 eexists. split; [|reflexivity]. now apply delivered.
  - unfold onProcessingError.
    destruct (retry_count msg + 1 >=? 3) eqn:Hr;
      rewrite (updateScheduledMessage_found _ _ _ _ _ _ Hm);
      do 3 eexists; (split; [|reflexivity]).
    + apply gave_up; [assumption|discriminate|lia].
    + apply retried; [assumption|discriminate|lia].
  - unfold onProcessingError.
    destruct (retry_count msg + 1 >=? 3) eqn:Hr;
      rewrite (updateScheduledMessage_found _ _ _ _ _ _ Hm);
      do 3 eexists; (split; [|reflexivity]).
    + apply gave_up; [assumption|discriminate|lia].
    + apply retried; [assumption|discriminate|lia].
Qed.

Lemma try_catch_bind_normal E A B (t : Task E A) (k : A -> Task E B)
    (h : Error -> Task E B) db a db1 log1 :
  t db = (Normal a, db1, log1) ->
  try_catch (bind t k) h db
  = let '(r, db2, log2) := try_catch (k a) h db1 in (r, db2, log1 ++ log2).
Proof.
  intros Ht. unfold try_catch, bind. rewrite Ht.
  destruct (k a db1) as [[[b|e] db2] log2]; [reflexivity|].
  destruct (h e db2) as [[r db3] log3]. now rewrite app_assoc.
Qed.

Lemma user_by_id_found id us u :
  findOne (user_by_id id) us = Some u ->
  findOne (user_by_id (u_id u)) us = Some u.
Proof.
  intros H. destruct (findOne_In _ _ _ _ H) as [_ Hq].
  unfold user_by_id in Hq. apply N.eqb_eq in Hq. now rewrite Hq.
Qed.

(** A refresh makes one call to [oauth.v2.access] and leaves the store alone. *)
Lemma refreshAccessToken_cases w refreshToken db :
  truthy_string refreshToken = true ->
  exists r resp,
    refreshAccessToken w refreshToken db
    = (r, db, [oauth_v2_access (or_keep refreshToken "") resp]).
Proof.
  intros Hrt. unfold refreshAccessToken. rewrite Hrt; cbn [negb].
  unfold call_oauth.
  destruct (axios_post w (or_keep refreshToken "")) as [data|];
    unfold try_catch, bind, emit, ret, throw.
  - destruct (oauth_ok data); cbn [negb]; do 2 eexists; reflexivity.
  - do 2 eexists; reflexivity.
Qed.

(** The token step either hands a token on, leaving the messages alone,
    or fails the message and stops; it never delivers. *)
Lemma ensureToken_outcome w msg user now db stored :
  messageById (_id msg) db = Some stored ->
  findOne (user_by_id (u_id user)) (users db) = Some user ->
  exists calls, no_delivery calls /\
    ((exists token us,
        ensureToken w msg user now db
        = (Normal (Some token),
           {| users := us; scheduledMessages := scheduledMessages db |}, calls))
     \/
     (exists site,
        Outcome w msg (status_and_retry_count failed (retry_count msg + 1)) site calls /\
        ensureToken w msg user now db
        = (Normal None,
           patched (_id msg) (status_and_retry_count failed (retry_count msg + 1))
                   (Date_now w site) db,
           calls))).
Proof.
  intros Hm Hu. unfold ensureToken.
  destruct (token_expired user now).
  2:{ exists []. split; [apply no_delivery_nil|]. left.
      exists (access_token user), (users db). now destruct db. }
  destruct (truthy_string (refresh_token user)) eqn:Hrt; cbn [negb].
  - destruct (refreshAccessToken_cases w (refresh_token user) db Hrt)
      as (r & resp & Hr).
    unfold try_catch, bind. rewrite Hr.
    destruct r as [refreshResult|e].
    + destruct (updateUser_found SlackCall (Date_now w at_update_user) _
                  (token_update (rr_access_token refreshResult)
                     (now + rr_expires_in refreshResult)) _ _ Hu)
        as [us Hup].
      rewrite Hup. simpl.
      eexists. split; [apply no_delivery_oauth|]. left. eauto.
    + rewrite (updateScheduledMessage_found _ _ _ _ _ _ Hm). simpl.
      eexists. split; [apply no_delivery_oauth|]. right.
      exists at_refresh_failed. split; [|reflexivity].
      apply refresh_rejected, no_delivery_oauth.
  - unfold try_catch, bind.
    rewrite (updateScheduledMessage_found _ _ _ _ _ _ Hm). simpl.
    exists []. split; [apply no_delivery_nil|]. right.
    exists at_no_refresh_token. split; [apply token_lost|reflexivity].
Qed.

Lemma processMessage_outcome w msg db stored :
  messageById (_id msg) db = Some stored ->
  exists updates site calls us,
    Outcome w msg updates site calls /\
    processMessage w msg db
    = (Normal tt,
       patched (_id msg) updates (Date_now w site)
               {| users := us; scheduledMessages := scheduledMessages db |},
       calls).
Proof.
  intros Hm. unfold processMessage.
  destruct (findOne (user_by_id (user_id msg)) (users db)) as [user|] eqn:Hu.
  - rewrite try_catch_bind_normal
      with (a := Some user) (db1 := db) (log1 := [])
      by (unfold getUserById; now rewrite Hu).
    destruct (ensureToken_outcome w msg user
                (seconds (Date_now w at_token_check)) db stored Hm
                (user_by_id_found _ _ _ Hu))
      as (calls & Hnd & [(token & us & He) | (site & Hout & He)]).
    + rewrite (try_catch_bind_normal _ _ _ _ _ _ _ _ _ _ He).
      destruct (deliver_outcome w msg
                  {| users := us; scheduledMessages := scheduledMessages db |}
                  stored token calls Hm Hnd)
        as (updates & site & calls' & Hout & Hd).
      rewrite Hd. simpl.
      exists updates, site, (calls ++ calls'), us. now split.
    + rewrite (try_catch_bind_normal _ _ _ _ _ _ _ _ _ _ He). simpl.
      do 3 eexists. exists (users db). split; [exact Hout|].
      rewrite app_nil_r. now destruct db.
  - rewrite try_catch_bind_normal
      with (a := @None User) (db1 := db) (log1 := [])
      by (unfold getUserById; now rewrite Hu).
    unfold try_catch.
    rewrite (updateScheduledMessage_found _ _ _ _ _ _ Hm). simpl.
    do 3 eexists. exists (users db). split; [apply user_missing|].
    now destruct db.
Qed.

(** ** Reading an outcome *)

Lemma only_delivery before d c :
  no_delivery before -> In c (before ++ [d]) -> is_delivery c = true -> c = d.
Proof.
  intros Hb Hin Hc. apply in_app_or in Hin. destruct Hin as [Hin|[->|[]]].
  - rewrite (Hb c Hin) in Hc. discriminate.
  - reflexivity.
Qed.

(** Go through the outcomes of a run whose log holds the delivery call
    [Hin]: the outcomes without a delivery are closed, and in the others
    [Hin] becomes the equation of that call with the outcome's. *)
Ltac delivery_outcomes Hout Hin :=
  inversion Hout; subst;
  try (now destruct Hin);
  try (match goal with
       | H : no_delivery ?cs |- _ => now specialize (H _ Hin)
       end);
  try (apply only_delivery in Hin; [|assumption|reflexivity]).

(** A run from a store that holds the message, in one equation. *)
Lemma processMessage_run w msg db stored r db' calls :
  messageById (_id msg) db = Some stored ->
  processMessage w msg db = (r, db', calls) ->
  exists updates site,
    Outcome w msg updates site calls /\
    r = Normal tt /\
    messageById (_id msg) db'
    = Some (set_message_fields updates (Date_now w site) stored) /\
    (forall id, id <> _id msg -> messageById id db' = messageById id db) /\
    ids db' = ids db.
Proof.
  intros Hm Hrun.
  destruct (processMessage_outcome w msg db stored Hm) as (updates & site & calls0 & us & Hout & Heq).
  rewrite Heq in Hrun. inversion Hrun; subst. clear Hrun.
  exists updates, site. split; [assumption|]. split; [reflexivity|].
  split; [|split].
  - rewrite messageById_patched_same, messageById_users, Hm. reflexivity.
  - intros id Hne. rewrite messageById_patched_other by assumption.
    apply messageById_users.
  - rewrite ids_patched. reflexivity.
Qed.

(** ** The runs that never reach the delivery *)

Lemma run_user_missing w msg db stored :
  messageById (_id msg) db = Some stored ->
  findOne (user_by_id (user_id msg)) (users db) = None ->
  processMessage w msg db
  = (Normal tt,
     patched (_id msg) (just_status failed) (Date_now w at_user_not_found) db,
     []).
Proof.
  intros Hm Hu. unfold processMessage.
  rewrite try_catch_bind_normal
    with (a := @None User) (db1 := db) (log1 := [])
    by (unfold getUserById; now rewrite Hu).
  unfold try_catch.
  rewrite (updateScheduledMessage_found _ _ _ _ _ _ Hm). reflexivity.
Qed.

Lemma run_no_refresh_token w msg db stored user :
  messageById (_id msg) db = Some stored ->
  findOne (user_by_id (user_id msg)) (users db) = Some user ->
  token_expired user (seconds (Date_now w at_token_check)) = true ->
  truthy_string (refresh_token user) = false ->
  processMessage w msg db
  = (Normal tt,
     patched (_id msg) (status_and_retry_count failed (retry_count msg + 1))
             (Date_now w at_no_refresh_token) db,
     []).
Proof.
  intros Hm Hu Hexp Hrt. unfold processMessage.
  rewrite try_catch_bind_normal
    with (a := Some user) (db1 := db) (log1 := [])
    by (unfold getUserById; now rewrite Hu).
  rewrite try_catch_bind_normal
    with (a := @None string)
         (db1 := patched (_id msg)
                   (status_and_retry_count failed (retry_count msg + 1))
                   (Date_now w at_no_refresh_token) db)
         (log1 := []).
  - reflexivity.
  - unfold ensureToken. rewrite Hexp, Hrt. cbn [negb].
    unfold try_catch, bind.
    rewrite (updateScheduledMessage_found _ _ _ _ _ _ Hm). reflexivity.
Qed.

Lemma ensureToken_refreshed w msg user now db data :
  findOne (user_by_id (u_id user)) (users db) = Some user ->
  token_expired user now = true ->
  truthy_string (refresh_token user) = true ->
  axios_post w (or_keep (refresh_token user) "") = Some data ->
  oauth_ok data = true ->
  ensureToken w msg user now db
  = (Normal (Some (oauth_access_token data)),
     {| users :=
          updateOne (user_by_id (u_id user))
            (set_user_fields
               (token_update (oauth_access_token data)
                  (now + number_or (oauth_expires_in data) 43200))
               (Date_now w at_update_user))
            (users db);
        scheduledMessages := scheduledMessages db |},
     [oauth_v2_access (or_keep (refresh_token user) "") (Some data)]).
Proof.
  intros Hu Hexp Hrt Hax Hok. unfold ensureToken. rewrite Hexp, Hrt. cbn [negb].
  unfold refreshAccessToken. rewrite Hrt. cbn [negb].
  unfold call_oauth. rewrite Hax.
  unfold try_catch, bind, emit, ret, throw. rewrite Hok. cbn [negb].
  unfold updateUser. rewrite (matchedCount_found _ _ _ _ Hu). reflexivity.
Qed.

(** ** Counting in delivery logs *)

Lemma count_for_app p id (log1 log2 : list Delivery) :
  count_for p id (log1 ++ log2)
  = (count_for p id log1 + count_for p id log2)%nat.
Proof. unfold count_for. now rewrite filter_app, length_app. Qed.

Lemma count_for_nil p id : count_for p id [] = 0%nat.
Proof. reflexivity. Qed.

Lemma count_for_labelled p id id' (calls : list SlackCall) :
  count_for p id (map (pair id') calls)
  = if N.eqb id' id then List.length (filter p calls) else 0%nat.
Proof.
  unfold count_for. induction calls as [|c rest IH]; simpl.
  - now destruct (N.eqb id' id).
  - destruct (N.eqb id' id) eqn:E; simpl.
    + destruct (p c); simpl; now rewrite IH.
    + exact IH.
Qed.

Lemma is_delivered_is_delivery c : is_delivered c = true -> is_delivery c = true.
Proof. destruct c as [|? ? ? [[|]|]]; simpl; congruence. Qed.

Lemma no_delivery_filter before :
  no_delivery before ->
  filter is_delivery before = [] /\ filter is_delivered before = [].
Proof.
  intros H. induction before as [|c rest IH]; [now split|].
  assert (Hc : is_delivery c = false) by (apply H; now left).
  destruct IH as [IH1 IH2]; [intros c' Hc'; apply H; now right|].
  simpl. rewrite Hc, IH1, IH2. split; [reflexivity|].
  destruct (is_delivered c) eqn:E; [|reflexivity].
  apply is_delivered_is_delivery in E. congruence.
Qed.

(** Every run makes at most one delivery call; the outcome tells how many
    and what becomes of the message. *)
Lemma Outcome_deliveries w msg updates site calls :
  Outcome w msg updates site calls ->
  (List.length (filter is_delivery calls) = 0%nat /\
   List.length (filter is_delivered calls) = 0%nat /\
   set_status updates = Some failed)
  \/
  (List.length (filter is_delivery calls) = 1%nat /\
   List.length (filter is_delivered calls) = 1%nat /\
   set_status updates = Some sent)
  \/
  (List.length (filter is_delivery calls) = 1%nat /\
   List.length (filter is_delivered calls) = 0%nat /\
   set_status updates = None /\
   set_retry_count updates = Some (retry_count msg + 1) /\
   retry_count msg + 1 < 3)
  \/
  (List.length (filter is_delivery calls) = 1%nat /\
   List.length (filter is_delivered calls) = 0%nat /\
   set_status updates = Some failed).
Proof.
  assert (Hlast : forall before d, no_delivery before ->
            filter is_delivery (before ++ [d]) = filter is_delivery [d] /\
            filter is_delivered (before ++ [d]) = filter is_delivered [d]).
  { intros before d Hb. rewrite !filter_app.
    destruct (no_delivery_filter _ Hb) as [-> ->]. now split. }
  intros Hout. inversion Hout; subst.
  - left. now repeat split.
  - left. now repeat split.
  - left. destruct (no_delivery_filter _ H) as [-> ->]. now repeat split.
  - right; left. destruct (Hlast _ (chat_postMessage token (channel msg) (message msg) (Some true)) H) as [-> ->].
    now repeat split.
  - right; right; left.
    destruct (Hlast _ (chat_postMessage token (channel msg) (message msg) result) H) as [-> ->].
    repeat split; try assumption.
    destruct result as [[|]|]; simpl; congruence.
  - right; right; right.
    destruct (Hlast _ (chat_postMessage token (channel msg) (message msg) result) H) as [-> ->].
    repeat split.
    destruct result as [[|]|]; simpl; congruence.
Qed.

(** ** Invariants of sequential ticks *)

Lemma AttemptsBounded_step : StepInvariant AttemptsBounded.
Proof.
  intros w msg db log r db' calls HI Hm Hst Hrun id.
  destruct (processMessage_run _ _ _ _ _ _ _ Hm Hrun)
    as (updates & site & Hout & _ & Hmsg' & Hframe & _).
  rewrite count_for_app, count_for_labelled.
  destruct (N.eqb (_id msg) id) eqn:E.
  - apply N.eqb_eq in E. subst id. rewrite Hmsg'.
    specialize (HI (_id msg)). rewrite Hm, Hst in HI. destruct HI as [HI1 HI2].
    destruct (Outcome_deliveries _ _ _ _ _ Hout)
      as [(-> & _ & Hs) | [(-> & _ & Hs) | [(-> & _ & Hs & Hr & Hlt) | (-> & _ & Hs)]]];
      simpl; rewrite Hs; simpl; try lia.
    rewrite Hst, Hr. simpl. lia.
  - apply N.eqb_neq in E. rewrite (Hframe id) by congruence.
    specialize (HI id). rewrite Nat.add_0_r. exact HI.
Qed.

Lemma DeliveredOnce_step : StepInvariant DeliveredOnce.
Proof.
  intros w msg db log r db' calls HI Hm Hst Hrun id.
  destruct (processMessage_run _ _ _ _ _ _ _ Hm Hrun)
    as (updates & site & Hout & _ & Hmsg' & Hframe & _).
  rewrite count_for_app, count_for_labelled.
  destruct (N.eqb (_id msg) id) eqn:E.
  - apply N.eqb_eq in E. subst id. rewrite Hmsg'.
    specialize (HI (_id msg)). rewrite Hm, Hst in HI.
    destruct (Outcome_deliveries _ _ _ _ _ Hout)
      as [(_ & -> & Hs) | [(_ & -> & Hs) | [(_ & -> & Hs & Hr & Hlt) | (_ & -> & Hs)]]];
      simpl; rewrite Hs; simpl; try lia.
    rewrite Hst. lia.
  - apply N.eqb_neq in E. rewrite (Hframe id) by congruence.
    specialize (HI id). rewrite Nat.add_0_r. exact HI.
Qed.

(** ** The loop of one tick *)

(** A listing holds the due messages of the store, in some order. *)
Lemma listed_iff order now msgs m :
  In m (arrange order (filter (is_due now) msgs))
  <-> In m msgs /\ is_due now m = true.
Proof.
  rewrite <- filter_In.
  split; apply Permutation_in;
    [|apply Permutation_sym]; apply arrange_permutes.
Qed.

(** The listing of a store with distinct ids has distinct ids. *)
Lemma due_ids_distinct order now (msgs : list ScheduledMessage) :
  NoDup (map _id msgs) ->
  NoDup (map _id (arrange order (filter (is_due now) msgs))).
Proof.
  intros Hnd.
  apply (Permutation_NoDup (l := map _id (filter (is_due now) msgs))).
  { apply Permutation_map, Permutation_sym, arrange_permutes. }
  clear order.
  induction msgs as [|m rest IH]; [exact Hnd|].
  apply NoDup_cons_iff in Hnd. destruct Hnd as [Hfresh Hrest].
  cbn [filter]. destruct (is_due now m); [|now apply IH].
  cbn [map]. apply NoDup_cons; [|now apply IH].
  contradict Hfresh.
  apply in_map_iff in Hfresh. destruct Hfresh as (other & Hsame & Hother).
  apply filter_In in Hother. destruct Hother as [Hother _].
  rewrite <- Hsame. now apply in_map.
Qed.

Lemma is_due_iff now m :
  is_due now m = true <-> status m = pending /\ send_timestamp m <= now.
Proof.
  unfold is_due. rewrite andb_true_iff, Z.leb_le.
  split; intros [H1 H2]; (split; [|assumption]).
  - now destruct (status m).
  - now rewrite H1.
Qed.

Lemma is_due_pending now m : is_due now m = true -> status m = pending.
Proof.
  unfold is_due. intros H. apply andb_prop in H. destruct H as [H _].
  now destruct (status m).
Qed.

Section Loop.
Variable I : Database -> list Delivery -> Prop.
Hypothesis I_step : StepInvariant I.

Lemma processEach_invariant worlds pendingMessages :
  forall k db log,
    NoDup (map _id pendingMessages) ->
    (forall msg, In msg pendingMessages ->
       messageById (_id msg) db = Some msg /\ status msg = pending) ->
    I db log ->
    exists db' log',
      processEach worlds k pendingMessages db = (Normal tt, db', log') /\
      I db' (log ++ log') /\
      ids db' = ids db /\
      (forall id, ~ In id (map _id pendingMessages) ->
         messageById id db' = messageById id db).
Proof.
  induction pendingMessages as [|msg rest IH]; intros k db log Hnd Hsnap HI.
  - exists db, []. rewrite app_nil_r. now repeat split.
  - simpl in Hnd. inversion Hnd as [|? ? Hnotin Hnd']; subst.
    destruct (Hsnap msg (or_introl eq_refl)) as [Hm Hst].
    destruct (processMessage (worlds k) msg db) as [[r db1] calls] eqn:Hrun.
    destruct (processMessage_run _ _ _ _ _ _ _ Hm Hrun)
      as (updates & site & Hout & -> & Hmsg' & Hframe & Hids).
    pose proof (I_step _ _ _ _ _ _ _ HI Hm Hst Hrun) as HI1.
    destruct (IH (S k) db1 (log ++ map (pair (_id msg)) calls) Hnd') as
      (db2 & log2 & Hrest & HI2 & Hids2 & Hframe2); [|exact HI1|].
    { intros msg2 Hin2. destruct (Hsnap msg2 (or_intror Hin2)) as [Hm2 Hst2].
      split; [|assumption]. rewrite Hframe; [assumption|].
      intros Heq. apply Hnotin. rewrite <- Heq. now apply in_map. }
    exists db2, (map (pair (_id msg)) calls ++ log2).
    split; [|split; [|split]].
    + simpl. unfold bind, relabel. rewrite Hrun, Hrest. reflexivity.
    + now rewrite app_assoc.
    + congruence.
    + intros id Hid. simpl in Hid.
      rewrite Hframe2 by tauto. apply Hframe. intros ->. tauto.
Qed.

(** One tick from a store with distinct ids: it completes, keeps the
    invariant and the ids, and leaves every message that was not
    pending as it was. *)
Lemma tick_invariant tw db log :
  NoDup (ids db) ->
  I db log ->
  exists db' log',
    processScheduledMessages tw db = (Normal tt, db', log') /\
    I db' (log ++ log') /\
    ids db' = ids db /\
    (forall id m, messageById id db = Some m -> status m <> pending ->
       messageById id db' = Some m).
Proof.
  intros Hnd HI.
  set (due := arrange (listing_order tw)
                (filter (is_due (seconds (listing_clock tw))) (scheduledMessages db))).
  assert (Hsnap : forall msg, In msg due ->
            messageById (_id msg) db = Some msg /\ status msg = pending).
  { intros msg Hin. apply listed_iff in Hin. destruct Hin as [Hin Hdue].
    split; [now apply In_messageById | now apply is_due_pending in Hdue]. }
  destruct (processEach_invariant (world_of tw) due 0%nat db log
              (due_ids_distinct _ _ _ Hnd) Hsnap HI)
    as (db' & log' & Hrun & HI' & Hids & Hframe).
  assert (Hterm : forall id m, messageById id db = Some m -> status m <> pending ->
            messageById id db' = Some m).
  { intros id m Hm Hst. rewrite Hframe; [assumption|].
    intros Hin. apply in_map_iff in Hin. destruct Hin as (x & Hx & Hin).
    destruct (Hsnap x Hin) as [Hmx Hstx]. rewrite Hx in Hmx. congruence. }
  unfold processScheduledMessages, try_catch, bind, getPendingMessages, processListed.
  fold due.
  destruct (Z.of_nat (List.length due) =? 0) eqn:Hlen.
  - assert (due = []) as Hnil by (destruct due; [reflexivity|simpl in Hlen; lia]).
    rewrite Hnil in *. simpl in Hrun. unfold ret in *. inversion Hrun; subst.
    exists db', []. now repeat split.
  - rewrite Hrun. exists db', log'. now repeat split.
Qed.

Lemma runTicks_invariant ticks :
  forall db log,
    NoDup (ids db) ->
    I db log ->
    let '(db', log') := runTicks ticks db in
    I db' (log ++ log') /\
    ids db' = ids db /\
    (forall id m, messageById id db = Some m -> status m <> pending ->
       messageById id db' = Some m).
Proof.
  induction ticks as [|tw later IH]; intros db log Hnd HI; simpl.
  - rewrite app_nil_r. now repeat split.
  - destruct (tick_invariant tw db log Hnd HI)
      as (db1 & log1 & Hrun & HI1 & Hids1 & Hterm1).
    rewrite Hrun.
    assert (Hnd1 : NoDup (ids db1)) by now rewrite Hids1.
    specialize (IH db1 (log ++ log1) Hnd1 HI1).
    destruct (runTicks later db1) as [db2 log2].
    destruct IH as (HI2 & Hids2 & Hterm2).
    split; [now rewrite app_assoc|]. split; [congruence|].
    intros id m Hm Hst. apply Hterm2; [|assumption]. now apply Hterm1.
Qed.
End Loop.

(** ** Cancellation *)

Lemma findOne_deleteOne_other (Doc : Type) (query other : Doc -> bool)
    (docs : list Doc) :
  (forall d, query d = true -> other d = false) ->
  findOne other (deleteOne query docs) = findOne other docs.
Proof.
  intros Hdisj. unfold findOne.
  induction docs as [|d rest IH]; simpl; [reflexivity|].
  destruct (query d) eqn:E; simpl.
  - now rewrite (Hdisj d E).
  - now rewrite IH.
Qed.

Lemma findOne_by_id_fresh id docs :
  ~ In id (map _id docs) -> findOne (by_id id) docs = None.
Proof.
  unfold findOne. induction docs as [|d rest IH]; simpl; [reflexivity|].
  intros Hnotin. destruct (by_id id d) eqn:E.
  - apply by_id_true in E. tauto.
  - apply IH. tauto.
Qed.

Lemma deleteOne_owned id owner docs m :
  NoDup (map _id docs) ->
  findOne (by_id id) docs = Some m ->
  user_id m = owner ->
  findOne (by_id_and_user id owner) docs = Some m /\
  findOne (by_id id) (deleteOne (by_id_and_user id owner) docs) = None.
Proof.
  unfold findOne, by_id_and_user.
  induction docs as [|d rest IH]; simpl; [discriminate|].
  intros Hnd Hfind Hown. inversion Hnd as [|? ? Hnotin Hnd'].
  fold (by_id id d).
  destruct (by_id id d) eqn:E; simpl.
  - injection Hfind as Hd. subst m. rewrite Hown, N.eqb_refl.
    split; [reflexivity|].
    apply by_id_true in E. rewrite E in Hnotin.
    now apply findOne_by_id_fresh.
  - rewrite E. now apply IH.
Qed.

Lemma cancel_owned E id owner db m :
  NoDup (ids db) ->
  messageById id db = Some m ->
  user_id m = owner ->
  exists db',
    @cancelScheduledMessage E id owner db = (Normal tt, db', []) /\
    users db' = users db /\
    messageById id db' = None /\
    (forall id', id' <> id -> messageById id' db' = messageById id' db).
Proof.
  intros Hnd Hm Hown.
  destruct (deleteOne_owned id owner _ m Hnd Hm Hown) as [Hfound Hgone].
  unfold cancelScheduledMessage, try_catch, deleteScheduledMessage, deletedCount.
  rewrite existsb_findOne, Hfound. simpl.
  eexists. split; [reflexivity|]. split; [reflexivity|]. split; [exact Hgone|].
  intros id' Hne. unfold messageById; simpl.
  apply findOne_deleteOne_other.
  intros d Hd. unfold by_id_and_user in Hd. apply andb_prop in Hd.
  destruct Hd as [Hd _]. apply N.eqb_eq in Hd. unfold by_id.
  apply N.eqb_neq. congruence.
Qed.

Lemma cancel_unmatched E id owner db :
  findOne (by_id_and_user id owner) (scheduledMessages db) = None ->
  @cancelScheduledMessage E id owner db
  = (Thrown (mkError "Failed to cancel scheduled message"), db, []).
Proof.
  intros Hnone.
  unfold cancelScheduledMessage, try_catch, deleteScheduledMessage, deletedCount.
  rewrite existsb_findOne, Hnone, (deleteOne_missing _ _ _ Hnone). simpl.
  now destruct db.
Qed.

(** * Worked runs *)

(** A due message with a valid token: one tick, one delivery call, [sent]. *)
Example due_message_is_delivered_by_one_tick :
  processScheduledMessages (tick_at_2000 (Some true))
    (mkDatabase [alice] [hello pending 0])
  = (Normal tt,
     mkDatabase [alice]
       [{| _id := 7%N; user_id := 1%N; channel := "C42"; message := "hello";
           send_timestamp := 1000; status := sent; retry_count := 0;
           created_at := 5; updated_at := 2000000 |}],
     [(7%N, chat_postMessage "xoxb-alice" "C42" "hello" (Some true))]).
Proof. reflexivity. Qed.

(** An expired token with a refresh token: one refresh call, then one
    delivery call with the new token, and the new expiry is stored. *)
Example expired_token_is_refreshed_then_used :
  processScheduledMessages (tick_at_2000 (Some true))
    (mkDatabase [expiring 1500 (Some "xoxe-1")] [hello pending 0])
  = (Normal tt,
     mkDatabase
       [{| u_id := 1%N; slack_workspace_id := "T0001";
           access_token := "xoxb-new"; refresh_token := Some "xoxe-1";
           token_expires_at := Some 45200;
           u_created_at := 0; u_updated_at := 2000000 |}]
       [{| _id := 7%N; user_id := 1%N; channel := "C42"; message := "hello";
           send_timestamp := 1000; status := sent; retry_count := 0;
           created_at := 5; updated_at := 2000000 |}],
     [(7%N, oauth_v2_access "xoxe-1" (Some renewed));
      (7%N, chat_postMessage "xoxb-new" "C42" "hello" (Some true))]).
Proof. reflexivity. Qed.

(** A message that is not yet due is not touched. *)
Example later_message_is_left_alone :
  processScheduledMessages
    {| listing_clock := 999999; listing_order := collection_order;
       world_of := fun _ => slack (Some true) |}
    (mkDatabase [alice] [hello pending 0])
  = (Normal tt, mkDatabase [alice] [hello pending 0], []).
Proof. reflexivity. Qed.

(** The order of a listing is the store's: the same two due messages,
    as a scan of the collection lists them and in the opposite order. *)
Example listing_follows_the_store :
  getPendingMessages (E:=Delivery) collection_order 2000000
    (mkDatabase [alice] [hello pending 0; early])
  = (Normal [hello pending 0; early],
     mkDatabase [alice] [hello pending 0; early], []) /\
  getPendingMessages (E:=Delivery) reverse_order 2000000
    (mkDatabase [alice] [hello pending 0; early])
  = (Normal [early; hello pending 0],
     mkDatabase [alice] [hello pending 0; early], []).
Proof. split; reflexivity. Qed.

(** Ticks that overlap do rewrite a message that is [sent]: both list
    message 7 while it is pending with two retries; the first loop
    delivers it and marks it [sent], the second then fails to deliver its
    stale copy and marks the message [failed]. *)
Example overlapping_ticks_rewrite_a_sent_message :
  option_map status
    (messageById 7%N
       (snd (fst (processScheduledMessages (tick_at_2000 (Some true))
                    (mkDatabase [alice] [hello pending 2])))))
  = Some sent /\
  overlappingTicks (tick_at_2000 (Some true)) (tick_at_2000 None)
    (mkDatabase [alice] [hello pending 2])
  = (Normal tt,
     mkDatabase [alice]
       [{| _id := 7%N; user_id := 1%N; channel := "C42"; message := "hello";
           send_timestamp := 1000; status := failed; retry_count := 3;
           created_at := 5; updated_at := 2000000 |}],
     [(7%N, chat_postMessage "xoxb-alice" "C42" "hello" (Some true));
      (7%N, chat_postMessage "xoxb-alice" "C42" "hello" None)]).
Proof. split; reflexivity. Qed.

(** A request for a later second is stored as a pending message. *)
Example future_request_is_stored :
  postSchedule (E:=SlackCall)
    {| handler_clock := 2000000; insertedId := 9%N; insert_date := 2000001 |}
    {| req_user := Some alice; body_channel := js_string "C42";
       body_message := js_string " hi "; body_sendTimestamp := js_number 2001 |}
    (mkDatabase [alice] [])
  = (Normal {| statusCode := 200; json_error := None; json_messageId := Some 9%N |},
     mkDatabase [alice]
       [{| _id := 9%N; user_id := 1%N; channel := "C42"; message := " hi ";
           send_timestamp := 2001; status := pending; retry_count := 0;
           created_at := 2000001; updated_at := 2000001 |}],
     []).
Proof. reflexivity. Qed.

(** The check of the send time lives in the handler: [scheduleMessage]
    stores whatever it is given. *)
Example scheduleMessage_does_not_look_at_the_clock :
  scheduleMessage (E:=SlackCall) 9%N 2000001 1%N "C42" "hi" 0
    (mkDatabase [alice] [])
  = (Normal 9%N,
     mkDatabase [alice]
       [{| _id := 9%N; user_id := 1%N; channel := "C42"; message := "hi";
           send_timestamp := 0; status := pending; retry_count := 0;
           created_at := 2000001; updated_at := 2000001 |}],
     []).
Proof. reflexivity. Qed.

(** A blank message is refused before the send time is looked at. *)
Example blank_message_is_refused :
  postSchedule (E:=SlackCall)
    {| handler_clock := 2000000; insertedId := 9%N; insert_date := 2000001 |}
    {| req_user := Some alice; body_channel := js_string "C42";
       body_message := js_string "   "; body_sendTimestamp := js_number 2001 |}
    (mkDatabase [alice] [])
  = (Normal (reject 400 "Message cannot be empty"), mkDatabase [alice] [], []).
Proof. reflexivity. Qed.

(** [trim] removes white space beyond ASCII as well, and only at the
    ends: a message of a no-break space and a line separator is blank. *)
Example trim_removes_unicode_white_space :
  trim (" " ++ no_break_space ++ "a b" ++ line_separator ++ " ") = "a b" /\
  postSchedule (E:=SlackCall)
    {| handler_clock := 2000000; insertedId := 9%N; insert_date := 2000001 |}
    {| req_user := Some alice; body_channel := js_string "C42";
       body_message := js_string (no_break_space ++ line_separator);
       body_sendTimestamp := js_number 2001 |}
    (mkDatabase [alice] [])
  = (Normal (reject 400 "Message cannot be empty"), mkDatabase [alice] [], []).
Proof. split; reflexivity. Qed.

(** * The claims *)

(** ** Sequential ticks *)

Lemma attempts_at_most_three ticks db id :
  NoDup (ids db) ->
  (forall m, In m (scheduledMessages db) -> status m = pending ->
     0 <= retry_count m) ->
  (count_for is_delivery id (snd (runTicks ticks db)) <= 3)%nat.
Proof.
  intros Hnd Hrc.
  assert (H0 : AttemptsBounded db []).
  { intros i. destruct (messageById i db) as [m|] eqn:Hm; [|reflexivity].
    destruct (status m) eqn:Hst; rewrite count_for_nil; try lia.
    split; [|lia]. apply Hrc; [|assumption]. eapply messageById_In; eauto. }
  pose proof (runTicks_invariant _ AttemptsBounded_step ticks db [] Hnd H0) as H.
  destruct (runTicks ticks db) as [db' log']. destruct H as (H & _ & _).
  simpl in *. specialize (H id).
  destruct (messageById id db') as [m|]; [|lia].
  destruct (status m); lia.
Qed.

Lemma delivered_at_most_once ticks db id :
  NoDup (ids db) ->
  (count_for is_delivered id (snd (runTicks ticks db)) <= 1)%nat.
Proof.
  intros Hnd.
  assert (H0 : DeliveredOnce db []).
  { intros i. destruct (messageById i db) as [m|]; [|reflexivity].
    destruct (status m); rewrite count_for_nil; lia. }
  pose proof (runTicks_invariant _ DeliveredOnce_step ticks db [] Hnd H0) as H.
  destruct (runTicks ticks db) as [db' log']. destruct H as (H & _ & _).
  simpl in *. specialize (H id).
  destruct (messageById id db') as [m|]; [|lia].
  destruct (status m); lia.
Qed.

Lemma terminal_untouched ticks db id m :
  NoDup (ids db) ->
  messageById id db = Some m ->
  status m <> pending ->
  messageById id (fst (runTicks ticks db)) = Some m.
Proof.
  intros Hnd Hm Hst.
  assert (Htriv : StepInvariant (fun _ _ => True)) by (intros ? ? ? ? ? ? ? ? ? ? ?; exact I).
  pose proof (runTicks_invariant _ Htriv ticks db [] Hnd I) as H.
  destruct (runTicks ticks db) as [db' log']. destruct H as (_ & _ & H).
  now apply H.
Qed.

(** ** C1 *)

(** C1, as amended: for every pending message that the store holds
    as listed, whose delivery attempt fails and whose [retry_count] is
    strictly less than 2 before the attempt, after [processMessage] the
    message is still [pending], its [retry_count] is one more, and its
    [send_timestamp] is the clock of the retry branch, in seconds, plus
    300. *)
Theorem C1_failed_delivery_is_rescheduled
    w msg db r db' calls token chan text result :
  messageById (_id msg) db = Some msg ->
  status msg = pending ->
  retry_count msg < 2 ->
  processMessage w msg db = (r, db', calls) ->
  In (chat_postMessage token chan text result) calls ->
  result <> Some true ->
  exists msg',
    messageById (_id msg) db' = Some msg' /\
    status msg' = pending /\
    retry_count msg' = retry_count msg + 1 /\
    send_timestamp msg' = seconds (Date_now w at_retry_delay) + 300.
Proof.
  intros Hm Hst Hrc Hrun Hin Hres.
  destruct (processMessage_run _ _ _ _ _ _ _ Hm Hrun)
    as (updates & site & Hout & _ & Hmsg' & _).
  eexists. split; [exact Hmsg'|].
  delivery_outcomes Hout Hin.
  - congruence.
  - simpl. auto.
  - lia.
Qed.

Lemma C1_first_failure_witness :
  exists msg',
    messageById 7%N
      (snd (fst (processMessage (slack (Some false)) (hello pending 0)
                   (mkDatabase [alice] [hello pending 0]))))
    = Some msg' /\
    status msg' = pending /\
    retry_count msg' = 0 + 1 /\
    send_timestamp msg' = seconds 2000000 + 300.
Proof.
  apply (C1_failed_delivery_is_rescheduled
           (slack (Some false)) (hello pending 0)
           (mkDatabase [alice] [hello pending 0])
           (Normal tt) _ [chat_postMessage "xoxb-alice" "C42" "hello" (Some false)]
           "xoxb-alice" "C42" "hello" (Some false)).
  - reflexivity.
  - reflexivity.
  - simpl; lia.
  - reflexivity.
  - simpl; auto.
  - discriminate.
Defined.

(** C1 as stated fails at [retry_count = 2]: the message is pending, its
    count is below 3, the delivery fails, and the message ends [failed]
    with count 3 and its [send_timestamp] untouched. *)
Lemma C1_third_failure_is_final :
  let msg := hello pending 2 in
  let '(_, db', calls) :=
    processMessage (slack (Some false)) msg (mkDatabase [alice] [msg]) in
  status msg = pending /\ retry_count msg < 3 /\
  calls = [chat_postMessage "xoxb-alice" "C42" "hello" (Some false)] /\
  option_map status (messageById 7%N db') = Some failed /\
  option_map retry_count (messageById 7%N db') = Some 3 /\
  option_map send_timestamp (messageById 7%N db') = Some 1000.
Proof. vm_compute. repeat split; congruence. Qed.

(** ** C2 *)

(** C2, as amended: over any sequence of ticks run one after the other
    from a store with distinct ids whose pending messages have a
    non-negative [retry_count], no message gets more than 3 delivery
    calls; and for every pending message whose delivery attempt fails with
    [retry_count >= 2] before the attempt (so, in particular, [>= 3]),
    after [processMessage] the message is [failed] and its [retry_count]
    is one more than before. *)
Theorem C2_three_attempts_then_failed :
  (forall ticks db id,
     NoDup (ids db) ->
     (forall m, In m (scheduledMessages db) -> status m = pending ->
        0 <= retry_count m) ->
     (count_for is_delivery id (snd (runTicks ticks db)) <= 3)%nat)
  /\
  (forall w msg db r db' calls token chan text result,
     messageById (_id msg) db = Some msg ->
     status msg = pending ->
     retry_count msg >= 2 ->
     processMessage w msg db = (r, db', calls) ->
     In (chat_postMessage token chan text result) calls ->
     result <> Some true ->
     exists msg',
       messageById (_id msg) db' = Some msg' /\
       status msg' = failed /\
       retry_count msg' = retry_count msg + 1).
Proof.
  split; [exact attempts_at_most_three|].
  intros w msg db r db' calls token chan text result Hm _ Hrc Hrun Hin Hres.
  destruct (processMessage_run _ _ _ _ _ _ _ Hm Hrun)
    as (updates & site & Hout & _ & Hmsg' & _).
  eexists. split; [exact Hmsg'|].
  delivery_outcomes Hout Hin.
  - congruence.
  - lia.
  - simpl. auto.
Qed.

Lemma C2_three_failing_ticks_witness :
  (count_for is_delivery 7%N
     (snd (runTicks [tick_at_2000 (Some false); tick_at_2000 (Some false);
                     tick_at_2000 (Some false); tick_at_2000 (Some false)]
                    (mkDatabase [alice] [hello pending 0]))) <= 3)%nat
  /\
  exists msg',
    messageById 7%N
      (snd (fst (processMessage (slack (Some false)) (hello pending 2)
                   (mkDatabase [alice] [hello pending 2]))))
    = Some msg' /\
    status msg' = failed /\
    retry_count msg' = 2 + 1.
Proof.
  split.
  - apply (proj1 C2_three_attempts_then_failed).
    + vm_compute. repeat constructor. intros [].
    + intros m [<-|[]] _. vm_compute. discriminate.
  - apply (proj2 C2_three_attempts_then_failed
             (slack (Some false)) (hello pending 2)
             (mkDatabase [alice] [hello pending 2])
             (Normal tt) _ [chat_postMessage "xoxb-alice" "C42" "hello" (Some false)]
             "xoxb-alice" "C42" "hello" (Some false)).
    + reflexivity.
    + reflexivity.
    + simpl; lia.
    + reflexivity.
    + simpl; auto.
    + discriminate.
Defined.

(** C2 as stated fails on "kept at its value": a pending message with
    [retry_count = 3] whose delivery fails ends [failed] with
    [retry_count = 4]. *)
Lemma C2_final_failure_still_counts :
  let msg := hello pending 3 in
  let '(_, db', calls) :=
    processMessage (slack (Some false)) msg (mkDatabase [alice] [msg]) in
  status msg = pending /\ retry_count msg >= 3 /\
  calls = [chat_postMessage "xoxb-alice" "C42" "hello" (Some false)] /\
  option_map status (messageById 7%N db') = Some failed /\
  option_map retry_count (messageById 7%N db') = Some 4 /\
  option_map retry_count (messageById 7%N db') <> Some (retry_count msg).
Proof. vm_compute. repeat split; congruence. Qed.

(** ** C3 *)

(** C3, as amended: when ticks run one after the other, each to its end,
    from a store with distinct ids, no message id receives more than one
    delivery call that succeeds.  The code holds no lock and claims no
    message, so nothing is promised for ticks that overlap. *)
Theorem C3_sequential_ticks_deliver_once ticks db id :
  NoDup (ids db) ->
  (count_for is_delivered id (snd (runTicks ticks db)) <= 1)%nat.
Proof. apply delivered_at_most_once. Qed.

Lemma C3_two_ticks_witness :
  (count_for is_delivered 7%N
     (snd (runTicks [tick_at_2000 (Some true); tick_at_2000 (Some true)]
                    (mkDatabase [alice] [hello pending 0; early]))) <= 1)%nat.
Proof.
  apply C3_sequential_ticks_deliver_once.
  vm_compute. repeat constructor; simpl; intuition discriminate.
Defined.

(** C3 as stated fails: two ticks that both list message 7 before either
    marks it deliver it twice, and Slack accepts both calls. *)
Lemma C3_overlapping_ticks_deliver_twice :
  let '(_, db', log) :=
    overlappingTicks (tick_at_2000 (Some true)) (tick_at_2000 (Some true))
                     (mkDatabase [alice] [hello pending 0]) in
  log = [(7%N, chat_postMessage "xoxb-alice" "C42" "hello" (Some true));
         (7%N, chat_postMessage "xoxb-alice" "C42" "hello" (Some true))] /\
  count_for is_delivered 7%N log = 2%nat.
Proof. vm_compute. split; reflexivity. Qed.

(** ** C4 *)

(** C4, as amended: [cancelScheduledMessage] looks at id and owner only.
    In a store with distinct ids, a call by the owner removes the message
    whatever its status ([sent] and [failed] included) and leaves every
    other message and the users alone; a call that matches no message of
    that id and owner throws and leaves the store as it was.  When its
    ticks run one after the other, each to its end, from a store with
    distinct ids, the scheduler never changes a message that is [sent] or
    [failed]: after any such sequence of ticks it is still in the store,
    field for field.  Nothing is promised for ticks that overlap. *)
Theorem C4_cancel_checks_owner_not_status :
  (forall id owner db m,
     NoDup (ids db) ->
     messageById id db = Some m ->
     user_id m = owner ->
     exists db',
       cancelScheduledMessage (E:=SlackCall) id owner db = (Normal tt, db', []) /\
       users db' = users db /\
       messageById id db' = None /\
       (forall id', id' <> id -> messageById id' db' = messageById id' db))
  /\
  (forall id owner db,
     findOne (by_id_and_user id owner) (scheduledMessages db) = None ->
     cancelScheduledMessage (E:=SlackCall) id owner db
     = (Thrown (mkError "Failed to cancel scheduled message"), db, []))
  /\
  (forall ticks db id m,
     NoDup (ids db) ->
     messageById id db = Some m ->
     status m <> pending ->
     messageById id (fst (runTicks ticks db)) = Some m).
Proof.
  split; [|split].
  - intros id owner db m. apply cancel_owned.
  - intros id owner db. apply cancel_unmatched.
  - exact terminal_untouched.
Qed.

Lemma C4_cancel_witness :
  (exists db',
     cancelScheduledMessage (E:=SlackCall) 8%N 1%N
       (mkDatabase [alice] [hello failed 3; early])
     = (Normal tt, db', []) /\
     users db' = [alice] /\
     messageById 8%N db' = None /\
     (forall id', id' <> 8%N ->
        messageById id' db'
        = messageById id' (mkDatabase [alice] [hello failed 3; early])))
  /\
  cancelScheduledMessage (E:=SlackCall) 7%N 2%N
    (mkDatabase [alice] [hello failed 3; early])
  = (Thrown (mkError "Failed to cancel scheduled message"),
     mkDatabase [alice] [hello failed 3; early], [])
  /\
  messageById 7%N
    (fst (runTicks [tick_at_2000 (Some true)]
                   (mkDatabase [alice] [hello failed 3; early])))
  = Some (hello failed 3).
Proof.
  split; [|split].
  - apply (proj1 C4_cancel_checks_owner_not_status 8%N 1%N
             (mkDatabase [alice] [hello failed 3; early]) early).
    + vm_compute. repeat constructor; simpl; intuition discriminate.
    + reflexivity.
    + reflexivity.
  - apply (proj1 (proj2 C4_cancel_checks_owner_not_status)). reflexivity.
  - apply (proj2 (proj2 C4_cancel_checks_owner_not_status)).
    + vm_compute. repeat constructor; simpl; intuition discriminate.
    + reflexivity.
    + discriminate.
Defined.

(** C4 as stated fails: a cancel by the owner of a message that is
    already [sent] succeeds and removes the record. *)
Lemma C4_cancel_removes_sent_message :
  let db := mkDatabase [alice] [hello sent 0] in
  let '(r, db', _) := cancelScheduledMessage (E:=SlackCall) 7%N 1%N db in
  option_map status (messageById 7%N db) = Some sent /\
  r = Normal tt /\
  messageById 7%N db' = None /\
  scheduledMessages db' = [].
Proof. vm_compute. repeat split; reflexivity. Qed.

(** ** C5 *)

(** C5, as amended: for every message the store holds as listed whose
    owner has a non-zero expiry at or before the current second and no
    refresh token, [processMessage] makes no call to Slack at all and
    leaves the message [failed] with [retry_count] one more than before.
    (An expiry of 0 is falsy in the source's test and counts as "never
    expires".) *)
Theorem C5_expired_without_refresh_token_fails
    w msg db user expiry :
  messageById (_id msg) db = Some msg ->
  findOne (user_by_id (user_id msg)) (users db) = Some user ->
  token_expires_at user = Some expiry ->
  expiry <> 0 ->
  expiry <= seconds (Date_now w at_token_check) ->
  refresh_token user = None ->
  exists db' msg',
    processMessage w msg db = (Normal tt, db', []) /\
    messageById (_id msg) db' = Some msg' /\
    status msg' = failed /\
    retry_count msg' = retry_count msg + 1.
Proof.
  intros Hm Hu He Hnz Hle Hrt.
  assert (Hexp : token_expired user (seconds (Date_now w at_token_check)) = true).
  { unfold token_expired. rewrite He. simpl.
    apply andb_true_intro. split.
    - apply negb_true_iff. now apply Z.eqb_neq.
    - now apply Z.leb_le. }
  assert (Hfalsy : truthy_string (refresh_token user) = false)
    by now rewrite Hrt.
  rewrite (run_no_refresh_token w msg db msg user Hm Hu Hexp Hfalsy).
  do 2 eexists. split; [reflexivity|].
  rewrite messageById_patched_same, Hm. simpl. auto.
Qed.

Lemma C5_expired_witness :
  exists db' msg',
    processMessage (slack (Some true)) (hello pending 0)
      (mkDatabase [expiring 1500 None] [hello pending 0])
    = (Normal tt, db', []) /\
    messageById 7%N db' = Some msg' /\
    status msg' = failed /\
    retry_count msg' = 0 + 1.
Proof.
  apply (C5_expired_without_refresh_token_fails
           (slack (Some true)) (hello pending 0)
           (mkDatabase [expiring 1500 None] [hello pending 0])
           (expiring 1500 None) 1500).
  - reflexivity.
  - reflexivity.
  - reflexivity.
  - discriminate.
  - vm_compute. discriminate.
  - reflexivity.
Defined.

(** C5 as stated fails at an expiry of 0 (the epoch, in the past at second
    2000): with no refresh token the message is still delivered and ends
    [sent], its [retry_count] unchanged. *)
Lemma C5_zero_expiry_is_delivered :
  let user := expiring 0 None in
  let msg := hello pending 0 in
  let w := slack (Some true) in
  let '(_, db', calls) := processMessage w msg (mkDatabase [user] [msg]) in
  token_expires_at user = Some 0 /\
  0 < seconds (Date_now w at_token_check) /\
  refresh_token user = None /\
  calls = [chat_postMessage "xoxb-alice" "C42" "hello" (Some true)] /\
  option_map status (messageById 7%N db') = Some sent /\
  option_map retry_count (messageById 7%N db') = Some 0.
Proof. vm_compute. repeat split; reflexivity. Qed.

(** ** C6 *)

(** C6: for every message the store holds whose delivery call succeeds,
    after [processMessage] the message is [sent] and its [retry_count] is
    what the store held before. *)
Theorem C6_delivered_message_is_sent
    w msg db stored r db' calls token chan text :
  messageById (_id msg) db = Some stored ->
  processMessage w msg db = (r, db', calls) ->
  In (chat_postMessage token chan text (Some true)) calls ->
  exists msg',
    messageById (_id msg) db' = Some msg' /\
    status msg' = sent /\
    retry_count msg' = retry_count stored.
Proof.
  intros Hm Hrun Hin.
  destruct (processMessage_run _ _ _ _ _ _ _ Hm Hrun)
    as (updates & site & Hout & _ & Hmsg' & _).
  eexists. split; [exact Hmsg'|].
  delivery_outcomes Hout Hin.
  - simpl. auto.
  - inversion Hin; subst. congruence.
  - inversion Hin; subst. congruence.
Qed.

Lemma C6_delivery_witness :
  exists msg',
    messageById 7%N
      (snd (fst (processMessage (slack (Some true)) (hello pending 1)
                   (mkDatabase [alice] [hello pending 1]))))
    = Some msg' /\
    status msg' = sent /\
    retry_count msg' = 1.
Proof.
  apply (C6_delivered_message_is_sent
           (slack (Some true)) (hello pending 1)
           (mkDatabase [alice] [hello pending 1]) (hello pending 1)
           (Normal tt) _ [chat_postMessage "xoxb-alice" "C42" "hello" (Some true)]
           "xoxb-alice" "C42" "hello").
  - reflexivity.
  - reflexivity.
  - simpl; auto.
Defined.

(** ** C8 *)

(** C8: for every request to [/schedule] whose [sendTimestamp] is a number
    at or before the current second, the handler answers with an error and
    no message id, with status 400 when the request is authenticated, and
    the store is left as it was: no record is created. *)
Theorem C8_past_send_time_is_rejected rw req db sendTimestamp :
  body_sendTimestamp req = js_number sendTimestamp ->
  sendTimestamp <= seconds (handler_clock rw) ->
  exists res,
    postSchedule (E:=SlackCall) rw req db = (Normal res, db, []) /\
    json_error res <> None /\
    json_messageId res = None /\
    (forall user, req_user req = Some user -> statusCode res = 400).
Proof.
  intros Hts Hle. unfold postSchedule, try_catch.
  destruct (req_user req) as [user|].
  2:{ eexists. split; [reflexivity|]. repeat split; simpl; congruence. }
  destruct (negb (truthy (body_channel req)) || negb (truthy (body_message req))
            || negb (truthy (body_sendTimestamp req))).
  { eexists. split; [reflexivity|]. repeat split; simpl; congruence. }
  rewrite Hts.
  destruct (body_channel req);
    try (eexists; split; [reflexivity|]; repeat split; simpl; congruence).
  destruct (body_message req);
    try (eexists; split; [reflexivity|]; repeat split; simpl; congruence).
  destruct (Z.of_nat (String.length (trim s0)) =? 0).
  { eexists. split; [reflexivity|]. repeat split; simpl; congruence. }
  apply Z.leb_le in Hle. rewrite Hle.
  eexists. split; [reflexivity|]. repeat split; simpl; congruence.
Qed.

Lemma C8_past_request_witness :
  exists res,
    postSchedule (E:=SlackCall)
      {| handler_clock := 2000000; insertedId := 9%N; insert_date := 2000000 |}
      {| req_user := Some alice; body_channel := js_string "C42";
         body_message := js_string "hello"; body_sendTimestamp := js_number 2000 |}
      (mkDatabase [alice] [])
    = (Normal res, mkDatabase [alice] [], []) /\
    json_error res <> None /\
    json_messageId res = None /\
    (forall user, Some alice = Some user -> statusCode res = 400).
Proof.
  apply (C8_past_send_time_is_rejected
           {| handler_clock := 2000000; insertedId := 9%N; insert_date := 2000000 |}
           {| req_user := Some alice; body_channel := js_string "C42";
              body_message := js_string "hello";
              body_sendTimestamp := js_number 2000 |}
           (mkDatabase [alice] []) 2000).
  - reflexivity.
  - vm_compute. discriminate.
Defined.

(** ** C9 *)

Lemma refresh_without_expiry w token data db :
  token <> "" ->
  axios_post w token = Some data ->
  oauth_ok data = true ->
  oauth_expires_in data = None ->
  refreshAccessToken w (Some token) db
  = (Normal {| rr_access_token := oauth_access_token data;
               rr_expires_in := 43200 |},
     db, [oauth_v2_access token (Some data)]).
Proof.
  intros Hne Hax Hok Hexp. unfold refreshAccessToken.
  assert (Htruthy : truthy_string (Some token) = true).
  { simpl. apply negb_true_iff. now apply String.eqb_neq. }
  rewrite Htruthy. cbn [negb or_keep].
  unfold call_oauth. rewrite Hax.
  unfold try_catch, bind, emit, ret, throw. rewrite Hok, Hexp. reflexivity.
Qed.

(** C9: when the answer to a refresh is accepted and carries no expiry,
    [refreshAccessToken] returns [expires_in = 43200], and the run of
    [processMessage] that asked for it stores the new access token with
    [token_expires_at] set to the current second plus 43200, not to
    "never expires". *)
Theorem C9_refresh_defaults_to_twelve_hours
    w msg db stored user token data :
  messageById (_id msg) db = Some stored ->
  findOne (user_by_id (user_id msg)) (users db) = Some user ->
  token_expired user (seconds (Date_now w at_token_check)) = true ->
  refresh_token user = Some token ->
  token <> "" ->
  axios_post w token = Some data ->
  oauth_ok data = true ->
  oauth_expires_in data = None ->
  refreshAccessToken w (Some token) db
  = (Normal {| rr_access_token := oauth_access_token data;
               rr_expires_in := 43200 |},
     db, [oauth_v2_access token (Some data)])
  /\
  exists user',
    findOne (user_by_id (u_id user))
            (users (snd (fst (processMessage w msg db)))) = Some user' /\
    access_token user' = oauth_access_token data /\
    token_expires_at user'
    = Some (seconds (Date_now w at_token_check) + 43200).
Proof.
  intros Hm Hu Hexp Hrt Hne Hax Hok Hnone.
  split; [now apply refresh_without_expiry|].
  pose proof (user_by_id_found _ _ _ Hu) as Hu'.
  assert (Htruthy : truthy_string (refresh_token user) = true).
  { rewrite Hrt. simpl. apply negb_true_iff. now apply String.eqb_neq. }
  assert (Hax' : axios_post w (or_keep (refresh_token user) "") = Some data)
    by now rewrite Hrt.
  pose proof (ensureToken_refreshed w msg user _ db data Hu' Hexp Htruthy Hax' Hok)
    as Hensure.
  unfold processMessage.
  rewrite try_catch_bind_normal
    with (a := Some user) (db1 := db) (log1 := [])
    by (unfold getUserById; now rewrite Hu).
  rewrite (try_catch_bind_normal _ _ _ _ _ _ _ _ _ _ Hensure).
  match type of Hensure with _ = (_, ?db1, ?before) =>
    destruct (deliver_outcome w msg db1 stored (oauth_access_token data) before Hm
                (no_delivery_oauth _ _))
      as (updates & site & calls & _ & Hd)
  end.
  rewrite Hd. simpl.
  rewrite findOne_updateOne_same by reflexivity.
  rewrite Hu'. simpl. eexists. split; [reflexivity|].
  split; [reflexivity|]. rewrite Hnone. reflexivity.
Qed.

Lemma C9_refresh_witness :
  refreshAccessToken (slack (Some true)) (Some "xoxe-1")
    (mkDatabase [expiring 1500 (Some "xoxe-1")] [hello pending 0])
  = (Normal {| rr_access_token := "xoxb-new"; rr_expires_in := 43200 |},
     mkDatabase [expiring 1500 (Some "xoxe-1")] [hello pending 0],
     [oauth_v2_access "xoxe-1" (Some renewed)])
  /\
  exists user',
    findOne (user_by_id 1%N)
      (users (snd (fst (processMessage (slack (Some true)) (hello pending 0)
                          (mkDatabase [expiring 1500 (Some "xoxe-1")]
                                      [hello pending 0])))))
    = Some user' /\
    access_token user' = "xoxb-new" /\
    token_expires_at user' = Some (2000 + 43200).
Proof.
  apply (C9_refresh_defaults_to_twelve_hours
           (slack (Some true)) (hello pending 0)
           (mkDatabase [expiring 1500 (Some "xoxe-1")] [hello pending 0])
           (hello pending 0) (expiring 1500 (Some "xoxe-1")) "xoxe-1" renewed).
  - reflexivity.
  - reflexivity.
  - reflexivity.
  - reflexivity.
  - discriminate.
  - reflexivity.
  - reflexivity.
  - reflexivity.
Defined.

(** ** C10 *)

Lemma failed_delivery_counts w msg db stored r db' calls token chan text result :
  messageById (_id msg) db = Some stored ->
  processMessage w msg db = (r, db', calls) ->
  In (chat_postMessage token chan text result) calls ->
  result <> Some true ->
  exists msg',
    messageById (_id msg) db' = Some msg' /\
    retry_count msg' = retry_count msg + 1.
Proof.
  intros Hm Hrun Hin Hres.
  destruct (processMessage_run _ _ _ _ _ _ _ Hm Hrun)
    as (updates & site & Hout & _ & Hmsg' & _).
  eexists. split; [exact Hmsg'|].
  delivery_outcomes Hout Hin; [congruence | reflexivity | reflexivity].
Qed.

(** C10, as amended: when the store holds no user for a listed message,
    [processMessage] calls Slack not at all, sets the message's [status]
    to [failed] and its [updated_at] to the date of the write, and leaves
    [retry_count], every other field, every other message and the users
    unchanged.  The run that finds an expired token without a refresh
    token and the run whose delivery fails both add one to
    [retry_count]. *)
Theorem C10_missing_user_fails_without_counting :
  (forall w msg db stored,
     messageById (_id msg) db = Some stored ->
     findOne (user_by_id (user_id msg)) (users db) = None ->
     exists db',
       processMessage w msg db = (Normal tt, db', []) /\
       users db' = users db /\
       messageById (_id msg) db'
       = Some {| _id := _id stored; user_id := user_id stored;
                 channel := channel stored; message := message stored;
                 send_timestamp := send_timestamp stored; status := failed;
                 retry_count := retry_count stored;
                 created_at := created_at stored;
                 updated_at := Date_now w at_user_not_found |} /\
       (forall id, id <> _id msg -> messageById id db' = messageById id db))
  /\
  (forall w msg db stored user,
     messageById (_id msg) db = Some stored ->
     findOne (user_by_id (user_id msg)) (users db) = Some user ->
     token_expired user (seconds (Date_now w at_token_check)) = true ->
     truthy_string (refresh_token user) = false ->
     exists msg',
       messageById (_id msg) (snd (fst (processMessage w msg db))) = Some msg' /\
       status msg' = failed /\
       retry_count msg' = retry_count msg + 1)
  /\
  (forall w msg db stored r db' calls token chan text result,
     messageById (_id msg) db = Some stored ->
     processMessage w msg db = (r, db', calls) ->
     In (chat_postMessage token chan text result) calls ->
     result <> Some true ->
     exists msg',
       messageById (_id msg) db' = Some msg' /\
       retry_count msg' = retry_count msg + 1).
Proof.
  split; [|split].
  - intros w msg db stored Hm Hu.
    rewrite (run_user_missing w msg db stored Hm Hu).
    eexists. split; [reflexivity|]. split; [reflexivity|]. split.
    + rewrite messageById_patched_same, Hm. reflexivity.
    + intros id Hne. now apply messageById_patched_other.
  - intros w msg db stored user Hm Hu Hexp Hrt.
    rewrite (run_no_refresh_token w msg db stored user Hm Hu Hexp Hrt). simpl.
    rewrite messageById_patched_same, Hm. simpl. eauto.
  - exact failed_delivery_counts.
Qed.

Lemma C10_missing_user_witness :
  (exists db',
     processMessage (slack (Some true)) (hello pending 1)
       (mkDatabase [] [hello pending 1; early])
     = (Normal tt, db', []) /\
     users db' = [] /\
     messageById 7%N db'
     = Some {| _id := 7%N; user_id := 1%N; channel := "C42"; message := "hello";
               send_timestamp := 1000; status := failed; retry_count := 1;
               created_at := 5; updated_at := 2000000 |} /\
     (forall id, id <> 7%N ->
        messageById id db'
        = messageById id (mkDatabase [] [hello pending 1; early])))
  /\
  (exists msg',
     messageById 7%N
       (snd (fst (processMessage (slack (Some true)) (hello pending 1)
                    (mkDatabase [expiring 1500 None] [hello pending 1]))))
     = Some msg' /\
     status msg' = failed /\
     retry_count msg' = 1 + 1)
  /\
  (exists msg',
     messageById 7%N
       (snd (fst (processMessage (slack None) (hello pending 1)
                    (mkDatabase [alice] [hello pending 1]))))
     = Some msg' /\
     retry_count msg' = 1 + 1).
Proof.
  split; [|split].
  - apply (proj1 C10_missing_user_fails_without_counting
             (slack (Some true)) (hello pending 1)
             (mkDatabase [] [hello pending 1; early]) (hello pending 1)).
    + reflexivity.
    + reflexivity.
  - apply (proj1 (proj2 C10_missing_user_fails_without_counting)
             (slack (Some true)) (hello pending 1)
             (mkDatabase [expiring 1500 None] [hello pending 1])
             (hello pending 1) (expiring 1500 None)).
    + reflexivity.
    + reflexivity.
    + reflexivity.
    + reflexivity.
  - apply (proj2 (proj2 C10_missing_user_fails_without_counting)
             (slack None) (hello pending 1)
             (mkDatabase [alice] [hello pending 1]) (hello pending 1)
             (Normal tt) _ [chat_postMessage "xoxb-alice" "C42" "hello" None]
             "xoxb-alice" "C42" "hello" None).
    + reflexivity.
    + reflexivity.
    + simpl; auto.
    + discriminate.
Defined.

(** C10 as stated fails on "every other field": the write also sets
    [updated_at], so the stored message is not the old one with only its
    status changed. *)
Lemma C10_updated_at_changes :
  let msg := hello pending 1 in
  let '(_, db', _) :=
    processMessage (slack (Some true)) msg (mkDatabase [] [msg]) in
  messageById 7%N db' <> Some (hello failed 1) /\
  updated_at msg = 5 /\
  option_map updated_at (messageById 7%N db') = Some 2000000.
Proof. vm_compute. repeat split; congruence. Qed.

(** * Further properties *)

(** ** Tasks that keep a relation *)

Section Keeping.
Variable R : Database -> Database -> Prop.
Hypothesis R_refl : forall db, R db db.
Hypothesis R_trans : forall a b c, R a b -> R b c -> R a c.

Lemma Keeps_ret E A (a : A) : Keeps R (@ret E A a).
Proof. intros db. apply R_refl. Qed.

Lemma Keeps_throw E A e : Keeps R (@throw E A e).
Proof. intros db. apply R_refl. Qed.

Lemma Keeps_emit E (entry : E) : Keeps R (emit entry).
Proof. intros db. apply R_refl. Qed.

Lemma Keeps_bind E A B (t : Task E A) (k : A -> Task E B) :
  Keeps R t -> (forall a, Keeps R (k a)) -> Keeps R (bind t k).
Proof.
  intros Ht Hk db. unfold bind. specialize (Ht db).
  destruct (t db) as [[[a|e] db1] log1]; simpl in *; [|assumption].
  specialize (Hk a db1). destruct (k a db1) as [[r db2] log2]; simpl in *.
  eapply R_trans; eassumption.
Qed.

Lemma Keeps_try_catch E A (body : Task E A) (handler : Error -> Task E A) :
  Keeps R body -> (forall e, Keeps R (handler e)) -> Keeps R (try_catch body handler).
Proof.
  intros Hb Hh db. unfold try_catch. specialize (Hb db).
  destruct (body db) as [[[a|e] db1] log1]; simpl in *; [assumption|].
  specialize (Hh e db1). destruct (handler e db1) as [[r db2] log2]; simpl in *.
  eapply R_trans; eassumption.
Qed.

Lemma Keeps_relabel E F A (f : E -> F) (t : Task E A) :
  Keeps R t -> Keeps R (relabel f t).
Proof.
  intros Ht db. unfold relabel. specialize (Ht db).
  destruct (t db) as [[r db1] log1]. exact Ht.
Qed.
End Keeping.

(** Close a goal [Keeps R t] over the structure of [t], given that [R]
    is reflexive and transitive; what is left are the store operations. *)
Ltac keeps_with Hrefl Htrans :=
  repeat first
    [ apply (Keeps_ret _ Hrefl)
    | apply (Keeps_throw _ Hrefl)
    | apply (Keeps_emit _ Hrefl)
    | apply (Keeps_bind _ Htrans)
    | apply (Keeps_try_catch _ Htrans)
    | apply Keeps_relabel
    | match goal with
      | |- forall _, _ => intro
      | |- Keeps _ (if ?c then _ else _) => destruct c
      | |- Keeps _ (match ?x with _ => _ end) => destruct x
      end ].

(** ** The documents the scheduler works on *)

Lemma SameDocuments_refl db : SameDocuments db db.
Proof. now split. Qed.

Lemma SameDocuments_trans a b c :
  SameDocuments a b -> SameDocuments b c -> SameDocuments a c.
Proof. intros [H1 H2] [H3 H4]. split; congruence. Qed.

Lemma Keeps_getUserById R E id :
  (forall db, R db db) -> Keeps R (@getUserById E id).
Proof. intros Hrefl db. apply Hrefl. Qed.

Lemma Keeps_updateScheduledMessage E date id updates :
  set_user_id updates = None ->
  set_channel updates = None ->
  set_message updates = None ->
  Keeps SameDocuments (@updateScheduledMessage E date id updates).
Proof.
  intros Hu Hc Hm db. unfold updateScheduledMessage.
  assert (H : SameDocuments db
                {| users := users db;
                   scheduledMessages :=
                     updateOne (by_id id) (set_message_fields updates date)
                               (scheduledMessages db) |}).
  { split; [|reflexivity]. simpl. apply map_updateOne.
    intros d. unfold message_identity, set_message_fields; simpl.
    now rewrite Hu, Hc, Hm. }
  destruct (matchedCount (by_id id) (scheduledMessages db) =? 0); exact H.
Qed.

Lemma Keeps_updateUser_token E date id token expires :
  Keeps SameDocuments (@updateUser E date id (token_update token expires)).
Proof.
  intros db. unfold updateUser.
  assert (H : SameDocuments db
                {| users :=
                     updateOne (user_by_id id)
                       (set_user_fields (token_update token expires) date) (users db);
                   scheduledMessages := scheduledMessages db |}).
  { split; [reflexivity|]. simpl. apply map_updateOne. reflexivity. }
  destruct (matchedCount (user_by_id id) (users db) =? 0); exact H.
Qed.

Lemma Keeps_processMessage w msg : Keeps SameDocuments (processMessage w msg).
Proof.
  unfold processMessage, ensureToken, onProcessingError, sendMessage,
    refreshAccessToken, call_oauth, call_postMessage.
  keeps_with SameDocuments_refl SameDocuments_trans;
    first [ apply Keeps_getUserById, SameDocuments_refl
          | apply Keeps_updateUser_token
          | apply Keeps_updateScheduledMessage; reflexivity ].
Qed.

Lemma Keeps_processEach worlds pendingMessages :
  forall k, Keeps SameDocuments (processEach worlds k pendingMessages).
Proof.
  induction pendingMessages as [|msg rest IH]; intros k; simpl.
  - apply Keeps_ret, SameDocuments_refl.
  - apply (Keeps_bind _ SameDocuments_trans); [|intros _; apply IH].
    apply Keeps_relabel, Keeps_processMessage.
Qed.

Lemma Keeps_processScheduledMessages tw :
  Keeps SameDocuments (processScheduledMessages tw).
Proof.
  unfold processScheduledMessages, processListed, getPendingMessages.
  apply (Keeps_try_catch _ SameDocuments_trans);
    [|intros _; apply Keeps_ret, SameDocuments_refl].
  apply (Keeps_bind _ SameDocuments_trans).
  - intros db. apply SameDocuments_refl.
  - intros due. destruct (Z.of_nat (List.length due) =? 0).
    + apply Keeps_ret, SameDocuments_refl.
    + apply Keeps_processEach.
Qed.

(** X1.  Whatever the store, the clock and Slack's answers, a sequence of
    ticks creates, deletes and reorders no document, never changes the
    owner, channel, text or creation date of a message, and never changes
    the workspace or the refresh token of a user. *)
Theorem ticks_keep_the_documents ticks db :
  SameDocuments db (fst (runTicks ticks db)).
Proof.
  revert db. induction ticks as [|tw later IH]; intros db; simpl.
  - apply SameDocuments_refl.
  - pose proof (Keeps_processScheduledMessages tw db) as H1.
    destruct (processScheduledMessages tw db) as [[r db1] log1]. simpl in H1.
    specialize (IH db1). destruct (runTicks later db1) as [db2 log2]. simpl in *.
    eapply SameDocuments_trans; eassumption.
Qed.

(** ** The calls of one run *)

(** X2.  Whatever the store, one run of [processMessage] makes at most one
    refresh call and then at most one delivery call, and the delivery is
    for the channel and the text of the message it was given. *)
Theorem one_run_calls_slack_at_most_twice w msg db :
  exists before after,
    snd (processMessage w msg db) = before ++ after /\
    (before = [] \/ exists token response, before = [oauth_v2_access token response]) /\
    (after = [] \/
     exists token result,
       after = [chat_postMessage token (channel msg) (message msg) result]).
Proof.
  unfold processMessage, ensureToken, onProcessingError, sendMessage,
    refreshAccessToken, call_oauth, call_postMessage,
    updateScheduledMessage, updateUser, getUserById,
    try_catch, bind, emit, ret, throw.
  repeat match goal with
         | |- context [match ?x with _ => _ end] =>
             lazymatch x with
             | context [match _ with _ => _ end] => fail
             | _ => destruct x
             end
         end;
    cbn [snd fst app];
    first
      [ exists [], []; split; [reflexivity|]; split; left; reflexivity
      | eexists [_], []; split; [reflexivity|]; split;
        [right; do 2 eexists; reflexivity | left; reflexivity]
      | eexists [], [_]; split; [reflexivity|]; split;
        [left; reflexivity | right; do 2 eexists; reflexivity]
      | eexists [_], [_]; split; [reflexivity|]; split;
        right; do 2 eexists; reflexivity ].
Qed.

(** ** What one tick does to each message *)

Lemma tick_is_its_loop tw db :
  processScheduledMessages tw db
  = let '(_, db', log) :=
      processEach (world_of tw) 0%nat
        (arrange (listing_order tw)
           (filter (is_due (seconds (listing_clock tw))) (scheduledMessages db))) db in
    (Normal tt, db', log).
Proof.
  unfold processScheduledMessages, try_catch, bind, getPendingMessages, processListed.
  set (due := arrange _ _).
  destruct (Z.of_nat (List.length due) =? 0) eqn:Hlen.
  - assert (due = []) as -> by (destruct due; [reflexivity|simpl in Hlen; lia]).
    reflexivity.
  - destruct (processEach (world_of tw) 0 due db) as [[[[]|e] db1] log1];
      [reflexivity|].
    unfold ret. now rewrite app_nil_r.
Qed.

Lemma trivial_step : StepInvariant (fun _ _ => True).
Proof. intros w msg db log r db' calls _ _ _ _. exact I. Qed.

Lemma due_snapshots order now db :
  NoDup (ids db) ->
  forall msg,
    In msg (arrange order (filter (is_due now) (scheduledMessages db))) ->
    messageById (_id msg) db = Some msg /\ status msg = pending.
Proof.
  intros Hnd msg Hin. apply listed_iff in Hin. destruct Hin as [Hin Hdue].
  split; [now apply In_messageById | now apply is_due_pending in Hdue].
Qed.

(** X3.  In a store with distinct ids, a tick leaves every message that
    is not due exactly as it was: those already [sent] or [failed], and
    the pending ones whose time has not come. *)
Theorem tick_leaves_messages_not_due tw db id m :
  NoDup (ids db) ->
  messageById id db = Some m ->
  is_due (seconds (listing_clock tw)) m = false ->
  messageById id (snd (fst (processScheduledMessages tw db))) = Some m.
Proof.
  intros Hnd Hm Hnot. rewrite tick_is_its_loop.
  destruct (processEach_invariant _ trivial_step (world_of tw) _ 0%nat db []
              (due_ids_distinct (listing_order tw) (seconds (listing_clock tw)) _ Hnd)
              (due_snapshots _ _ db Hnd) I)
    as (db' & log' & Hrun & _ & _ & Hframe).
  rewrite Hrun. simpl. rewrite Hframe; [assumption|].
  intros Hin. apply in_map_iff in Hin. destruct Hin as (x & Hx & Hin).
  pose proof (due_snapshots _ _ db Hnd x Hin) as [Hmx _].
  apply listed_iff in Hin. destruct Hin as [_ Hdue].
  rewrite Hx in Hmx. congruence.
Qed.

Lemma tick_leaves_messages_not_due_witness :
  messageById 7%N
    (snd (fst (processScheduledMessages
                 {| listing_clock := 500000; listing_order := collection_order;
                    world_of := fun _ => slack (Some true) |}
                 (mkDatabase [alice] [hello pending 0; early]))))
  = Some (hello pending 0).
Proof.
  apply tick_leaves_messages_not_due.
  - vm_compute. repeat constructor; simpl; intuition discriminate.
  - reflexivity.
  - reflexivity.
Defined.





(** ** The tick in which everything goes well *)

Lemma run_delivered w msg db stored user :
  messageById (_id msg) db = Some stored ->
  findOne (user_by_id (user_id msg)) (users db) = Some user ->
  token_expired user (seconds (Date_now w at_token_check)) = false ->
  postMessage w (access_token user) (channel msg) (message msg) = Some true ->
  processMessage w msg db
  = (Normal tt,
     patched (_id msg) (just_status sent) (Date_now w at_mark_sent) db,
     [chat_postMessage (access_token user) (channel msg) (message msg) (Some true)]).
Proof.
  intros Hm Hu Hexp Hpost. unfold processMessage.
  rewrite try_catch_bind_normal
    with (a := Some user) (db1 := db) (log1 := [])
    by (unfold getUserById; now rewrite Hu).
  rewrite try_catch_bind_normal
    with (a := Some (access_token user)) (db1 := db) (log1 := [])
    by (unfold ensureToken; now rewrite Hexp).
  unfold try_catch, bind, sendMessage, try_catch, bind, call_postMessage.
  rewrite Hpost. unfold emit, ret, bind. cbn [negb].
  rewrite (updateScheduledMessage_found _ _ _ _ _ _ Hm). reflexivity.
Qed.

Lemma processEach_all_delivered tw pendingMessages :
  (forall n token chan text, postMessage (world_of tw n) token chan text = Some true) ->
  forall k db,
    NoDup (map _id pendingMessages) ->
    (forall msg, In msg pendingMessages ->
       messageById (_id msg) db = Some msg /\ has_valid_token tw db msg) ->
    exists db' log,
      processEach (world_of tw) k pendingMessages db = (Normal tt, db', log) /\
      users db' = users db /\
      map fst log = map _id pendingMessages /\
      (forall entry, In entry log -> is_delivered (snd entry) = true) /\
      (forall msg, In msg pendingMessages ->
         exists after,
           messageById (_id msg) db' = Some after /\
           status after = sent /\ retry_count after = retry_count msg) /\
      (forall id, ~ In id (map _id pendingMessages) ->
         messageById id db' = messageById id db).
Proof.
  intros Haccept.
  induction pendingMessages as [|first rest IH]; intros k db Hnd Hsnap.
  - exists db, []. repeat split; try reflexivity; intros ? [].
  - simpl in Hnd. inversion Hnd as [|? ? Hfresh Hnd']; subst.
    destruct (Hsnap first (or_introl eq_refl)) as [Hm (user & Hu & Hvalid)].
    pose proof (run_delivered (world_of tw k) first db first user Hm Hu
                  (Hvalid k) (Haccept k _ _ _)) as Hrun.
    set (db1 := patched (_id first) (just_status sent)
                        (Date_now (world_of tw k) at_mark_sent) db) in *.
    destruct (IH (S k) db1 Hnd') as (db2 & log2 & Hrest & Hus & Hfst & Hall & Hsent & Hframe).
    { intros m Hin. destruct (Hsnap m (or_intror Hin)) as [Hs Hv].
      split; [|exact Hv].
      unfold db1. rewrite messageById_patched_other; [assumption|].
      intros Heq. apply Hfresh. rewrite <- Heq. now apply in_map. }
    exists db2, ((_id first,
                  chat_postMessage (access_token user) (channel first)
                                   (message first) (Some true)) :: log2).
    split; [|split; [|split; [|split; [|split]]]].
    + simpl. unfold bind, relabel. rewrite Hrun, Hrest. reflexivity.
    + exact Hus.
    + simpl. now rewrite Hfst.
    + intros entry [<-|Hin]; [reflexivity|now apply Hall].
    + intros m [<-|Hin]; [|now apply Hsent].
      rewrite Hframe by assumption. unfold db1.
      rewrite messageById_patched_same, Hm. simpl. eauto.
    + intros id Hid. simpl in Hid. rewrite Hframe by tauto.
      unfold db1. apply messageById_patched_other. intros ->. tauto.
Qed.

(** X5.  In a store with distinct ids, when the owner of every due
    message is stored with a token that is not expired and Slack accepts
    every delivery, one tick makes exactly one delivery call per listed
    message, in the order of the listing that [getPendingMessages]
    returned, all accepted; the listing holds the due messages, whatever
    the order in which the store answers; every due message ends [sent]
    with its [retry_count] unchanged, and no user is changed. *)
Theorem tick_delivers_all_when_all_is_well tw db :
  NoDup (ids db) ->
  (forall m, In m (scheduledMessages db) ->
     is_due (seconds (listing_clock tw)) m = true -> has_valid_token tw db m) ->
  (forall n token chan text, postMessage (world_of tw n) token chan text = Some true) ->
  exists due db' log,
    getPendingMessages (E:=Delivery) (listing_order tw) (listing_clock tw) db
    = (Normal due, db, []) /\
    Permutation due
      (filter (is_due (seconds (listing_clock tw))) (scheduledMessages db)) /\
    processScheduledMessages tw db = (Normal tt, db', log) /\
    users db' = users db /\
    map fst log = map _id due /\
    (forall entry, In entry log -> is_delivered (snd entry) = true) /\
    (forall m, In m (scheduledMessages db) ->
       is_due (seconds (listing_clock tw)) m = true ->
       exists after,
         messageById (_id m) db' = Some after /\
         status after = sent /\ retry_count after = retry_count m).
Proof.
  intros Hnd Hvalid Haccept. rewrite tick_is_its_loop.
  set (due := arrange (listing_order tw)
                (filter (is_due (seconds (listing_clock tw))) (scheduledMessages db))).
  destruct (processEach_all_delivered tw due Haccept 0%nat db
              (due_ids_distinct _ _ _ Hnd))
    as (db' & log & Hrun & Hus & Hfst & Hall & Hsent & _).
  { intros msg Hin.
    destruct (due_snapshots _ _ db Hnd msg Hin) as [Hs _].
    split; [exact Hs|].
    apply listed_iff in Hin. destruct Hin as [Hin Hdue]. now apply Hvalid. }
  rewrite Hrun. exists due, db', log.
  split; [reflexivity|]. split; [apply arrange_permutes|].
  repeat split; try assumption.
  intros m Hin Hdue. apply Hsent. apply listed_iff. now split.
Qed.

Lemma tick_delivers_all_witness :
  exists db' log,
    processScheduledMessages (reversed_tick_at_2000 (Some true))
      (mkDatabase [alice] [hello pending 0; early])
    = (Normal tt, db', log) /\
    users db' = [alice] /\
    map fst log = [8%N; 7%N] /\
    (forall entry, In entry log -> is_delivered (snd entry) = true) /\
    (forall m, In m [hello pending 0; early] ->
       is_due 2000 m = true ->
       exists after,
         messageById (_id m) db' = Some after /\
         status after = sent /\ retry_count after = retry_count m).
Proof.
  destruct (tick_delivers_all_when_all_is_well (reversed_tick_at_2000 (Some true))
              (mkDatabase [alice] [hello pending 0; early]))
    as (due & db' & log & Hlist & _ & Hrun & Hus & Hfst & Hall & Hsent).
  - vm_compute. repeat constructor; simpl; intuition discriminate.
  - intros m [<-|[<-|[]]] _; exists alice; split; reflexivity.
  - reflexivity.
  - injection Hlist as <-.
    exists db', log. repeat split; assumption.
Defined.

(** ** A message that left the store after the listing *)

Lemma processMessage_missing w msg db :
  messageById (_id msg) db = None ->
  exists db' calls,
    processMessage w msg db
    = (Thrown (mkError "Scheduled message not found"), db', calls) /\
    scheduledMessages db' = scheduledMessages db.
Proof.
  intros Hm.
  pose proof (matchedCount_missing _ _ _ Hm) as Hcount.
  pose proof (fun change => updateOne_missing _ (by_id (_id msg)) change _ Hm) as Hsame.
  unfold processMessage, ensureToken, onProcessingError, sendMessage,
    refreshAccessToken, call_oauth, call_postMessage,
    updateScheduledMessage, updateUser, getUserById,
    try_catch, bind, emit, ret, throw.
  repeat (repeat first [ rewrite Hsame | rewrite Hcount
                       | progress cbn [scheduledMessages users fst snd] ];
          match goal with
          | |- context [match ?x with _ => _ end] =>
              lazymatch x with
              | context [match _ with _ => _ end] => fail
              | _ => destruct x
              end
          end);
    repeat first [ rewrite Hsame | rewrite Hcount
                 | progress cbn [scheduledMessages users fst snd] ];
    do 2 eexists; (split; [reflexivity|]); reflexivity.
Qed.

(** X6.  When the first message of a listing is no longer in the store
    (it was cancelled after the listing), its run throws, the loop stops
    there and the tick ends: no message is written and the messages
    behind it in the listing get no Slack call in this tick. *)
Theorem missing_message_ends_the_tick tw msg rest db :
  messageById (_id msg) db = None ->
  exists db' log,
    processListed tw (msg :: rest) db
    = (Thrown (mkError "Scheduled message not found"), db', log) /\
    scheduledMessages db' = scheduledMessages db /\
    (forall entry, In entry log -> fst entry = _id msg).
Proof.
  intros Hm.
  destruct (processMessage_missing (world_of tw 0%nat) msg db Hm)
    as (db' & calls & Hrun & Hsame).
  exists db', (map (pair (_id msg)) calls).
  split; [|split].
  - unfold processListed. simpl. unfold bind, relabel. now rewrite Hrun.
  - exact Hsame.
  - intros entry Hin. apply in_map_iff in Hin.
    destruct Hin as (c & <- & _). reflexivity.
Qed.

Lemma missing_message_ends_the_tick_witness :
  exists db' log,
    processListed (tick_at_2000 (Some true)) [hello pending 0; early]
      (mkDatabase [alice] [early])
    = (Thrown (mkError "Scheduled message not found"), db', log) /\
    scheduledMessages db' = [early] /\
    (forall entry, In entry log -> fst entry = 7%N).
Proof.
  apply (missing_message_ends_the_tick (tick_at_2000 (Some true))
           (hello pending 0) [early] (mkDatabase [alice] [early])).
  reflexivity.
Defined.

(** X7.  A message that left the store after the listing is still
    delivered when its owner's token is good: the run calls Slack with
    the snapshot's channel and text, and only then fails on the write. *)
Theorem cancelled_after_listing_is_still_delivered w msg db user result :
  messageById (_id msg) db = None ->
  findOne (user_by_id (user_id msg)) (users db) = Some user ->
  token_expired user (seconds (Date_now w at_token_check)) = false ->
  postMessage w (access_token user) (channel msg) (message msg) = result ->
  processMessage w msg db
  = (Thrown (mkError "Scheduled message not found"), db,
     [chat_postMessage (access_token user) (channel msg) (message msg) result]).
Proof.
  intros Hm Hu Hexp Hpost.
  pose proof (fun date updates =>
                updateScheduledMessage_missing SlackCall date (_id msg) updates db Hm)
    as Hthrow.
  unfold processMessage.
  rewrite try_catch_bind_normal
    with (a := Some user) (db1 := db) (log1 := [])
    by (unfold getUserById; now rewrite Hu).
  rewrite try_catch_bind_normal
    with (a := Some (access_token user)) (db1 := db) (log1 := [])
    by (unfold ensureToken; now rewrite Hexp).
  unfold onProcessingError, try_catch, bind, sendMessage, try_catch, bind,
    call_postMessage.
  rewrite Hpost.
  destruct result as [[|]|]; unfold emit, ret, throw, bind; cbn [negb];
    destruct (retry_count msg + 1 >=? 3); rewrite !Hthrow; reflexivity.
Qed.

Lemma cancelled_after_listing_witness :
  processMessage (slack (Some true)) (hello pending 0) (mkDatabase [alice] [early])
  = (Thrown (mkError "Scheduled message not found"), mkDatabase [alice] [early],
     [chat_postMessage "xoxb-alice" "C42" "hello" (Some true)]).
Proof.
  apply (cancelled_after_listing_is_still_delivered
           (slack (Some true)) (hello pending 0) (mkDatabase [alice] [early])
           alice (Some true)).
  - reflexivity.
  - reflexivity.
  - reflexivity.
  - reflexivity.
Defined.

(** ** Runs that refresh the token *)

Lemma deliver_run w msg db stored token :
  messageById (_id msg) db = Some stored ->
  exists db',
    try_catch
      (sendMessage w token (channel msg) (message msg) ;;;
       updateScheduledMessage (Date_now w at_mark_sent) (_id msg) (just_status sent))
      (fun _ => onProcessingError w msg) db
    = (Normal tt, db',
       [chat_postMessage token (channel msg) (message msg)
          (postMessage w token (channel msg) (message msg))]) /\
    users db' = users db.
Proof.
  intros Hm.
  unfold onProcessingError, try_catch, bind, sendMessage, try_catch, bind,
    call_postMessage.
  destruct (postMessage w token (channel msg) (message msg)) as [[|]|];
    unfold emit, ret, throw, bind; cbn [negb];
    try destruct (retry_count msg + 1 >=? 3);
    rewrite (updateScheduledMessage_found _ _ _ _ _ _ Hm);
    eexists; split; reflexivity.
Qed.

(** X8.  When the token is expired and Slack refuses the refresh (or
    cannot be reached), the run makes that one call and no delivery,
    leaves the users as they were, and the message ends [failed] with one
    retry more. *)
Theorem refused_refresh_fails_the_message w msg db user token :
  messageById (_id msg) db = Some msg ->
  findOne (user_by_id (user_id msg)) (users db) = Some user ->
  token_expired user (seconds (Date_now w at_token_check)) = true ->
  refresh_token user = Some token ->
  token <> "" ->
  match axios_post w token with
  | Some data => oauth_ok data = false
  | None => True
  end ->
  exists db' after,
    processMessage w msg db
    = (Normal tt, db', [oauth_v2_access token (axios_post w token)]) /\
    users db' = users db /\
    messageById (_id msg) db' = Some after /\
    status after = failed /\
    retry_count after = retry_count msg + 1.
Proof.
  intros Hm Hu Hexp Hrt Hne Hrefused.
  assert (Htruthy : truthy_string (refresh_token user) = true).
  { rewrite Hrt. simpl. apply negb_true_iff. now apply String.eqb_neq. }
  exists (patched (_id msg) (status_and_retry_count failed (retry_count msg + 1))
                  (Date_now w at_refresh_failed) db).
  eexists. split; [|split; [reflexivity|split; [|split]]].
  - unfold processMessage.
    rewrite try_catch_bind_normal
      with (a := Some user) (db1 := db) (log1 := [])
      by (unfold getUserById; now rewrite Hu).
    rewrite try_catch_bind_normal
      with (a := @None string)
           (db1 := patched (_id msg)
                     (status_and_retry_count failed (retry_count msg + 1))
                     (Date_now w at_refresh_failed) db)
           (log1 := [oauth_v2_access token (axios_post w token)]).
    + reflexivity.
    + unfold ensureToken. rewrite Hexp, Htruthy. cbn [negb].
      unfold refreshAccessToken. rewrite Htruthy, Hrt. cbn [negb or_keep].
      unfold call_oauth.
      destruct (axios_post w token) as [data|];
        unfold try_catch, bind, emit, ret, throw;
        [rewrite Hrefused; cbn [negb]|];
        rewrite (updateScheduledMessage_found _ _ _ _ _ _ Hm); reflexivity.
  - rewrite messageById_patched_same, Hm. reflexivity.
  - reflexivity.
  - reflexivity.
Qed.

Lemma refused_refresh_witness :
  exists db' after,
    processMessage
      {| Date_now := fun _ => 2000000; axios_post := fun _ => None;
         postMessage := fun _ _ _ => Some true |}
      (hello pending 0)
      (mkDatabase [expiring 1500 (Some "xoxe-1")] [hello pending 0])
    = (Normal tt, db', [oauth_v2_access "xoxe-1" None]) /\
    users db' = [expiring 1500 (Some "xoxe-1")] /\
    messageById 7%N db' = Some after /\
    status after = failed /\
    retry_count after = 0 + 1.
Proof.
  apply (refused_refresh_fails_the_message
           {| Date_now := fun _ => 2000000; axios_post := fun _ => None;
              postMessage := fun _ _ _ => Some true |}
           (hello pending 0)
           (mkDatabase [expiring 1500 (Some "xoxe-1")] [hello pending 0])
           (expiring 1500 (Some "xoxe-1")) "xoxe-1").
  - reflexivity.
  - reflexivity.
  - reflexivity.
  - reflexivity.
  - discriminate.
  - exact I.
Defined.

(** X9.  When the token is expired and the refresh succeeds, the run
    makes the refresh call and then one delivery call, and the delivery
    carries the access token Slack has just returned, which is also the
    one stored for the user, never the expired one. *)
Theorem delivery_uses_the_refreshed_token w msg db stored user token data :
  messageById (_id msg) db = Some stored ->
  findOne (user_by_id (user_id msg)) (users db) = Some user ->
  token_expired user (seconds (Date_now w at_token_check)) = true ->
  refresh_token user = Some token ->
  token <> "" ->
  axios_post w token = Some data ->
  oauth_ok data = true ->
  exists db' user',
    processMessage w msg db
    = (Normal tt, db',
       [oauth_v2_access token (Some data);
        chat_postMessage (oauth_access_token data) (channel msg) (message msg)
          (postMessage w (oauth_access_token data) (channel msg) (message msg))]) /\
    findOne (user_by_id (u_id user)) (users db') = Some user' /\
    access_token user' = oauth_access_token data /\
    refresh_token user' = Some token.
Proof.
  intros Hm Hu Hexp Hrt Hne Hax Hok.
  pose proof (user_by_id_found _ _ _ Hu) as Hu'.
  assert (Htruthy : truthy_string (refresh_token user) = true).
  { rewrite Hrt. simpl. apply negb_true_iff. now apply String.eqb_neq. }
  assert (Hax' : axios_post w (or_keep (refresh_token user) "") = Some data)
    by now rewrite Hrt.
  pose proof (ensureToken_refreshed w msg user _ db data Hu' Hexp Htruthy Hax' Hok)
    as Hensure.
  rewrite Hrt in Hensure. cbn [or_keep] in Hensure.
  unfold processMessage.
  rewrite try_catch_bind_normal
    with (a := Some user) (db1 := db) (log1 := [])
    by (unfold getUserById; now rewrite Hu).
  rewrite (try_catch_bind_normal _ _ _ _ _ _ _ _ _ _ Hensure).
  match type of Hensure with _ = (_, ?db1, _) =>
    destruct (deliver_run w msg db1 stored (oauth_access_token data) Hm)
      as (db' & Hd & Hus)
  end.
  rewrite Hd. simpl.
  exists db'. eexists. split; [reflexivity|].
  rewrite Hus. simpl.
  rewrite findOne_updateOne_same by reflexivity.
  rewrite Hu'. simpl. split; [reflexivity|]. split; [reflexivity|exact Hrt].
Qed.

Lemma delivery_uses_the_refreshed_token_witness :
  exists db' user',
    processMessage (slack (Some true)) (hello pending 0)
      (mkDatabase [expiring 1500 (Some "xoxe-1")] [hello pending 0])
    = (Normal tt, db',
       [oauth_v2_access "xoxe-1" (Some renewed);
        chat_postMessage "xoxb-new" "C42" "hello" (Some true)]) /\
    findOne (user_by_id 1%N) (users db') = Some user' /\
    access_token user' = "xoxb-new" /\
    refresh_token user' = Some "xoxe-1".
Proof.
  apply (delivery_uses_the_refreshed_token
           (slack (Some true)) (hello pending 0)
           (mkDatabase [expiring 1500 (Some "xoxe-1")] [hello pending 0])
           (hello pending 0) (expiring 1500 (Some "xoxe-1")) "xoxe-1" renewed).
  - reflexivity.
  - reflexivity.
  - reflexivity.
  - reflexivity.
  - discriminate.
  - reflexivity.
  - reflexivity.
Defined.

(** ** The listing of a user's messages *)

Lemma place_by_send_timestamp_perm m sorted :
  Permutation (place_by_send_timestamp m sorted) (m :: sorted).
Proof.
  induction sorted as [|x rest IH]; simpl; [reflexivity|].
  destruct (send_timestamp m <=? send_timestamp x); [reflexivity|].
  rewrite IH. apply perm_swap.
Qed.

Lemma place_by_send_timestamp_head m sorted x :
  HdRel by_send_timestamp x sorted ->
  by_send_timestamp x m ->
  HdRel by_send_timestamp x (place_by_send_timestamp m sorted).
Proof.
  intros Hhd Hxm. destruct sorted as [|y rest]; simpl.
  - now constructor.
  - destruct (send_timestamp m <=? send_timestamp y); constructor;
      [assumption | now inversion Hhd].
Qed.

Lemma place_by_send_timestamp_sorted m sorted :
  Sorted by_send_timestamp sorted ->
  Sorted by_send_timestamp (place_by_send_timestamp m sorted).
Proof.
  induction sorted as [|x rest IH]; intros Hs; simpl.
  - repeat constructor.
  - inversion Hs as [|? ? Hrest Hhd]; subst.
    destruct (send_timestamp m <=? send_timestamp x) eqn:E.
    + constructor; [assumption|]. constructor.
      unfold by_send_timestamp. now apply Z.leb_le.
    + constructor; [now apply IH|].
      apply place_by_send_timestamp_head; [assumption|].
      unfold by_send_timestamp. apply Z.leb_gt in E. lia.
Qed.

Lemma sort_send_timestamp_perm msgs :
  Permutation (sort_send_timestamp msgs) msgs.
Proof.
  induction msgs as [|m rest IH]; simpl; [reflexivity|].
  rewrite place_by_send_timestamp_perm. now constructor.
Qed.

Lemma sort_send_timestamp_sorted msgs :
  Sorted by_send_timestamp (sort_send_timestamp msgs).
Proof.
  induction msgs as [|m rest IH]; simpl; [constructor|].
  now apply place_by_send_timestamp_sorted.
Qed.

(** X10.  The listing of a user's messages leaves the store alone and
    returns exactly the messages of that user, each as often as the store
    holds it, in ascending order of [send_timestamp]. *)
Theorem user_listing_is_complete_and_sorted userId db :
  exists listing,
    getScheduledMessagesByUserId (E:=SlackCall) userId db = (Normal listing, db, []) /\
    Sorted by_send_timestamp listing /\
    Permutation listing (filter (by_user userId) (scheduledMessages db)) /\
    (forall m, In m listing <-> In m (scheduledMessages db) /\ user_id m = userId).
Proof.
  eexists. split; [reflexivity|]. split; [|split].
  - apply sort_send_timestamp_sorted.
  - apply sort_send_timestamp_perm.
  - intros m. split.
    + intros Hin. apply (Permutation_in _ (sort_send_timestamp_perm _)) in Hin.
      apply filter_In in Hin. destruct Hin as [Hin Hu].
      split; [assumption|]. now apply N.eqb_eq in Hu.
    + intros [Hin Hu].
      apply (Permutation_in _ (Permutation_sym (sort_send_timestamp_perm _))).
      apply filter_In. split; [assumption|]. now apply N.eqb_eq.
Qed.

(** ** Scheduling and cancelling *)

Lemma findOne_app_fresh (Doc : Type) (query : Doc -> bool) docs doc :
  findOne query docs = None ->
  findOne query (docs ++ [doc]) = if query doc then Some doc else None.
Proof.
  unfold findOne. induction docs as [|d rest IH]; simpl; [reflexivity|].
  destruct (query d); [discriminate|]. exact IH.
Qed.







(** X13.  In a store with distinct ids, a cancel by anyone but the owner
    fails and changes nothing: the message stays, field for field. *)
Theorem only_the_owner_can_cancel id other db m :
  NoDup (ids db) ->
  messageById id db = Some m ->
  user_id m <> other ->
  cancelScheduledMessage (E:=SlackCall) id other db
  = (Thrown (mkError "Failed to cancel scheduled message"), db, []).
Proof.
  intros Hnd Hm Hother. apply cancel_unmatched.
  destruct (findOne (by_id_and_user id other) (scheduledMessages db)) as [x|] eqn:Hx;
    [|reflexivity].
  exfalso. apply findOne_In in Hx. destruct Hx as [Hin Hq].
  unfold by_id_and_user in Hq. apply andb_prop in Hq. destruct Hq as [Hi Ho].
  apply N.eqb_eq in Hi. apply N.eqb_eq in Ho.
  pose proof (In_messageById db x Hnd Hin) as Hx. rewrite Hi in Hx. congruence.
Qed.

Lemma only_the_owner_can_cancel_witness :
  cancelScheduledMessage (E:=SlackCall) 7%N 2%N
    (mkDatabase [alice] [hello pending 0; early])
  = (Thrown (mkError "Failed to cancel scheduled message"),
     mkDatabase [alice] [hello pending 0; early], []).
Proof.
  apply (only_the_owner_can_cancel 7%N 2%N
           (mkDatabase [alice] [hello pending 0; early]) (hello pending 0)).
  - vm_compute. repeat constructor; simpl; intuition discriminate.
  - reflexivity.
  - discriminate.
Defined.

(** X14.  In a store with distinct ids, cancelling one's own message
    twice succeeds the first time and fails the second time, and the
    second call changes nothing. *)
Theorem second_cancel_fails id owner db m :
  NoDup (ids db) ->
  messageById id db = Some m ->
  user_id m = owner ->
  exists db',
    cancelScheduledMessage (E:=SlackCall) id owner db = (Normal tt, db', []) /\
    cancelScheduledMessage (E:=SlackCall) id owner db'
    = (Thrown (mkError "Failed to cancel scheduled message"), db', []).
Proof.
  intros Hnd Hm Hown.
  destruct (cancel_owned SlackCall id owner db m Hnd Hm Hown)
    as (db' & Hfirst & _ & Hgone & _).
  exists db'. split; [assumption|]. apply cancel_unmatched.
  destruct (findOne (by_id_and_user id owner) (scheduledMessages db')) as [x|] eqn:Hx;
    [|reflexivity].
  exfalso. apply findOne_In in Hx. destruct Hx as [Hin Hq].
  unfold by_id_and_user in Hq. apply andb_prop in Hq. destruct Hq as [Hi _].
  unfold messageById, findOne in Hgone.
  apply (find_none _ _ Hgone) in Hin. unfold by_id in Hin. congruence.
Qed.

Lemma second_cancel_witness :
  exists db',
    cancelScheduledMessage (E:=SlackCall) 7%N 1%N
      (mkDatabase [alice] [hello pending 0; early])
    = (Normal tt, db', []) /\
    cancelScheduledMessage (E:=SlackCall) 7%N 1%N db'
    = (Thrown (mkError "Failed to cancel scheduled message"), db', []).
Proof.
  apply (second_cancel_fails 7%N 1%N
           (mkDatabase [alice] [hello pending 0; early]) (hello pending 0)).
  - vm_compute. repeat constructor; simpl; intuition discriminate.
  - reflexivity.
  - reflexivity.
Defined.

(** ** The Slack client *)

(** X15.  [refreshAccessToken] never writes the store.  Without a refresh
    token (none, or the empty string) it throws before calling Slack.
    With one it makes exactly one call, returns only when Slack answered
    [ok], then with Slack's access token and an [expires_in] that is
    never 0, and throws "Failed to refresh access token" otherwise. *)
Theorem refreshAccessToken_behaviour w refreshToken db :
  exists r calls,
    refreshAccessToken w refreshToken db = (r, db, calls) /\
    (truthy_string refreshToken = false ->
       calls = [] /\
       r = Thrown (mkError "No refresh token available - token rotation may not be enabled for this app")) /\
    (truthy_string refreshToken = true ->
       calls = [oauth_v2_access (or_keep refreshToken "")
                  (axios_post w (or_keep refreshToken ""))] /\
       match r with
       | Normal result =>
           rr_expires_in result <> 0 /\
           exists data,
             axios_post w (or_keep refreshToken "") = Some data /\
             oauth_ok data = true /\
             rr_access_token result = oauth_access_token data /\
             (forall n, oauth_expires_in data = Some n -> n <> 0 ->
                        rr_expires_in result = n)
       | Thrown e => e = mkError "Failed to refresh access token"
       end).
Proof.
  unfold refreshAccessToken.
  destruct (truthy_string refreshToken) eqn:Ht; cbn [negb].
  - unfold call_oauth.
    destruct (axios_post w (or_keep refreshToken "")) as [data|] eqn:Hax;
      unfold try_catch, bind, emit, ret, throw.
    + destruct (oauth_ok data) eqn:Hok; cbn [negb].
      * do 2 eexists. split; [reflexivity|]. split; [discriminate|].
        intros _. split; [reflexivity|]. simpl. split.
        -- unfold number_or.
           destruct (oauth_expires_in data) as [n|]; simpl; [|discriminate].
           destruct (n =? 0) eqn:E; simpl; [discriminate|].
           now apply Z.eqb_neq.
        -- exists data. repeat split; try assumption.
           intros n Hn Hnz. unfold number_or. rewrite Hn. simpl.
           apply Z.eqb_neq in Hnz. now rewrite Hnz.
      * do 2 eexists. split; [reflexivity|]. split; [discriminate|].
        intros _. split; reflexivity.
    + do 2 eexists. split; [reflexivity|]. split; [discriminate|].
      intros _. split; reflexivity.
  - do 2 eexists. split; [reflexivity|]. split; [|discriminate].
    intros _. split; reflexivity.
Qed.

(** X16.  [exchangeCodeForToken] never writes the store and makes exactly
    one call.  What it returns never carries an [expires_in] of 0 or an
    empty refresh token: both come back as absent; and it returns only
    when Slack answered [ok]. *)
Theorem exchangeCodeForToken_behaviour answer code db :
  exists r,
    exchangeCodeForToken answer code db
    = (r, db, [code_exchange code (answer code)]) /\
    match r with
    | Normal response =>
        tr_expires_in response <> Some 0 /\
        tr_refresh_token response <> Some "" /\
        exists data,
          answer code = Some data /\ access_ok data = true /\
          tr_access_token response = granted_access_token data /\
          tr_team_id response = granted_team_id data
    | Thrown e => e = mkError "Failed to exchange authorization code for token"
    end.
Proof.
  unfold exchangeCodeForToken, call_exchange.
  destruct (answer code) as [data|] eqn:Ha;
    unfold try_catch, bind, emit, ret, throw.
  - destruct (access_ok data) eqn:Hok; cbn [negb].
    + eexists. split; [reflexivity|]. simpl. split; [|split].
      * unfold number_or_null.
        destruct (granted_expires_in data) as [n|]; simpl; [|discriminate].
        destruct (n =? 0) eqn:E; simpl; [discriminate|].
        apply Z.eqb_neq in E. congruence.
      * unfold string_or_null.
        destruct (granted_refresh_token data) as [s|]; simpl; [|discriminate].
        destruct (String.eqb s "") eqn:E; simpl; [discriminate|].
        apply String.eqb_neq in E. congruence.
      * exists data. repeat split; assumption.
    + eexists. split; reflexivity.
  - eexists. split; reflexivity.
Qed.

(** ** The timers *)

Lemma stop_task_app before t rest :
  stop_task (List.length before) (before ++ t :: rest)
  = before ++ {| expression := expression t; job := job t; running := false |} :: rest.
Proof. induction before as [|b bs IH]; simpl; [reflexivity|now rewrite IH]. Qed.

Lemma start_consistent s : timers_consistent s -> timers_consistent (start s).
Proof.
  unfold timers_consistent, start.
  destruct (isRunning s) eqn:Hr; [now rewrite Hr|].
  intros (Hstopped & _ & _). simpl.
  exists (tasks s). repeat split. assumption.
Qed.

Lemma stop_consistent s : timers_consistent s -> timers_consistent (stop s).
Proof.
  unfold timers_consistent, stop.
  destruct (isRunning s) eqn:Hr.
  - intros (before & Hstopped & Htasks & Hc & Ht).
    cbn [isRunning tasks cronJob tokenRefreshJob].
    rewrite Hc, Ht, Htasks. rewrite stop_task_app.
    cbn [expression job running].
    replace (S (List.length before))
      with (List.length (before ++ [ {| expression := "* * * * *";
                                        job := process_scheduled_messages;
                                        running := false |} ]))
      by (rewrite length_app; simpl; lia).
    change (before ++ ?a :: ?b :: nil) with (before ++ [a] ++ [b]).
    rewrite app_assoc, stop_task_app. cbn [expression job running].
    repeat split. intros t Hin.
    apply in_app_or in Hin. destruct Hin as [Hin|[<-|[]]]; [|reflexivity].
    apply in_app_or in Hin. destruct Hin as [Hin|[<-|[]]]; [|reflexivity].
    now apply Hstopped.
  - intros (Hstopped & Hc & Ht).
    cbn [isRunning tasks cronJob tokenRefreshJob].
    rewrite Hc, Ht. repeat split. assumption.
Qed.

Lemma consistent_running_count s :
  timers_consistent s ->
  running_for process_scheduled_messages s = (if isRunning s then 1 else 0)%nat /\
  running_for refresh_expired_tokens s = (if isRunning s then 1 else 0)%nat.
Proof.
  assert (Hnone : forall (p : CronTask -> bool) ts, all_stopped ts ->
            filter (fun t => running t && p t) ts = []).
  { intros p ts Hs. induction ts as [|t rest IH]; [reflexivity|].
    simpl. rewrite (Hs t (or_introl eq_refl)). simpl.
    apply IH. intros x Hx. apply Hs. now right. }
  unfold timers_consistent, running_for. destruct (isRunning s).
  - intros (before & Hstopped & -> & _ & _).
    split; rewrite filter_app, Hnone by assumption; reflexivity.
  - intros (Hstopped & _ & _). split; rewrite Hnone by assumption; reflexivity.
Qed.

(** X17.  Whatever sequence of [start] and [stop] calls a new service
    receives, at most one timer runs for each of its two jobs: exactly
    one while [isRunning] holds and none otherwise.  A second [start]
    creates no second timer, and [stop] stops what [start] created. *)
Theorem timers_never_double calls :
  let s := fold_left lifecycle calls new_timers in
  running_for process_scheduled_messages s = (if isRunning s then 1 else 0)%nat /\
  running_for refresh_expired_tokens s = (if isRunning s then 1 else 0)%nat.
Proof.
  apply consistent_running_count.
  assert (H : forall s0, timers_consistent s0 ->
                         timers_consistent (fold_left lifecycle calls s0)).
  { induction calls as [|c rest IH]; intros s0 Hs0; simpl; [assumption|].
    apply IH. destruct c; [now apply start_consistent | now apply stop_consistent]. }
  apply H. unfold timers_consistent, new_timers. simpl.
  repeat split. intros t [].
Qed.

(** ** The middleware *)

Lemma truthy_string_Some s : truthy_string (Some s) = true <-> s <> "".
Proof.
  simpl. rewrite negb_true_iff. split.
  - intros H. now apply String.eqb_neq.
  - intros H. now apply String.eqb_neq.
Qed.

Lemma authMiddleware_gate database clock workspaceId db :
  exists gate,
    authMiddleware (E:=SlackCall) database clock workspaceId db
    = (Normal gate, db, []) /\
    (forall user,
       gate = next user <->
       database = connected /\ admitted workspaceId (seconds clock) db user) /\
    (forall f, gate = refused f ->
       (failure_status f = 500 /\
        database = not_connected /\ truthy_string workspaceId = true)
       \/ (failure_status f = 401 /\
           (database = connected \/ truthy_string workspaceId = false))).
Proof.
  unfold authMiddleware, try_catch, bind, getUserByWorkspaceId, ret, admitted.
  destruct (truthy_string workspaceId) eqn:Ht; cbn [negb].
  2:{ eexists. split; [reflexivity|]. split.
      - intros user. split; [discriminate|].
        intros (_ & ws & -> & Hne & _).
        apply truthy_string_Some in Hne. congruence.
      - intros f H. injection H as <-. right. split; [reflexivity|now right]. }
  destruct database.
  2:{ eexists. split; [reflexivity|]. split.
      - intros user. split; [discriminate|]. intros [H _]. discriminate.
      - intros f H. injection H as <-. left. now repeat split. }
  destruct workspaceId as [ws|]; [|discriminate].
  pose proof (proj1 (truthy_string_Some ws) Ht) as Hws. cbn [or_keep].
  destruct (findOne (by_workspace_id ws) (users db)) as [u|] eqn:Hu.
  2:{ eexists. split; [reflexivity|]. split.
      - intros user. split; [discriminate|].
        intros (_ & ws' & H & _ & Hf & _). injection H as <-. congruence.
      - intros f H. injection H as <-. right. split; [reflexivity|now left]. }
  destruct (token_expired u (seconds clock)) eqn:Hexp.
  { destruct (truthy_string (refresh_token u));
      (eexists; split; [reflexivity|]; split;
       [ intros user; split; [discriminate|];
         intros (_ & ws' & H & _ & Hf & He & _); injection H as <-; congruence
       | intros f H; injection H as <-; right; split; [reflexivity|now left] ]). }
  destruct (truthy_string (Some (access_token u))) eqn:Htok; cbn [negb].
  - apply truthy_string_Some in Htok.
    eexists. split; [reflexivity|]. split.
    + intros user. split.
      * intros H. injection H as <-. split; [reflexivity|].
        exists ws. repeat split; assumption.
      * intros (_ & ws' & H & _ & Hf & _). injection H as <-. congruence.
    + intros f H. discriminate.
  - eexists. split; [reflexivity|]. split.
    + intros user. split; [discriminate|].
      intros (_ & ws' & H & _ & Hf & _ & Hne). injection H as <-.
      rewrite Hu in Hf. injection Hf as <-.
      apply truthy_string_Some in Hne. congruence.
    + intros f H. injection H as <-. right. split; [reflexivity|now left].
Qed.

(** X18.  The middleware reads the store and writes nothing, calls
    nothing.  It lets a request through exactly when the store is
    connected and the header names a workspace whose stored user has a
    non-empty access token that is not expired, and then hands that user
    on.  A request that names a workspace while the store is not
    connected is refused with a 500; every other refusal is a 401. *)
Theorem authMiddleware_behaviour database clock workspaceId db :
  exists gate,
    authMiddleware (E:=SlackCall) database clock workspaceId db
    = (Normal gate, db, []) /\
    (forall user,
       gate = next user <->
       database = connected /\ admitted workspaceId (seconds clock) db user) /\
    (forall f, gate = refused f ->
       (failure_status f = 500 /\
        database = not_connected /\ truthy_string workspaceId = true)
       \/ (failure_status f = 401 /\
           (database = connected \/ truthy_string workspaceId = false))).
Proof. apply authMiddleware_gate. Qed.

Lemma getMe_behaviour database clock workspaceId db :
  exists reply,
    getMe (E:=SlackCall) database clock workspaceId db = (Normal reply, db, []) /\
    (forall info, reply = me_info info <->
       exists user,
         (database = connected /\ admitted workspaceId (seconds clock) db user) /\
         info = info_of user).
Proof.
  unfold getMe, try_catch, bind, getUserByWorkspaceId, ret, admitted.
  destruct (truthy_string workspaceId) eqn:Ht; cbn [negb].
  2:{ eexists. split; [reflexivity|].
      intros info. split; [discriminate|].
      intros (user & (_ & ws & -> & Hne & _) & _).
      apply truthy_string_Some in Hne. congruence. }
  destruct database.
  2:{ eexists. split; [reflexivity|].
      intros info. split; [discriminate|].
      intros (user & (H & _) & _). discriminate. }
  destruct workspaceId as [ws|]; [|discriminate].
  pose proof (proj1 (truthy_string_Some ws) Ht) as Hws. cbn [or_keep].
  destruct (findOne (by_workspace_id ws) (users db)) as [u|] eqn:Hu.
  2:{ eexists. split; [reflexivity|].
      intros info. split; [discriminate|].
      intros (user & (_ & ws' & H & _ & Hf & _) & _). injection H as <-. congruence. }
  destruct (truthy_string (Some (access_token u))) eqn:Htok; cbn [negb].
  2:{ eexists. split; [reflexivity|].
      intros info. split; [discriminate|].
      intros (user & (_ & ws' & H & _ & Hf & _ & Hne) & _). injection H as <-.
      rewrite Hu in Hf. injection Hf as <-.
      apply truthy_string_Some in Hne. congruence. }
  apply truthy_string_Some in Htok.
  destruct (token_expired u (seconds clock)) eqn:Hexp.
  { destruct (truthy_string (refresh_token u));
      (eexists; split; [reflexivity|];
       intros info; split; [discriminate|];
       intros (user & (_ & ws' & H & _ & Hf & He & _) & _); injection H as <-;
       congruence). }
  eexists. split; [reflexivity|].
  intros info. split.
  - intros H. injection H as <-. exists u. split; [|reflexivity].
    split; [reflexivity|]. exists ws. repeat split; assumption.
  - intros (user & (_ & ws' & H & _ & Hf & _) & ->). injection H as <-.
    rewrite Hu in Hf. injection Hf as <-. reflexivity.
Qed.

(** X19.  [/auth/me] makes the checks of the middleware in another
    order, with the same result.  It writes nothing and calls nothing,
    and it answers with a user's data exactly when the middleware lets a
    request with the same header through at the same time: whenever it
    answers, the middleware lets the request through and the data are
    those of the user the middleware hands on, and whenever the
    middleware lets a request through, [/auth/me] answers. *)
Theorem me_agrees_with_the_middleware database clock workspaceId db :
  exists reply,
    getMe (E:=SlackCall) database clock workspaceId db = (Normal reply, db, []) /\
    forall info,
      reply = me_info info <->
      exists user,
        authMiddleware (E:=SlackCall) database clock workspaceId db
        = (Normal (next user), db, []) /\
        info = info_of user.
Proof.
  destruct (authMiddleware_gate database clock workspaceId db)
    as (gate & Hrun & Hnext & _).
  destruct (getMe_behaviour database clock workspaceId db) as (reply & Hme & Hinfo).
  exists reply. split; [exact Hme|].
  intros info. rewrite Hinfo, Hrun. split.
  - intros (user & Hadm & ->). exists user. split; [|reflexivity].
    f_equal. f_equal. f_equal. now apply Hnext.
  - intros (user & H & ->). injection H as ->.
    exists user. split; [|reflexivity]. now apply Hnext.
Qed.

(** ** The handlers of [/messages] *)

(** X20.  Whenever [/schedule] answers 200, the request was
    authenticated, and exactly one message was added to the store: it
    belongs to the requester, is [pending] with no retries, carries the
    channel and text of the body (the text holds more than the white
    space that [trim] removes), and its
    [send_timestamp] is strictly after the current second.  The answer
    carries its id. *)
Theorem accepted_schedule_is_stored_for_the_future rw req db res db' log :
  postSchedule (E:=SlackCall) rw req db = (Normal res, db', log) ->
  statusCode res = 200 ->
  exists user chan text sendTimestamp,
    req_user req = Some user /\
    body_channel req = js_string chan /\
    body_message req = js_string text /\
    body_sendTimestamp req = js_number sendTimestamp /\
    trim text <> "" /\
    seconds (handler_clock rw) < sendTimestamp /\
    json_messageId res = Some (insertedId rw) /\
    users db' = users db /\
    scheduledMessages db'
    = scheduledMessages db
      ++ [ {| _id := insertedId rw; user_id := u_id user; channel := chan;
              message := text; send_timestamp := sendTimestamp;
              status := pending; retry_count := 0;
              created_at := insert_date rw; updated_at := insert_date rw |} ].
Proof.
  unfold postSchedule, try_catch.
  destruct (req_user req) as [user|];
    [|intros H; injection H as <- _ _; discriminate].
  destruct (negb (truthy (body_channel req)) || negb (truthy (body_message req))
            || negb (truthy (body_sendTimestamp req)));
    [intros H; injection H as <- _ _; discriminate|].
  destruct (body_channel req) as [| |?|?|chan|];
    try (intros H; injection H as <- _ _; discriminate).
  destruct (body_message req) as [| |?|?|text|];
    try (intros H; injection H as <- _ _; discriminate).
  destruct (body_sendTimestamp req) as [| |?|ts|?|];
    try (intros H; injection H as <- _ _; discriminate).
  destruct (Z.of_nat (String.length (trim text)) =? 0) eqn:Hblank;
    [intros H; injection H as <- _ _; discriminate|].
  destruct (ts <=? seconds (handler_clock rw)) eqn:Hts;
    [intros H; injection H as <- _ _; discriminate|].
  intros H _. injection H as <- <- _.
  exists user, chan, text, ts. repeat split; try reflexivity.
  - intros Hempty. rewrite Hempty in Hblank. discriminate.
  - now apply Z.leb_gt.
Qed.

Lemma accepted_schedule_witness :
  exists user chan text sendTimestamp,
    Some alice = Some user /\
    js_string "C42" = js_string chan /\
    js_string "later" = js_string text /\
    js_number 2001 = js_number sendTimestamp /\
    trim text <> "" /\
    seconds 2000000 < sendTimestamp /\
    Some 9%N = Some 9%N /\
    [alice] = [alice] /\
    [ {| _id := 9%N; user_id := 1%N; channel := "C42"; message := "later";
         send_timestamp := 2001; status := pending; retry_count := 0;
         created_at := 2000001; updated_at := 2000001 |} ]
    = []
      ++ [ {| _id := 9%N; user_id := u_id user; channel := chan;
              message := text; send_timestamp := sendTimestamp;
              status := pending; retry_count := 0;
              created_at := 2000001; updated_at := 2000001 |} ].
Proof.
  apply (accepted_schedule_is_stored_for_the_future
           {| handler_clock := 2000000; insertedId := 9%N; insert_date := 2000001 |}
           {| req_user := Some alice; body_channel := js_string "C42";
              body_message := js_string "later";
              body_sendTimestamp := js_number 2001 |}
           (mkDatabase [alice] [])
           {| statusCode := 200; json_error := None; json_messageId := Some 9%N |}
           (mkDatabase [alice]
              [ {| _id := 9%N; user_id := 1%N; channel := "C42"; message := "later";
                   send_timestamp := 2001; status := pending; retry_count := 0;
                   created_at := 2000001; updated_at := 2000001 |} ])
           []).
  - reflexivity.
  - reflexivity.
Defined.

(** X21.  [/send] never writes the store.  It calls Slack at most once,
    and only for a request whose channel and text are non-empty strings,
    with the requester's own access token; it answers 200 exactly when
    that call was accepted. *)
Theorem postSend_behaviour w user chan text db :
  exists res calls,
    postSend w user chan text db = (Normal res, db, calls) /\
    (calls = [] \/
     exists u c m,
       user = Some u /\ chan = js_string c /\ text = js_string m /\
       c <> "" /\ m <> "" /\
       calls = [chat_postMessage (access_token u) c m
                  (postMessage w (access_token u) c m)]) /\
    (statusCode res = 200 <->
     exists token c m, calls = [chat_postMessage token c m (Some true)]).
Proof.
  unfold postSend, try_catch.
  destruct user as [u|].
  2:{ do 2 eexists. split; [reflexivity|]. split; [now left|].
      split; [discriminate|]. intros (? & ? & ? & H). discriminate. }
  destruct (truthy chan) eqn:Hc; cbn [negb orb].
  2:{ do 2 eexists. split; [reflexivity|]. split; [now left|].
      split; [discriminate|]. intros (? & ? & ? & H). discriminate. }
  destruct (truthy text) eqn:Ht; cbn [negb orb].
  2:{ do 2 eexists. split; [reflexivity|]. split; [now left|].
      split; [discriminate|]. intros (? & ? & ? & H). discriminate. }
  destruct chan as [| |?|?|c|];
    try (do 2 eexists; split; [reflexivity|]; split; [now left|];
         split; [discriminate|]; intros (? & ? & ? & H); discriminate).
  destruct text as [| |?|?|m|];
    try (do 2 eexists; split; [reflexivity|]; split; [now left|];
         split; [discriminate|]; intros (? & ? & ? & H); discriminate).
  destruct (Z.of_nat (String.length (trim m)) =? 0).
  { do 2 eexists. split; [reflexivity|]. split; [now left|].
    split; [discriminate|]. intros (? & ? & ? & H). discriminate. }
  assert (Hcne : c <> "") by (simpl in Hc; apply negb_true_iff in Hc;
                              now apply String.eqb_neq).
  assert (Hmne : m <> "") by (simpl in Ht; apply negb_true_iff in Ht;
                              now apply String.eqb_neq).
  unfold bind, sendMessage, try_catch, bind, call_postMessage.
  destruct (postMessage w (access_token u) c m) as [[|]|] eqn:Hp;
    unfold emit, ret, throw, bind; cbn [negb];
    (do 2 eexists; split; [reflexivity|]; split;
     [ right; exists u, c, m; rewrite Hp; repeat split; assumption | ]).
  - split; [intros _; do 3 eexists; reflexivity | reflexivity].
  - split; [discriminate | intros (? & ? & ? & H); discriminate].
  - split; [discriminate | intros (? & ? & ? & H); discriminate].
Qed.

Lemma format_message_sorted msgs :
  Sorted by_send_timestamp msgs ->
  Sorted by_sendTimestamp (map format_message msgs).
Proof.
  induction 1 as [|m rest Hrest IH Hhd]; simpl; constructor; [assumption|].
  destruct Hhd; simpl; constructor. assumption.
Qed.

(** X22.  Behind the middleware, [/scheduled] shows a requester the
    messages of the user stored for the workspace of the header and no
    others: all of them, each as the store holds it, in ascending order
    of send time; the store is connected and is not written. *)
Theorem listing_shows_only_own_messages database clock workspaceId db shown db' log :
  behindAuth (E:=SlackCall) database clock workspaceId getScheduled db
  = (Normal (inr (listed shown)), db', log) ->
  exists user,
    database = connected /\
    admitted workspaceId (seconds clock) db user /\
    db' = db /\ log = [] /\
    Sorted by_sendTimestamp shown /\
    (forall f, In f shown <->
       exists m, In m (scheduledMessages db) /\ user_id m = u_id user /\
                 f = format_message m).
Proof.
  unfold behindAuth, bind.
  destruct (authMiddleware_gate database clock workspaceId db)
    as (gate & Hrun & Hnext & _).
  rewrite Hrun. destruct gate as [user|f]; [|discriminate].
  pose proof (proj1 (Hnext user) eq_refl) as [Hconn Hadm].
  unfold getScheduled, getScheduledMessages, try_catch, bind, ret.
  unfold getScheduledMessagesByUserId. simpl.
  intros H. injection H as <- <- <-.
  set (own := filter (by_user (u_id user)) (scheduledMessages db)).
  pose proof (sort_send_timestamp_perm own) as Hperm.
  exists user. repeat split; try assumption.
  - apply format_message_sorted, sort_send_timestamp_sorted.
  - intros Hf. apply in_map_iff in Hf. destruct Hf as (m & <- & Hm).
    apply (Permutation_in _ Hperm) in Hm. apply filter_In in Hm.
    destruct Hm as [Hm Hu]. apply N.eqb_eq in Hu. exists m. tauto.
  - intros (m & Hm & Hu & ->). apply in_map.
    apply (Permutation_in _ (Permutation_sym Hperm)).
    apply filter_In. split; [assumption|]. now apply N.eqb_eq.
Qed.

Lemma listing_witness :
  exists user,
    connected = connected /\
    admitted (Some "T0001") (seconds 2000000)
      (mkDatabase [alice] [hello pending 0; early]) user /\
    mkDatabase [alice] [hello pending 0; early]
    = mkDatabase [alice] [hello pending 0; early] /\
    @nil SlackCall = [] /\
    Sorted by_sendTimestamp [format_message early; format_message (hello pending 0)] /\
    (forall f, In f [format_message early; format_message (hello pending 0)] <->
       exists m, In m [hello pending 0; early] /\ user_id m = u_id user /\
                 f = format_message m).
Proof.
  apply (listing_shows_only_own_messages connected 2000000 (Some "T0001")
           (mkDatabase [alice] [hello pending 0; early])
           [format_message early; format_message (hello pending 0)]
           (mkDatabase [alice] [hello pending 0; early]) []).
  reflexivity.
Defined.

(** ** Cancelling through the route *)

Lemma deleteOne_keeps (Doc : Type) (query : Doc -> bool) docs d :
  In d docs -> query d = false -> In d (deleteOne query docs).
Proof.
  induction docs as [|x rest IH]; simpl; [tauto|].
  intros [->|Hin] Hq.
  - rewrite Hq. now left.
  - destruct (query x); [assumption|]. right. now apply IH.
Qed.

Lemma deleteOne_length (Doc : Type) (query : Doc -> bool) docs d :
  findOne query docs = Some d ->
  (List.length (deleteOne query docs) + 1 = List.length docs)%nat.
Proof.
  unfold findOne. induction docs as [|x rest IH]; simpl; [discriminate|].
  destruct (query x); [intros _; lia|]. intros H. simpl. rewrite <- (IH H). lia.
Qed.

(** X23.  [DELETE /scheduled/:messageId] never touches the users and
    never removes or changes a message of another user.  It answers 200
    only when the id parses and a message with that id belonged to the
    requester, and then exactly one message is gone; with any other
    answer the store is as it was. *)
Theorem delete_route_removes_only_own_message objectId user messageId db :
  exists res db',
    deleteScheduled (E:=SlackCall) objectId (Some user) messageId db
    = (Normal res, db', []) /\
    users db' = users db /\
    (forall m, In m (scheduledMessages db) -> user_id m <> u_id user ->
               In m (scheduledMessages db')) /\
    (statusCode res <> 200 -> db' = db) /\
    (statusCode res = 200 ->
       exists id m,
         objectId messageId = Some id /\
         In m (scheduledMessages db) /\ _id m = id /\ user_id m = u_id user /\
         (List.length (scheduledMessages db') + 1
          = List.length (scheduledMessages db))%nat).
Proof.
  unfold deleteScheduled, try_catch.
  destruct (truthy (js_string messageId)); cbn [negb].
  2:{ do 2 eexists. split; [reflexivity|]. split; [reflexivity|].
      split; [auto|]. split; [reflexivity|discriminate]. }
  unfold bind, cancelScheduledMessageByString, try_catch.
  destruct (objectId messageId) as [id|].
  2:{ do 2 eexists. split; [reflexivity|]. split; [reflexivity|].
      split; [auto|]. split; [reflexivity|discriminate]. }
  unfold deleteScheduledMessage, deletedCount. rewrite existsb_findOne.
  destruct (findOne (by_id_and_user id (u_id user)) (scheduledMessages db))
    as [found|] eqn:Hf; simpl.
  - do 2 eexists. split; [reflexivity|]. split; [reflexivity|]. simpl.
    split; [|split; [congruence|]].
    + intros m Hin Hother. apply deleteOne_keeps; [assumption|].
      unfold by_id_and_user. apply andb_false_iff. right. now apply N.eqb_neq.
    + intros _. exists id, found.
      pose proof (findOne_In _ _ _ _ Hf) as [Hin Hq].
      unfold by_id_and_user in Hq. apply andb_prop in Hq. destruct Hq as [Hi Ho].
      apply N.eqb_eq in Hi. apply N.eqb_eq in Ho.
      repeat split; try assumption.
      eapply deleteOne_length; eassumption.
  - rewrite (deleteOne_missing _ _ _ Hf).
    do 2 eexists. split; [reflexivity|]. split; [reflexivity|]. simpl.
    split; [auto|]. split; [intros _; now destruct db|discriminate].
Qed.

(** ** The OAuth callback *)

Lemma findOne_updateOne_first (Doc : Type) (query other : Doc -> bool)
    (change : Doc -> Doc) docs d :
  (forall x, other (change x) = other x) ->
  findOne query docs = Some d ->
  findOne other docs = Some d ->
  findOne other (updateOne query change docs) = Some (change d).
Proof.
  intros Hkeep. unfold findOne.
  induction docs as [|x rest IH]; simpl; [discriminate|].
  intros Hq Ho. destruct (query x) eqn:Eq.
  - injection Hq as ->. simpl. rewrite Hkeep.
    destruct (other d) eqn:Eo; [reflexivity|].
    apply find_some in Ho. destruct Ho as [_ Ho]. congruence.
  - simpl. destruct (other x) eqn:Eo.
    + injection Ho as ->. apply find_some in Hq. destruct Hq as [_ Hq]. congruence.
    + now apply IH.
Qed.

Lemma In_user_by_id us u :
  NoDup (map u_id us) -> In u us -> findOne (user_by_id (u_id u)) us = Some u.
Proof.
  unfold findOne. induction us as [|x rest IH]; simpl; [intros _ []|].
  intros Hnd Hin. apply NoDup_cons_iff in Hnd. destruct Hnd as [Hfresh Hnd].
  unfold user_by_id at 1. destruct (N.eqb (u_id x) (u_id u)) eqn:E.
  - destruct Hin as [->|Hin]; [reflexivity|].
    apply N.eqb_eq in E. exfalso. apply Hfresh. rewrite E. now apply in_map.
  - destruct Hin as [->|Hin]; [now rewrite N.eqb_refl in E|]. now apply IH.
Qed.

Lemma by_workspace_id_none ws us :
  findOne (by_workspace_id ws) us = None -> ~ In ws (map slack_workspace_id us).
Proof.
  unfold findOne. intros Hnone Hin. apply in_map_iff in Hin.
  destruct Hin as (u & Hu & Hin).
  apply (find_none _ _ Hnone) in Hin. unfold by_workspace_id in Hin.
  rewrite Hu, String.eqb_refl in Hin. discriminate.
Qed.

(** The callback for a code Slack accepts, in one equation. *)
Lemma callback_run cw c oauthError db data :
  truthy oauthError = false ->
  c <> "" ->
  exchange_answer cw c = Some data ->
  access_ok data = true ->
  let refresh := string_or_null (string_or_null (granted_refresh_token data)) in
  let expires := expiry_from (seconds (callback_clock cw))
                             (number_or_null (granted_expires_in data)) in
  slackCallback connected cw (js_string c) oauthError db
  = (Normal (to_client_connected (granted_team_id data) (granted_team_name data)),
     match findOne (by_workspace_id (granted_team_id data)) (users db) with
     | Some existing =>
         {| users :=
              updateOne (user_by_id (u_id existing))
                (set_user_fields
                   (connection_update (granted_access_token data) refresh expires)
                   (user_write_date cw))
                (users db);
            scheduledMessages := scheduledMessages db |}
     | None =>
         {| users :=
              users db
              ++ [ {| u_id := user_insertedId cw;
                      slack_workspace_id := granted_team_id data;
                      access_token := granted_access_token data;
                      refresh_token := refresh;
                      token_expires_at := expires;
                      u_created_at := user_write_date cw;
                      u_updated_at := user_write_date cw |} ];
            scheduledMessages := scheduledMessages db |}
     end,
     [code_exchange c (Some data)]).
Proof.
  intros Herr Hc Hans Hok. cbv zeta.
  unfold slackCallback. rewrite Herr.
  assert (Htruthy : truthy (js_string c) = true)
    by (simpl; apply negb_true_iff; now apply String.eqb_neq).
  rewrite Htruthy. cbn [negb].
  unfold exchangeCodeForToken, call_exchange. rewrite Hans.
  unfold try_catch, bind, emit, ret, throw. rewrite Hok. cbn [negb].
  unfold getUserByWorkspaceId.
  cbn [tr_team_id tr_access_token tr_refresh_token tr_expires_in tr_team_name].
  destruct (findOne (by_workspace_id (granted_team_id data)) (users db))
    as [existing|] eqn:Hex.
  - unfold updateUser.
    pose proof (findOne_In _ _ _ _ Hex) as [Hin _].
    assert (Hcount : (matchedCount (user_by_id (u_id existing)) (users db) =? 0) = false).
    { unfold matchedCount. rewrite existsb_findOne.
      destruct (findOne (user_by_id (u_id existing)) (users db)) eqn:E; [reflexivity|].
      unfold findOne in E. apply (find_none _ _ E) in Hin.
      unfold user_by_id in Hin. now rewrite N.eqb_refl in Hin. }
    rewrite Hcount. reflexivity.
  - unfold createUser. reflexivity.
Qed.

Lemma string_or_null_twice x : string_or_null (string_or_null x) = string_or_null x.
Proof.
  unfold string_or_null. destruct (truthy_string x) eqn:E; [now rewrite E|reflexivity].
Qed.

Lemma callback_connected cw c oauthError db data :
  NoDup (map u_id (users db)) ->
  truthy oauthError = false ->
  c <> "" ->
  exchange_answer cw c = Some data ->
  access_ok data = true ->
  exists db' user,
    slackCallback connected cw (js_string c) oauthError db
    = (Normal (to_client_connected (granted_team_id data) (granted_team_name data)),
       db', [code_exchange c (Some data)]) /\
    scheduledMessages db' = scheduledMessages db /\
    findOne (by_workspace_id (granted_team_id data)) (users db') = Some user /\
    access_token user = granted_access_token data /\
    refresh_token user = string_or_null (granted_refresh_token data) /\
    token_expires_at user
    = expiry_from (seconds (callback_clock cw))
                  (number_or_null (granted_expires_in data)) /\
    match findOne (by_workspace_id (granted_team_id data)) (users db) with
    | Some existing =>
        u_id user = u_id existing /\ map u_id (users db') = map u_id (users db)
    | None => u_id user = user_insertedId cw /\ users db' = users db ++ [user]
    end.
Proof.
  intros Hnd Herr Hc Hans Hok.
  pose proof (callback_run cw c oauthError db data Herr Hc Hans Hok) as Hrun.
  cbv zeta in Hrun. rewrite string_or_null_twice in Hrun. rewrite Hrun.
  destruct (findOne (by_workspace_id (granted_team_id data)) (users db))
    as [existing|] eqn:Hex.
  - pose proof (findOne_In _ _ _ _ Hex) as [Hin _].
    pose proof (In_user_by_id _ _ Hnd Hin) as Hid.
    do 2 eexists. split; [reflexivity|]. split; [reflexivity|]. split.
    + cbn [users].
      apply (findOne_updateOne_first _ _ _ _ _ existing);
        [reflexivity | exact Hid | exact Hex].
    + repeat split. cbn [users]. now apply map_updateOne.
  - do 2 eexists. split; [reflexivity|]. split; [reflexivity|]. split.
    + cbn [users]. rewrite (findOne_app_fresh _ _ _ _ Hex).
      unfold by_workspace_id. cbn [slack_workspace_id].
      now rewrite String.eqb_refl.
    + repeat split.
Qed.

(** X24.  On a connected store, when Slack accepts the code, the
    callback leaves the messages alone and connects the workspace: looked
    up by the team id, the stored user carries Slack's access token, its
    refresh token (absent when empty) and an expiry of now plus
    [expires_in] (absent when that is missing or 0).  A user already
    stored for the workspace is updated in place and keeps its id, so its
    messages stay its own; otherwise one user is added. *)
Theorem callback_connects_the_workspace cw c oauthError db data :
  NoDup (map u_id (users db)) ->
  truthy oauthError = false ->
  c <> "" ->
  exchange_answer cw c = Some data ->
  access_ok data = true ->
  exists db' user,
    slackCallback connected cw (js_string c) oauthError db
    = (Normal (to_client_connected (granted_team_id data) (granted_team_name data)),
       db', [code_exchange c (Some data)]) /\
    scheduledMessages db' = scheduledMessages db /\
    findOne (by_workspace_id (granted_team_id data)) (users db') = Some user /\
    access_token user = granted_access_token data /\
    refresh_token user = string_or_null (granted_refresh_token data) /\
    token_expires_at user
    = expiry_from (seconds (callback_clock cw))
                  (number_or_null (granted_expires_in data)) /\
    match findOne (by_workspace_id (granted_team_id data)) (users db) with
    | Some existing =>
        u_id user = u_id existing /\ map u_id (users db') = map u_id (users db)
    | None => u_id user = user_insertedId cw /\ users db' = users db ++ [user]
    end.
Proof. apply callback_connected. Qed.

Lemma callback_connects_witness :
  exists db' user,
    slackCallback connected callback_at_2000 (js_string "code-1") js_undefined
      (mkDatabase [alice] [hello pending 0])
    = (Normal (to_client_connected "T0002" "Second"), db',
       [code_exchange "code-1" (Some granted)]) /\
    scheduledMessages db' = [hello pending 0] /\
    findOne (by_workspace_id "T0002") (users db') = Some user /\
    access_token user = "xoxb-first" /\
    refresh_token user = string_or_null (Some "xoxe-first") /\
    token_expires_at user = expiry_from (seconds 2000000) (number_or_null (Some 43200)) /\
    match findOne (by_workspace_id "T0002") [alice] with
    | Some existing => u_id user = u_id existing /\ map u_id (users db') = [1%N]
    | None => u_id user = 2%N /\ users db' = [alice] ++ [user]
    end.
Proof.
  apply (callback_connects_the_workspace callback_at_2000 "code-1" js_undefined
           (mkDatabase [alice] [hello pending 0]) granted).
  - vm_compute. repeat constructor. intros [].
  - reflexivity.
  - discriminate.
  - reflexivity.
  - reflexivity.
Defined.

Lemma exchangeCodeForToken_store answer code db :
  snd (fst (exchangeCodeForToken answer code db)) = db.
Proof.
  unfold exchangeCodeForToken, call_exchange.
  destruct (answer code) as [data|]; unfold try_catch, bind, emit, ret, throw;
    [destruct (access_ok data)|]; reflexivity.
Qed.

Lemma distinct_with_new (A : Type) (known : list A) (new : A) :
  NoDup known -> ~ In new known -> NoDup (known ++ [new]).
Proof.
  induction known as [|k rest IH]; intros Hnd Hnew; simpl.
  - constructor; [intros []|constructor].
  - apply NoDup_cons_iff in Hnd. destruct Hnd as [Hk Hrest].
    constructor.
    + intros Hin. apply in_app_or in Hin. destruct Hin as [Hin|[<-|[]]].
      * contradiction.
      * apply Hnew. now left.
    + apply IH; [assumption|]. intros Hin. apply Hnew. now right.
Qed.

(** X25.  Whatever the request, whatever Slack answers and whether or
    not the store is connected, the callback keeps the workspace ids of
    the stored users distinct: it adds a user only when none is stored
    for the team, and an update never changes a workspace id. *)
Theorem callback_keeps_workspaces_distinct database cw code oauthError db :
  NoDup (map slack_workspace_id (users db)) ->
  NoDup (map slack_workspace_id
           (users (snd (fst (slackCallback database cw code oauthError db))))).
Proof.
  intros Hnd. unfold slackCallback, try_catch.
  destruct (truthy oauthError); [exact Hnd|].
  destruct code as [| |?|?|c|]; try exact Hnd.
  destruct (truthy (js_string c)); cbn [negb]; [|exact Hnd].
  unfold bind at 1.
  pose proof (exchangeCodeForToken_store (exchange_answer cw) c db) as Hstore.
  destruct (exchangeCodeForToken (exchange_answer cw) c db) as [[r db0] log0].
  simpl in Hstore. subst db0.
  destruct r as [tokenResponse|e]; [|exact Hnd].
  unfold bind, getUserByWorkspaceId.
  destruct database; [|exact Hnd].
  destruct (findOne (by_workspace_id (tr_team_id tokenResponse)) (users db))
    as [existing|] eqn:Hex.
  - unfold updateUser.
    destruct (matchedCount (user_by_id (u_id existing)) (users db) =? 0);
      simpl; rewrite map_updateOne by reflexivity; exact Hnd.
  - unfold createUser. simpl. rewrite map_app. simpl.
    apply by_workspace_id_none in Hex.
    now apply distinct_with_new.
Qed.

Lemma callback_keeps_workspaces_distinct_witness :
  NoDup (map slack_workspace_id
           (users (snd (fst (slackCallback connected callback_at_2000
                               (js_string "code-1") js_undefined
                               (mkDatabase [alice] [hello pending 0])))))).
Proof.
  apply callback_keeps_workspaces_distinct.
  vm_compute. repeat constructor. intros [].
Defined.

(** ** The refresh route *)

Lemma user_by_id_exists us u :
  In u us -> exists first, findOne (user_by_id (u_id u)) us = Some first.
Proof.
  intros Hin. destruct (findOne (user_by_id (u_id u)) us) as [x|] eqn:E; [eauto|].
  unfold findOne in E. apply (find_none _ _ E) in Hin.
  unfold user_by_id in Hin. now rewrite N.eqb_refl in Hin.
Qed.

(** X26.  [/auth/refresh] never touches the messages.  When it does not
    answer with a new expiry (as when the store is not connected) the
    store is exactly as before.  When it does, Slack accepted the stored
    refresh token in the one call made, and the user then holds Slack's
    new access token and the expiry of the answer, which is never the
    current second itself. *)
Theorem refresh_route_behaviour database w clock date workspaceId db :
  exists reply db' calls,
    postRefresh database w clock date workspaceId db = (Normal reply, db', calls) /\
    scheduledMessages db' = scheduledMessages db /\
    match reply with
    | not_refreshed _ _ => db' = db
    | refreshed_until expires_at =>
        expires_at <> seconds clock /\
        exists ws user token data user',
          workspaceId = Some ws /\
          findOne (by_workspace_id ws) (users db) = Some user /\
          refresh_token user = Some token /\
          calls = [oauth_v2_access token (Some data)] /\
          oauth_ok data = true /\
          findOne (user_by_id (u_id user)) (users db') = Some user' /\
          access_token user' = oauth_access_token data /\
          token_expires_at user' = Some expires_at
    end.
Proof.
  unfold postRefresh, try_catch.
  destruct (truthy_string workspaceId) eqn:Hws; cbn [negb].
  2:{ do 3 eexists. split; [reflexivity|]. split; reflexivity. }
  destruct workspaceId as [ws|]; [|discriminate]. cbn [or_keep].
  unfold bind at 1, getUserByWorkspaceId.
  destruct database.
  2:{ do 3 eexists. split; [reflexivity|]. split; reflexivity. }
  destruct (findOne (by_workspace_id ws) (users db)) as [user|] eqn:Hu.
  2:{ do 3 eexists. split; [reflexivity|]. split; reflexivity. }
  destruct (truthy_string (refresh_token user)) eqn:Hrt; cbn [negb].
  2:{ do 3 eexists. split; [reflexivity|]. split; reflexivity. }
  destruct (refresh_token user) as [token|] eqn:Htok; [|discriminate].
  unfold refreshAccessToken. rewrite Hrt. cbn [negb or_keep].
  unfold call_oauth.
  destruct (axios_post w token) as [data|] eqn:Hax;
    unfold try_catch, bind, emit, ret, throw.
  2:{ do 3 eexists. split; [reflexivity|]. split; [reflexivity|]. now destruct db. }
  destruct (oauth_ok data) eqn:Hok; cbn [negb].
  2:{ do 3 eexists. split; [reflexivity|]. split; [reflexivity|]. now destruct db. }
  pose proof (findOne_In _ _ _ _ Hu) as [Hin _].
  destruct (user_by_id_exists _ _ Hin) as (first & Hfirst).
  unfold updateUser. rewrite (matchedCount_found _ _ _ _ Hfirst).
  do 3 eexists. split; [reflexivity|]. split; [reflexivity|]. cbn [rr_expires_in].
  split.
  - assert (Hnz : number_or (oauth_expires_in data) 43200 <> 0).
    { unfold number_or. destruct (oauth_expires_in data) as [n|]; simpl; [|discriminate].
      destruct (n =? 0) eqn:E; simpl; [discriminate|]. now apply Z.eqb_neq. }
    lia.
  - exists ws, user, token, data. eexists.
    split; [reflexivity|]. split; [assumption|]. split; [exact Htok|].
    split; [reflexivity|]. split; [assumption|]. cbn [users].
    rewrite findOne_updateOne_same by reflexivity. rewrite Hfirst.
    split; [reflexivity|]. split; reflexivity.
Qed.

(** ** Connecting, then calling *)

(** X27.  On a connected store, after a callback that Slack accepted,
    with a team id and an access token that are not empty, the middleware
    lets requests of that workspace through, with the connected user, at
    every clock before the expiry the callback stored (at every clock
    when it stored none). *)
Theorem connected_workspace_is_let_through cw c oauthError db data clock :
  NoDup (map u_id (users db)) ->
  truthy oauthError = false ->
  c <> "" ->
  exchange_answer cw c = Some data ->
  access_ok data = true ->
  granted_team_id data <> "" ->
  granted_access_token data <> "" ->
  match number_or_null (granted_expires_in data) with
  | Some n => seconds clock < seconds (callback_clock cw) + n
  | None => True
  end ->
  exists db' user,
    snd (fst (slackCallback connected cw (js_string c) oauthError db)) = db' /\
    authMiddleware (E:=SlackCall) connected clock (Some (granted_team_id data)) db'
    = (Normal (next user), db', []) /\
    access_token user = granted_access_token data.
Proof.
  intros Hnd Herr Hc Hans Hok Hteam Htoken Hfresh.
  destruct (callback_connected cw c oauthError db data Hnd Herr Hc Hans Hok)
    as (db' & user & Hrun & _ & Hfind & Htok & _ & Hexp & _).
  exists db', user. rewrite Hrun. split; [reflexivity|]. split; [|assumption].
  destruct (authMiddleware_gate connected clock (Some (granted_team_id data)) db')
    as (gate & Hgate & Hnext & _).
  rewrite Hgate. f_equal. f_equal. f_equal. apply Hnext.
  split; [reflexivity|].
  exists (granted_team_id data). repeat split; try assumption.
  - unfold token_expired. rewrite Hexp. unfold expiry_from.
    destruct (number_or_null (granted_expires_in data)) as [n|] eqn:En;
      [|reflexivity].
    assert (Hn : truthy_number (Some n) = true).
    { unfold number_or_null in En.
      destruct (truthy_number (granted_expires_in data)) eqn:E; [|discriminate].
      now rewrite En in E. }
    rewrite Hn. cbn [or_keep].
    apply andb_false_iff. right. apply Z.leb_gt. lia.
  - now rewrite Htok.
Qed.

Lemma connected_workspace_witness :
  exists db' user,
    snd (fst (slackCallback connected callback_at_2000 (js_string "code-1")
                js_undefined (mkDatabase [alice] [hello pending 0]))) = db' /\
    authMiddleware (E:=SlackCall) connected 9000000 (Some "T0002") db'
    = (Normal (next user), db', []) /\
    access_token user = "xoxb-first".
Proof.
  apply (connected_workspace_is_let_through callback_at_2000 "code-1" js_undefined
           (mkDatabase [alice] [hello pending 0]) granted 9000000).
  - vm_compute. repeat constructor. intros [].
  - reflexivity.
  - discriminate.
  - reflexivity.
  - reflexivity.
  - discriminate.
  - discriminate.
  - vm_compute. reflexivity.
Defined.

(** ** The delay before a retry *)

(** X28.  In a store with distinct ids, a pending message whose delivery
    failed and was rescheduled is in no listing made before 300 seconds
    have passed on the clock of its retry: the next attempt waits. *)
Theorem retried_message_waits w msg db r db' calls token chan text result clock :
  NoDup (ids db) ->
  messageById (_id msg) db = Some msg ->
  status msg = pending ->
  retry_count msg < 2 ->
  processMessage w msg db = (r, db', calls) ->
  In (chat_postMessage token chan text result) calls ->
  result <> Some true ->
  seconds clock < seconds (Date_now w at_retry_delay) + 300 ->
  findOne (by_id (_id msg))
          (filter (is_due (seconds clock)) (scheduledMessages db')) = None.
Proof.
  intros Hnd Hm Hst Hrc Hrun Hin Hres Hclock.
  destruct (findOne (by_id (_id msg))
              (filter (is_due (seconds clock)) (scheduledMessages db')))
    as [listed|] eqn:Hfind; [exfalso|reflexivity].
  apply findOne_In in Hfind. destruct Hfind as [Hlisted Hsame].
  apply by_id_true in Hsame.
  destruct (processMessage_run _ _ _ _ _ _ _ Hm Hrun)
    as (updates & site & Hout & _ & Hmsg' & _ & Hids).
  apply filter_In in Hlisted. destruct Hlisted as [Hl Hdue].
  assert (Hnd' : NoDup (ids db')) by now rewrite Hids.
  pose proof (In_messageById db' listed Hnd' Hl) as Hfound.
  rewrite Hsame, Hmsg' in Hfound. injection Hfound as <-.
  apply is_due_iff in Hdue. destruct Hdue as [_ Hdue].
  delivery_outcomes Hout Hin.
  - congruence.
  - simpl in Hdue. lia.
  - lia.
Qed.

Lemma retried_message_waits_witness :
  findOne (by_id 7%N)
    (filter (is_due (seconds 2299000))
       (scheduledMessages
          (snd (fst (processMessage (slack (Some false)) (hello pending 0)
                       (mkDatabase [alice] [hello pending 0; early]))))))
  = None.
Proof.
  apply (retried_message_waits (slack (Some false)) (hello pending 0)
           (mkDatabase [alice] [hello pending 0; early])
           (Normal tt) _ [chat_postMessage "xoxb-alice" "C42" "hello" (Some false)]
           "xoxb-alice" "C42" "hello" (Some false) 2299000).
  - vm_compute. repeat constructor; simpl; intuition discriminate.
  - reflexivity.
  - reflexivity.
  - simpl; lia.
  - reflexivity.
  - simpl; auto.
  - discriminate.
  - vm_compute. reflexivity.
Defined.

(** ** The listing of a tick *)

(** X29.  Whatever the order in which the store answers, the listing of a
    tick leaves the store alone and holds exactly the stored messages
    that are [pending] with [send_timestamp] at or before the current
    second, each as often as the store holds it: a message with a later
    [send_timestamp] is never listed, and in a store with distinct ids no
    message is listed twice.  The tick then processes that list. *)
Theorem listing_is_exactly_the_due_messages tw db :
  exists due,
    getPendingMessages (E:=Delivery) (listing_order tw) (listing_clock tw) db
    = (Normal due, db, []) /\
    Permutation due
      (filter (is_due (seconds (listing_clock tw))) (scheduledMessages db)) /\
    (forall m, In m due <->
               In m (scheduledMessages db) /\ status m = pending /\
               send_timestamp m <= seconds (listing_clock tw)) /\
    (NoDup (ids db) -> NoDup (map _id due)) /\
    processScheduledMessages tw db
    = try_catch (processListed tw due) (fun _ => ret tt) db.
Proof.
  exists (arrange (listing_order tw)
            (filter (is_due (seconds (listing_clock tw))) (scheduledMessages db))).
  split; [reflexivity|]. split; [apply arrange_permutes|]. split; [|split].
  - intros m. rewrite listed_iff, is_due_iff. tauto.
  - apply due_ids_distinct.
  - unfold processScheduledMessages, try_catch, bind, getPendingMessages.
    destruct (processListed tw _ db) as [[[[]|e] db1] log1]; reflexivity.
Qed.
